(** * PushProx client (cmd/client/main.go): a shallow embedding

    The agent polls a relay for scrape jobs, executes them and pushes the
    result back.  This file embeds the client of [cmd/client/main.go]
    together with the parts of Go's [net/url], [net/http] and of
    [github.com/cenkalti/backoff/v4] that the client calls, and proves the
    properties of the poll / execute / push protocol.

    Conventions
    - a Go [string] is a Rocq [string]: a sequence of 8-bit bytes;
    - a [time.Duration] and a [time.Time] are [Z], in nanoseconds;
    - a [float64] is a binary64 float of [SpecFloat], with the rounding
      of IEEE 754;
    - a Go [error] is represented by its message, the value of [Error()];
    - a call returning [(T, error)] returns [T + error];
    - the outside world (the network, the file system, the clock, the
      random source) is a record of oracles, [World], and the calls the
      client makes to the network are recorded in a trace. *)

From Stdlib Require Import String Ascii List ZArith NArith QArith.
From Stdlib Require Import Bool Lia.
From Stdlib Require Import SpecFloat.
From Stdlib Require Import DecimalString.
Import ListNotations.

Local Open Scope string_scope.

(** Go errors, by their message. *)
Definition error := string.

(* ================================================================== *)
(** * Bytes and strings *)

Module Strs.

Definition byte_between (lo hi c : ascii) : bool :=
  (N_of_ascii lo <=? N_of_ascii c)%N && (N_of_ascii c <=? N_of_ascii hi)%N.

Definition is_digit (c : ascii) : bool := byte_between "0" "9" c.

Definition is_alpha (c : ascii) : bool :=
  byte_between "a" "z" c || byte_between "A" "Z" c.

Definition is_upper (c : ascii) : bool := byte_between "A" "Z" c.
Definition is_lower (c : ascii) : bool := byte_between "a" "z" c.

Definition to_upper (c : ascii) : ascii :=
  if is_lower c then ascii_of_N (N_of_ascii c - 32) else c.

Definition to_lower (c : ascii) : ascii :=
  if is_upper c then ascii_of_N (N_of_ascii c + 32) else c.

(** [c] is one of the bytes of [set]. *)
Fixpoint mem (c : ascii) (set : string) : bool :=
  match set with
  | EmptyString => false
  | String d set' => Ascii.eqb c d || mem c set'
  end.

(** [strings.Contains(s, string(c))] for a single byte. *)
Definition contains_byte (s : string) (c : ascii) : bool := mem c s.

Fixpoint all (p : ascii -> bool) (s : string) : bool :=
  match s with
  | EmptyString => true
  | String c s' => p c && all p s'
  end.

(** [strings.Split(s, string(sep))]: the pieces of [s] between the
    occurrences of [sep]; never the empty list. *)
Fixpoint split (sep : ascii) (s : string) : list string :=
  match s with
  | EmptyString => [EmptyString]
  | String c s' =>
      if Ascii.eqb c sep then EmptyString :: split sep s'
      else match split sep s' with
           | [] => [String c EmptyString]
           | p :: ps => String c p :: ps
           end
  end.

(** [strings.Cut(s, string(sep))]: the text before the first [sep] and
    the text after it; the whole of [s] and the empty string when [sep]
    does not occur. *)
Fixpoint cut (sep : ascii) (s : string) : string * string :=
  match s with
  | EmptyString => (EmptyString, EmptyString)
  | String c s' =>
      if Ascii.eqb c sep then (EmptyString, s')
      else let (a, b) := cut sep s' in (String c a, b)
  end.

(** The text after the last occurrence of [sep], with the text before
    it: [strings.LastIndexByte] followed by the two slices
    [s[:i]] and [s[i+1:]]; [None] when [sep] does not occur. *)
Fixpoint cut_last (sep : ascii) (s : string) : option (string * string) :=
  match s with
  | EmptyString => None
  | String c s' =>
      match cut_last sep s' with
      | Some (a, b) => Some (String c a, b)
      | None => if Ascii.eqb c sep then Some (EmptyString, s') else None
      end
  end.

(** [strings.TrimRight(s, string(c))]. *)
Fixpoint trim_right (c : ascii) (s : string) : string :=
  match s with
  | EmptyString => EmptyString
  | String d s' =>
      match trim_right c s' with
      | EmptyString => if Ascii.eqb d c then EmptyString else String d EmptyString
      | t => String d t
      end
  end.

(** Joins the pieces with [sep] between them. *)
Fixpoint join (sep : ascii) (ps : list string) : string :=
  match ps with
  | [] => EmptyString
  | [p] => p
  | p :: ps' => p ++ String sep (join sep ps')
  end.

End Strs.

(* ================================================================== *)
(** * net/url: escaping, query values, URLs

    The functions follow the package as of Go 1.17: a semicolon in a
    query is not a separator, and a URL has a raw fragment. *)

Module Url.

Import Strs.

(** The escaping modes of [net/url] that the client reaches. *)
Inductive encoding : Type :=
| encodePath
| encodeHost
| encodeQueryComponent
| encodeFragment.

Definition is_query_component (mode : encoding) : bool :=
  match mode with encodeQueryComponent => true | _ => false end.

Definition is_host (mode : encoding) : bool :=
  match mode with encodeHost => true | _ => false end.

Definition is_alnum (c : ascii) : bool := is_alpha c || is_digit c.

(** The double quote, byte 34. *)
Definition dquote : ascii := ascii_of_N 34.

(** [shouldEscape(c, mode)]. *)
Definition shouldEscape (c : ascii) (mode : encoding) : bool :=
  if is_alnum c then false
  else if is_host mode && (mem c "!$&'()*+,;=:[]<>" || Ascii.eqb c dquote)
  then false
  else if mem c "-_.~" then false
  else if mem c "$&+,/:;=?@" then
    match mode with
    | encodePath => Ascii.eqb c "?"
    | encodeQueryComponent => true
    | encodeFragment => false
    | encodeHost => true
    end
  else match mode with
       | encodeFragment => negb (mem c "!()*")
       | _ => true
       end.

Definition upperhex (n : N) : ascii :=
  match n with
  | 0 => "0" | 1 => "1" | 2 => "2" | 3 => "3" | 4 => "4" | 5 => "5"
  | 6 => "6" | 7 => "7" | 8 => "8" | 9 => "9" | 10 => "A" | 11 => "B"
  | 12 => "C" | 13 => "D" | 14 => "E" | _ => "F"
  end%N%char.

Definition ishex (c : ascii) : bool :=
  is_digit c || byte_between "a" "f" c || byte_between "A" "F" c.

Definition unhex (c : ascii) : N :=
  if is_digit c then N_of_ascii c - N_of_ascii "0"
  else if byte_between "a" "f" c then N_of_ascii c - N_of_ascii "a" + 10
  else if byte_between "A" "F" c then N_of_ascii c - N_of_ascii "A" + 10
  else 0.

(** What [escape] writes for one byte. *)
Definition escape_byte (mode : encoding) (c : ascii) : string :=
  if Ascii.eqb c " " && is_query_component mode then "+"
  else if shouldEscape c mode then
    String "%" (String (upperhex (N_of_ascii c / 16))
               (String (upperhex (N_of_ascii c mod 16)) EmptyString))
  else String c EmptyString.

(** [escape(s, mode)]. *)
Fixpoint escape (s : string) (mode : encoding) : string :=
  match s with
  | EmptyString => EmptyString
  | String c s' => escape_byte mode c ++ escape s' mode
  end.

(** [unescape(s, mode)] for the path, fragment and query-component
    modes: [None] is an [EscapeError]. *)
Fixpoint unescape (s : string) (mode : encoding) : option string :=
  match s with
  | EmptyString => Some EmptyString
  | String "%" (String a (String b s')) =>
      if ishex a && ishex b then
        option_map (String (ascii_of_N (unhex a * 16 + unhex b)))
                   (unescape s' mode)
      else None
  | String "%" _ => None
  | String "+" s' =>
      option_map (String (if is_query_component mode then " " else "+")%char)
                 (unescape s' mode)
  | String c s' => option_map (String c) (unescape s' mode)
  end.

Definition QueryEscape (s : string) : string := escape s encodeQueryComponent.
Definition QueryUnescape (s : string) : option string :=
  unescape s encodeQueryComponent.

(** ** url.Values: a map from a key to the list of its values.

    The map is an association list with one entry per key; [Encode]
    orders the keys itself, so the order of the entries is not
    observable. *)
Definition Values := list (string * list string).

Fixpoint lookup (v : Values) (key : string) : list string :=
  match v with
  | [] => []
  | (k, vs) :: v' => if String.eqb k key then vs else lookup v' key
  end.

(** [v.Get(key)]: the first value of [key], or the empty string. *)
Definition Get (v : Values) (key : string) : string :=
  match lookup v key with
  | [] => EmptyString
  | x :: _ => x
  end.

(** [v.Add(key, value)]: [v[key] = append(v[key], value)]. *)
Fixpoint Add (v : Values) (key value : string) : Values :=
  match v with
  | [] => [(key, [value])]
  | (k, vs) :: v' =>
      if String.eqb k key then (k, (vs ++ [value])%list) :: v'
      else (k, vs) :: Add v' key value
  end.

(** [v.Del(key)]: [delete(v, key)]. *)
Definition Del (v : Values) (key : string) : Values :=
  filter (fun kv => negb (String.eqb (fst kv) key)) v.

(** [sort.Strings] on the keys: insertion into a list ordered by the
    byte-wise order of the keys. *)
Fixpoint insert_sorted (kv : string * list string) (v : Values) : Values :=
  match v with
  | [] => [kv]
  | kv' :: v' =>
      if String.leb (fst kv) (fst kv') then kv :: kv' :: v'
      else kv' :: insert_sorted kv v'
  end.

Definition sort_keys (v : Values) : Values :=
  fold_right insert_sorted [] v.

(** The [key=value] pairs in the order [Encode] writes them. *)
Definition pairs (v : Values) : list (string * string) :=
  flat_map (fun kv => map (fun x => (fst kv, x)) (snd kv)) (sort_keys v).

Definition encode_pair (p : string * string) : string :=
  QueryEscape (fst p) ++ String "=" (QueryEscape (snd p)).

(** [v.Encode()]: "URL encoded" form, sorted by key. *)
Definition Encode (v : Values) : string :=
  join "&" (map encode_pair (pairs v)).

(** Adding one [key=value] pair. *)
Definition add_pair (m : Values) (p : string * string) : Values :=
  Add m (fst p) (snd p).

(** One turn of the loop of [parseQuery] on the piece [piece] cut at
    the next [&]: a piece holding a semicolon, an empty piece, and a
    piece whose key or value does not unescape are skipped (the error
    they raise is dropped by [URL.Query]). *)
Definition parse_piece (m : Values) (piece : string) : Values :=
  if contains_byte piece ";" then m
  else if String.eqb piece "" then m
  else
    let (key, value) := cut "=" piece in
    match QueryUnescape key with
    | None => m
    | Some key =>
        match QueryUnescape value with
        | None => m
        | Some value => Add m key value
        end
    end.

(** [ParseQuery(query)] with its error dropped, as [URL.Query] does. *)
Definition ParseQuery (query : string) : Values :=
  fold_left parse_piece (split "&" query) [].

(** ** url.URL *)

Record URL : Type := mkURL {
  Scheme : string;
  Opaque : string;
  (** the user information, as [Userinfo.String] prints it *)
  User : option string;
  (** host or host:port *)
  Host : string;
  Path : string;
  RawPath : string;
  ForceQuery : bool;
  RawQuery : string;
  Fragment : string;
  RawFragment : string
}.

Definition set_Scheme (u : URL) (s : string) : URL :=
  mkURL s (Opaque u) (User u) (Host u) (Path u) (RawPath u) (ForceQuery u)
        (RawQuery u) (Fragment u) (RawFragment u).

Definition set_Host (u : URL) (h : string) : URL :=
  mkURL (Scheme u) (Opaque u) (User u) h (Path u) (RawPath u) (ForceQuery u)
        (RawQuery u) (Fragment u) (RawFragment u).

Definition set_RawQuery (u : URL) (q : string) : URL :=
  mkURL (Scheme u) (Opaque u) (User u) (Host u) (Path u) (RawPath u)
        (ForceQuery u) q (Fragment u) (RawFragment u).

(** [u.Query()]. *)
Definition Query (u : URL) : Values := ParseQuery (RawQuery u).

(** [validOptionalPort] applied to the text from the last colon on,
    given the text [port] after that colon. *)
Definition validOptionalPort_after_colon (port : string) : bool :=
  all is_digit port.

(** [splitHostPort(hostPort)]: the port is split off at the last colon
    when only digits follow it, and the brackets of an IPv6 literal are
    removed from the host. *)
Definition strip_brackets (host : string) : string :=
  match host with
  | String "[" rest =>
      match cut_last "]" rest with
      | Some (inner, EmptyString) => inner
      | _ => host
      end
  | _ => host
  end.

Definition splitHostPort (hostPort : string) : string * string :=
  match cut_last ":" hostPort with
  | Some (host, port) =>
      if validOptionalPort_after_colon port then (strip_brackets host, port)
      else (strip_brackets hostPort, EmptyString)
  | None => (strip_brackets hostPort, EmptyString)
  end.

(** [u.Hostname()] and [u.Port()]. *)
Definition Hostname (u : URL) : string := fst (splitHostPort (Host u)).
Definition Port (u : URL) : string := snd (splitHostPort (Host u)).

(** [validEncoded(s, mode)]. *)
Definition validEncoded (s : string) (mode : encoding) : bool :=
  all (fun c => mem c "!$&'()*+,;=:@[]%" || negb (shouldEscape c mode)) s.

(** [u.EscapedPath()]. *)
Definition EscapedPath (u : URL) : string :=
  let fallback :=
    if String.eqb (Path u) "*" then "*" else escape (Path u) encodePath in
  if negb (String.eqb (RawPath u) "") && validEncoded (RawPath u) encodePath
  then match unescape (RawPath u) encodePath with
       | Some p => if String.eqb p (Path u) then RawPath u else fallback
       | None => fallback
       end
  else fallback.

(** [u.EscapedFragment()]. *)
Definition EscapedFragment (u : URL) : string :=
  let fallback := escape (Fragment u) encodeFragment in
  if negb (String.eqb (RawFragment u) "")
     && validEncoded (RawFragment u) encodeFragment
  then match unescape (RawFragment u) encodeFragment with
       | Some f => if String.eqb f (Fragment u) then RawFragment u else fallback
       | None => fallback
       end
  else fallback.

Definition is_empty (s : string) : bool := String.eqb s "".

Definition starts_with_slash (s : string) : bool :=
  match s with String "/" _ => true | _ => false end.

(** [u.String()]: the URL reassembled; a path that does not start with
    a slash gets one when there is a host. *)
Definition String_ (u : URL) : string :=
  let scheme := if is_empty (Scheme u) then "" else Scheme u ++ ":" in
  let body :=
    if negb (is_empty (Opaque u)) then scheme ++ Opaque u
    else
      let authority :=
        if negb (is_empty (Scheme u)) || negb (is_empty (Host u))
           || match User u with Some _ => true | None => false end
        then
          (if negb (is_empty (Host u)) || negb (is_empty (Path u))
              || match User u with Some _ => true | None => false end
           then "//" else "")
          ++ match User u with Some ui => ui ++ "@" | None => "" end
          ++ (if is_empty (Host u) then "" else escape (Host u) encodeHost)
        else "" in
      let path := EscapedPath u in
      let slash :=
        if negb (is_empty path) && negb (starts_with_slash path)
           && negb (is_empty (Host u))
        then "/" else "" in
      let prefix := scheme ++ authority ++ slash in
      let dot :=
        if is_empty prefix && contains_byte (fst (cut "/" path)) ":"
        then "./" else "" in
      prefix ++ dot ++ path in
  let query :=
    if ForceQuery u || negb (is_empty (RawQuery u))
    then "?" ++ RawQuery u else "" in
  let fragment :=
    if is_empty (Fragment u) then "" else "#" ++ EscapedFragment u in
  body ++ query ++ fragment.

End Url.

(* ================================================================== *)
(** * net/http: headers, requests, responses, clients *)

Module Http.

Import Strs.

(** ** http.Header: a map from the canonical form of a header name to
    its values; an association list with one entry per key. *)
Definition Header := list (string * list string).

(** [validHeaderFieldByte]: the bytes of an HTTP token. *)
Definition validHeaderFieldByte (c : ascii) : bool :=
  is_alpha c || is_digit c || mem c "!#$%&'*+-.^_`|~".

(** The loop of [canonicalMIMEHeaderKey]: upper case for the first
    letter and for a letter after a dash, lower case for the others. *)
Fixpoint canonical_loop (upper : bool) (s : string) : string :=
  match s with
  | EmptyString => EmptyString
  | String c s' =>
      let c' := if upper then to_upper c else to_lower c in
      String c' (canonical_loop (Ascii.eqb c' "-") s')
  end.

(** [textproto.CanonicalMIMEHeaderKey]: a name with a byte that is not
    a token byte is returned unchanged. *)
Definition CanonicalMIMEHeaderKey (s : string) : string :=
  if all validHeaderFieldByte s then canonical_loop true s else s.

Fixpoint header_lookup (h : Header) (key : string) : list string :=
  match h with
  | [] => []
  | (k, vs) :: h' => if String.eqb k key then vs else header_lookup h' key
  end.

(** [h.Get(key)]: the first value of the canonical form of [key]. *)
Definition Get (h : Header) (key : string) : string :=
  match header_lookup h (CanonicalMIMEHeaderKey key) with
  | [] => EmptyString
  | x :: _ => x
  end.

Fixpoint header_store (h : Header) (key : string) (vs : list string) : Header :=
  match h with
  | [] => [(key, vs)]
  | (k, vs') :: h' =>
      if String.eqb k key then (k, vs) :: h'
      else (k, vs') :: header_store h' key vs
  end.

(** [h.Set(key, value)]: the canonical form of [key] gets the single
    value [value]. *)
Definition Set_ (h : Header) (key value : string) : Header :=
  header_store h (CanonicalMIMEHeaderKey key) [value].

(** ** context.Context, as far as the client uses it: its deadline. *)
Record Context : Type := mkContext { Deadline : option Z }.

Definition Background : Context := mkContext None.

(** [context.WithTimeout(parent, timeout)] when the clock reads [now]:
    the deadline is [now + timeout], unless the parent already has an
    earlier one. *)
Definition WithTimeout (parent : Context) (now timeout : Z) : Context :=
  let d := (now + timeout)%Z in
  match Deadline parent with
  | Some cur => if (cur <? d)%Z then parent else mkContext (Some d)
  | None => mkContext (Some d)
  end.

(** ** http.Response *)
Record Response : Type := mkResponse {
  StatusCode : Z;
  RespHeader : Header;
  RespBody : string
}.

Definition StatusInternalServerError : Z := 500.

(** The body of a request: nothing, some bytes, or the bytes that
    [Response.Write] produces for a response. *)
Inductive Payload : Type :=
| NoBody
| Bytes (s : string)
| Written (resp : Response).

(** ** http.Request *)
Record Request : Type := mkRequest {
  Method : string;
  URL : Url.URL;
  ReqHeader : Header;
  Body : Payload;
  RequestURI : string;
  Ctx : Context
}.

Definition set_URL (r : Request) (u : Url.URL) : Request :=
  mkRequest (Method r) u (ReqHeader r) (Body r) (RequestURI r) (Ctx r).

Definition set_Header (r : Request) (h : Header) : Request :=
  mkRequest (Method r) (URL r) h (Body r) (RequestURI r) (Ctx r).

Definition set_RequestURI (r : Request) (s : string) : Request :=
  mkRequest (Method r) (URL r) (ReqHeader r) (Body r) s (Ctx r).

(** [r.WithContext(ctx)]. *)
Definition WithContext (r : Request) (ctx : Context) : Request :=
  mkRequest (Method r) (URL r) (ReqHeader r) (Body r) (RequestURI r) ctx.

(** ** tls.Config, http.Transport and http.Client, by their settings. *)
Record tls_Config : Type := mk_tls_Config {
  Certificates : list string;
  InsecureSkipVerify : bool;
  RootCAs : option string
}.

Record Transport_ : Type := mkTransport {
  ProxyFromEnvironment : bool;
  DialTimeout : Z;
  DialKeepAlive : Z;
  DualStack : bool;
  MaxIdleConns : Z;
  IdleConnTimeout : Z;
  TLSHandshakeTimeout : Z;
  ExpectContinueTimeout : Z;
  TLSClientConfig : tls_Config
}.

(** A client with no transport of its own, [&http.Client{}], uses
    [http.DefaultTransport]. *)
Record Client : Type := mkClient { Transport : option Transport_ }.

(** [removeEmptyPort(host)]: a host that ends in a colon loses it. *)
Definition removeEmptyPort (host : string) : string :=
  match cut_last ":" host with
  | Some (h, EmptyString) => h
  | _ => host
  end.

End Http.

(* ================================================================== *)
(** * float64

    The arithmetic of Go's [float64] is that of IEEE 754 binary64 with
    rounding to nearest, ties to even: the operations of [SpecFloat] at
    precision 53.  No operation is fused with another (the agent is
    built for amd64, where the compiler does not fuse). *)

Module F64.

Local Open Scope Z_scope.

Definition prec : Z := 53.
Definition emax : Z := 1024.

Definition float64 : Type := spec_float.

(** [float64(i)] of an integer: the nearest float. *)
Definition of_int (i : Z) : float64 := binary_normalize prec emax i 0 false.

Definition add : float64 -> float64 -> float64 := SFadd prec emax.
Definition sub : float64 -> float64 -> float64 := SFsub prec emax.
Definition mul : float64 -> float64 -> float64 := SFmul prec emax.
Definition div : float64 -> float64 -> float64 := SFdiv prec emax.
Definition eqb : float64 -> float64 -> bool := SFeqb.
Definition leb : float64 -> float64 -> bool := SFleb.

(** A float given by a rational: the quotient of two integers, rounded.
    Every [float64] is such a quotient without rounding, with a power of
    two below; 0.5 is [1 # 2] and 1.5 is [3 # 2]. *)
Definition of_rational (q : Q) : float64 :=
  div (of_int (Qnum q)) (of_int (Zpos (Qden q))).

Definition MinInt64 : Z := - 2 ^ 63.
Definition MaxInt64 : Z := 2 ^ 63 - 1.

(** [int64(x)], and so [time.Duration(x)], of a float: the fraction is
    dropped; a value that no [int64] holds (too large, infinite, not a
    number) converts to the smallest [int64], as on amd64. *)
Definition to_int64 (x : float64) : Z :=
  match x with
  | S754_zero _ => 0
  | S754_finite s m e =>
      let magnitude :=
        if 0 <=? e then Z.shiftl (Zpos m) e else Z.shiftr (Zpos m) (- e) in
      let i := if s then - magnitude else magnitude in
      if (MinInt64 <=? i) && (i <=? MaxInt64) then i else MinInt64
  | S754_infinity _ | S754_nan => MinInt64
  end.

End F64.

(* ================================================================== *)
(** * github.com/cenkalti/backoff/v4: ExponentialBackOff

    The [float64] fields of the policy and the samples of
    [rand.Float64()] are given by the rationals they equal and are
    converted where the library computes with them. *)


Module Backoff.

Local Open Scope Z_scope.

Definition Millisecond : Z := 1000000.
Definition Second : Z := 1000 * Millisecond.
Definition Minute : Z := 60 * Second.

Record ExponentialBackOff : Type := mkExponentialBackOff {
  InitialInterval : Z;
  RandomizationFactor : Q;
  Multiplier : Q;
  MaxInterval : Z;
  MaxElapsedTime : Z;
  Stop : Z;
  currentInterval : Z;
  startTime : Z
}.

(** [backoff.Stop]: no more retries should be made. *)
Definition Stop_ : Z := -1.

Definition DefaultInitialInterval : Z := 500 * Millisecond.
Definition DefaultRandomizationFactor : Q := 1 # 2.
Definition DefaultMultiplier : Q := 3 # 2.
Definition DefaultMaxInterval : Z := 60 * Second.
Definition DefaultMaxElapsedTime : Z := 15 * Minute.

(** [b.Reset()]: the interval goes back to the initial value and the
    elapsed time restarts, at the clock reading [now]. *)
Definition Reset (b : ExponentialBackOff) (now : Z) : ExponentialBackOff :=
  mkExponentialBackOff (InitialInterval b) (RandomizationFactor b)
    (Multiplier b) (MaxInterval b) (MaxElapsedTime b) (Stop b)
    (InitialInterval b) now.

(** [backoff.NewExponentialBackOff()]. *)
Definition NewExponentialBackOff (now : Z) : ExponentialBackOff :=
  Reset (mkExponentialBackOff DefaultInitialInterval
           DefaultRandomizationFactor DefaultMultiplier DefaultMaxInterval
           DefaultMaxElapsedTime Stop_ 0 0) now.

(** [getRandomValueFromInterval(randomizationFactor, random,
    currentInterval)]: a value of
    [[cur - factor * cur, cur + factor * cur]], picked by [random],
    a sample of [[0, 1)]. *)
Definition getRandomValueFromInterval
           (randomizationFactor random : Q) (cur : Z) : Z :=
  if F64.eqb (F64.of_rational randomizationFactor) (F64.of_int 0) then cur
  else
    let delta := F64.mul (F64.of_rational randomizationFactor) (F64.of_int cur) in
    let minInterval := F64.sub (F64.of_int cur) delta in
    let maxInterval := F64.add (F64.of_int cur) delta in
    F64.to_int64
      (F64.add minInterval
         (F64.mul (F64.of_rational random)
            (F64.add (F64.sub maxInterval minInterval) (F64.of_int 1)))).

Definition set_currentInterval (b : ExponentialBackOff) (cur : Z)
  : ExponentialBackOff :=
  mkExponentialBackOff (InitialInterval b) (RandomizationFactor b)
    (Multiplier b) (MaxInterval b) (MaxElapsedTime b) (Stop b)
    cur (startTime b).

(** [b.incrementCurrentInterval()]: multiply by the multiplier, and
    stay at the maximum once the product would pass it. *)
Definition incrementCurrentInterval (b : ExponentialBackOff)
  : ExponentialBackOff :=
  if F64.leb (F64.div (F64.of_int (MaxInterval b))
                      (F64.of_rational (Multiplier b)))
             (F64.of_int (currentInterval b))
  then set_currentInterval b (MaxInterval b)
  else set_currentInterval b
         (F64.to_int64
            (F64.mul (F64.of_int (currentInterval b))
                     (F64.of_rational (Multiplier b)))).

(** [b.NextBackOff()] when the clock reads [now] and [rand.Float64()]
    returns [random]: the interval to wait and the updated policy. *)
Definition NextBackOff (b : ExponentialBackOff) (now : Z) (random : Q)
  : Z * ExponentialBackOff :=
  let elapsed := now - startTime b in
  let next :=
    getRandomValueFromInterval (RandomizationFactor b) random
                               (currentInterval b) in
  let b' := incrementCurrentInterval b in
  if negb (MaxElapsedTime b =? 0) && (MaxElapsedTime b <? elapsed + next)
  then (Stop b, b')
  else (next, b').

End Backoff.

(* ================================================================== *)
(** * cmd/client/main.go *)

Module Client.

Import Strs.
Local Open Scope Z_scope.

(** ** The command line flags (the [kingpin] variables). *)
Record Flags : Type := mkFlags {
  myFqdn : string;
  proxyURL : string;
  tokenPath : string;
  useLocalhost : bool;
  allowPort : string;
  retryInitialWait : Z;
  retryMaxWait : Z;
  matchStrings : list string
}.

(** ** The outside world.

    Each field is what one call into the environment returns. *)
Record World : Type := mkWorld {
  (** [url.Parse] *)
  url_Parse : string -> Url.URL + error;
  (** [base.ResolveReference(ref)] *)
  url_ResolveReference : Url.URL -> Url.URL -> Url.URL;
  (** [ioutil.ReadFile] *)
  ioutil_ReadFile : string -> string + error;
  (** [client.Do(request)]: the round trip of [request] on [client] *)
  client_Do : Http.Client -> Http.Request -> Http.Response + error;
  (** [http.ReadRequest] on the body of the poll response *)
  http_ReadRequest : string -> Http.Request + error;
  (** the name of the timeout header of a job, and the parser of its
      value, a number of seconds, into a duration *)
  timeout_header : string;
  parse_seconds : string -> Z + error;
  (** [fmt.Sprintf("%f", float64(d)/1e9)] of a duration [d] *)
  format_seconds : Z -> string;
  (** the clock, read by [context.WithTimeout] in [doScrape], by
      [time.Until] in [doPush] and by the backoff policy *)
  now_scrape : Z;
  now_push : Z;
  now_backoff : Z;
  (** [rand.Float64()], drawn by [NextBackOff]: the float, as the
      rational it equals *)
  rand_Float64 : Q
}.

(** ** The effects of the client: the calls it makes to the network, in
    order, each with the place in [main.go] that makes it and the
    client it goes through; the three error counters; and the waits of
    the retry timer. *)
Inductive CallSite : Type :=
| PollCall      (* client.Post in doPoll *)
| ScrapeCall    (* client.Do in scrapeFederatedPrometheusEndpoint *)
| PushCall.     (* client.Do in doPush *)

Record Event : Type := mkEvent {
  site : CallSite;
  via : Http.Client;
  sent : Http.Request
}.

Record State : Type := mkState {
  trace : list Event;
  scrapeErrorCounter : nat;
  pushErrorCounter : nat;
  pollErrorCounter : nat;
  waits : list Z
}.

Definition initial_state : State := mkState [] 0 0 0 [].

(** A computation with effects on [State]. *)
Definition M (A : Type) : Type := State -> A * State.

Definition ret {A : Type} (a : A) : M A := fun st => (a, st).

Definition bind {A B : Type} (m : M A) (k : A -> M B) : M B :=
  fun st => let (a, st') := m st in k a st'.

Notation "x <- m ;; k" := (bind m (fun x => k))
  (at level 61, m at next level, right associativity).
Notation "m ;;; k" := (bind m (fun _ => k))
  (at level 61, right associativity).

(** The state after one more network call. *)
Definition record (st : State) (e : Event) : State :=
  mkState (trace st ++ [e]) (scrapeErrorCounter st) (pushErrorCounter st)
          (pollErrorCounter st) (waits st).

Definition emit (e : Event) : M unit := fun st => (tt, record st e).

Definition scrapeErrorCounter_Inc : M unit :=
  fun st => (tt, mkState (trace st) (S (scrapeErrorCounter st))
                         (pushErrorCounter st) (pollErrorCounter st)
                         (waits st)).

Definition pushErrorCounter_Inc : M unit :=
  fun st => (tt, mkState (trace st) (scrapeErrorCounter st)
                         (S (pushErrorCounter st)) (pollErrorCounter st)
                         (waits st)).

Definition pollErrorCounter_Inc : M unit :=
  fun st => (tt, mkState (trace st) (scrapeErrorCounter st)
                         (pushErrorCounter st) (S (pollErrorCounter st))
                         (waits st)).

Definition wait (d : Z) : M unit :=
  fun st => (tt, mkState (trace st) (scrapeErrorCounter st)
                         (pushErrorCounter st) (pollErrorCounter st)
                         (waits st ++ [d])).

(** [errors.Wrap(err, msg).Error()]: the message, then the cause. *)
Definition errors_Wrap (err : error) (msg : string) : error :=
  (msg ++ ": " ++ err)%string.

(** The range of a [time.Duration], an [int64] of nanoseconds. *)
Definition minDuration : Z := - 2 ^ 63.
Definition maxDuration : Z := 2 ^ 63 - 1.

(** [time.Until(deadline)] when the clock reads [now]; a difference
    outside of the range of a [Duration] saturates.  A context without
    a deadline gives the zero [Time], year 1, which lies further in the
    past than a [Duration] can hold. *)
Definition time_Until (now : Z) (deadline : option Z) : Z :=
  match deadline with
  | None => minDuration
  | Some t => Z.max minDuration (Z.min maxDuration (t - now))
  end.

Section Coordinator.

Variable W : World.
Variable F : Flags.

(** One network call: recorded, then answered by the world. *)
Definition call (s : CallSite) (client : Http.Client) (request : Http.Request)
  : M (Http.Response + error) :=
  emit (mkEvent s client request) ;;; ret (client_Do W client request).

(** [http.NewRequest(method, url, body)]. *)
Definition http_NewRequest (method url : string) (body : Http.Payload)
  : Http.Request + error :=
  match url_Parse W url with
  | inr err => inr err
  | inl u =>
      let u := Url.set_Host u (Http.removeEmptyPort (Url.Host u)) in
      inl (Http.mkRequest method u [] body "" Http.Background)
  end.

(** [client.Post(url, contentType, body)]. *)
Definition client_Post (s : CallSite) (client : Http.Client)
           (url contentType body : string) : M (Http.Response + error) :=
  match http_NewRequest "POST" url (Http.Bytes body) with
  | inr err => ret (inr err)
  | inl req =>
      call s client
           (Http.set_Header req
              (Http.Set_ (Http.ReqHeader req) "Content-Type" contentType))
  end.

(** Modelled from the spec: the text of the error of
    [util.GetHeaderTimeout] for a job without timeout header; the spec
    does not give it. *)
Definition missing_timeout_error : error := "missing timeout header".

(** Modelled from the spec: [util.GetHeaderTimeout], of the package
    [util] of this repository, is not among the sources.  The
    deadline of a job comes from a required timeout header; a missing
    or malformed timeout header is a hard error, and no default is
    assumed.  The name of the header and the reading of its value are
    taken from the world. *)
Definition GetHeaderTimeout (h : Http.Header) : Z + error :=
  match Http.header_lookup h (Http.CanonicalMIMEHeaderKey (timeout_header W)) with
  | [] => inr missing_timeout_error
  | v :: _ => parse_seconds W v
  end.

(** [createURL(host, path, params)] (lines 84-92). *)
Definition createURL (host path : string) (params : Url.Values) : string :=
  Url.String_ (Url.mkURL "http" "" None host path "" false
                         (Url.Encode params) "" "").

Definition federate_host : string :=
  "prometheus-server.prometheus.svc.cluster.local".

(** [scrapeFederatedPrometheusEndpoint()] (lines 110-133).  The
    request built first, from the host with port 80, is discarded:
    [url.Parse] reads the text before the colon as a scheme and
    returns a URL, so that the assignment to its scheme has no
    effect to record.  The request that is sent goes through a
    client constructed here, [&http.Client{}]. *)
Definition scrapeFederatedPrometheusEndpoint : M (Http.Response + error) :=
  let host := federate_host in
  let path := "federate" in
  let parameters :=
    fold_left (fun p s => Url.Add p "match[]" s) (matchStrings F) [] in
  let url := createURL host path parameters in
  match http_NewRequest "GET" url Http.NoBody with
  | inr err => ret (inr err)
  | inl request =>
      let client := Http.mkClient None in
      call ScrapeCall client request
  end.

(** [doPush(resp, origRequest, client)] (lines 233-262): [None] is
    the [nil] error. *)
Definition doPush (resp : Http.Response) (origRequest : Http.Request)
           (client : Http.Client) : M (option error) :=
  let header :=
    Http.Set_ (Http.RespHeader resp) "id"
              (Http.Get (Http.ReqHeader origRequest) "id") in
  let deadline := Http.Deadline (Http.Ctx origRequest) in
  let header :=
    Http.Set_ header "X-Prometheus-Scrape-Timeout"
              (format_seconds W (time_Until (now_push W) deadline)) in
  let resp := Http.mkResponse (Http.StatusCode resp) header (Http.RespBody resp) in
  match url_Parse W (proxyURL F) with
  | inr err => ret (Some err)
  | inl base =>
      match url_Parse W "push" with
      | inr err => ret (Some err)
      | inl u =>
          let url := url_ResolveReference W base u in
          let request :=
            Http.mkRequest "POST" url [] (Http.Written resp) "" Http.Background in
          let request := Http.WithContext request (Http.Ctx origRequest) in
          r <- call PushCall client request ;;
          match r with
          | inr err => ret (Some err)
          | inl _ => ret None
          end
      end
  end.

(** [handleErr(request, client, err)] (lines 153-167). *)
Definition handleErr (request : Http.Request) (client : Http.Client)
           (err : error) : M unit :=
  scrapeErrorCounter_Inc ;;;
  let resp := Http.mkResponse Http.StatusInternalServerError [] err in
  r <- doPush resp request client ;;
  match r with
  | Some _ => pushErrorCounter_Inc
  | None => ret tt
  end.

(** Lines 179-186 of [doScrape]: the scheme override. *)
Definition schemeOverride (request : Http.Request) : Http.Request :=
  let params := Url.Query (Http.URL request) in
  if String.eqb (Url.Get params "_scheme") "https" then
    let url := Url.set_Scheme (Http.URL request) "https" in
    let params := Url.Del params "_scheme" in
    Http.set_URL request (Url.set_RawQuery url (Url.Encode params))
  else request.

(** Lines 188-196 of [doScrape]: the bearer token. *)
Definition attachToken (request : Http.Request) : Http.Request + error :=
  if negb (String.eqb (tokenPath F) "") then
    match ioutil_ReadFile W (tokenPath F) with
    | inr _ => inr "cannot read token from token-path"%string
    | inl token =>
        let request :=
          Http.set_Header request
            (Http.Set_ (Http.ReqHeader request) "Authorization"
                       ("Bearer " ++ token)) in
        inl (Http.set_URL request (Url.set_Scheme (Http.URL request) "https"))
    end
  else inl request.

(** Lines 204-213 of [doScrape]: the allowed port and the loopback
    host, for a target with a port. *)
Definition checkPort (request : Http.Request) : Http.Request + error :=
  let port := Url.Port (Http.URL request) in
  if (0 <? Z.of_nat (String.length port)) then
    if negb (String.eqb (allowPort F) "*")
       && negb (String.eqb (allowPort F) port)
    then inr ("client does not have permissions to scrape port " ++ port)%string
    else if useLocalhost F
         then inl (Http.set_URL request
                     (Url.set_Host (Http.URL request) ("127.0.0.1:" ++ port)))
         else inl request
  else inl request.

(** Lines 179-213 of [doScrape]: the request as it stands when the
    scrape starts, or the request as it stands when a check fails
    with the error of that check. *)
Definition resolveTarget (request : Http.Request)
  : Http.Request + (Http.Request * error) :=
  let request := schemeOverride request in
  match attachToken request with
  | inr err => inr (request, err)
  | inl request =>
      match checkPort request with
      | inr err => inr (request, err)
      | inl request => inl request
      end
  end.

(** [doScrape(request, client)] (lines 169-230). *)
Definition doScrape (request : Http.Request) (client : Http.Client) : M unit :=
  match GetHeaderTimeout (Http.ReqHeader request) with
  | inr err => handleErr request client err
  | inl timeout =>
      let ctx := Http.WithTimeout (Http.Ctx request) (now_scrape W) timeout in
      let request := Http.WithContext request ctx in
      match resolveTarget request with
      | inr (request, err) => handleErr request client err
      | inl request =>
          (* Hard code to prometheus federate endpoint *)
          r <- scrapeFederatedPrometheusEndpoint ;;
          match r with
          | inr err =>
              let msg := ("failed to scrape " ++ Url.String_ (Http.URL request))%string in
              handleErr request client (errors_Wrap err msg)
          | inl scrapeResp =>
              r <- doPush scrapeResp request client ;;
              match r with
              | Some _ => pushErrorCounter_Inc
              | None => ret tt
              end
          end
      end
  end.

(** [doPoll(client)] (lines 264-295).  The goroutine started for the
    job runs [doScrape]; its effects are recorded after those of the
    poll. *)
Definition doPoll (client : Http.Client) : M (option error) :=
  match url_Parse W (proxyURL F) with
  | inr err => ret (Some (errors_Wrap err "error parsing url"))
  | inl base =>
      match url_Parse W "poll" with
      | inr err => ret (Some (errors_Wrap err "error parsing url poll"))
      | inl u =>
          let url := url_ResolveReference W base u in
          r <- client_Post PollCall client (Url.String_ url) "" (myFqdn F) ;;
          match r with
          | inr err => ret (Some (errors_Wrap err "error polling"))
          | inl resp =>
              match http_ReadRequest W (Http.RespBody resp) with
              | inr err => ret (Some (errors_Wrap err "error reading request"))
              | inl request =>
                  let request := Http.set_RequestURI request "" in
                  doScrape request client ;;;
                  ret None
              end
          end
      end
  end.

End Coordinator.

(** [newBackOffFromFlags()] (lines 139-146), when the clock reads
    [now].  The randomization factor is left at the default of
    [NewExponentialBackOff]. *)
Definition newBackOffFromFlags (F : Flags) (now : Z)
  : Backoff.ExponentialBackOff :=
  let b := Backoff.NewExponentialBackOff now in
  Backoff.mkExponentialBackOff
    (retryInitialWait F)           (* b.InitialInterval = *retryInitialWait *)
    (Backoff.RandomizationFactor b)
    (3 # 2)                        (* b.Multiplier = 1.5 *)
    (retryMaxWait F)               (* b.MaxInterval = *retryMaxWait *)
    0                              (* b.MaxElapsedTime = time.Duration(0) *)
    (Backoff.Stop b)
    (Backoff.currentInterval b)
    (Backoff.startTime b).

(** ** The driver loop.

    The loop of [main.go] does not end.  Its model runs it on a finite
    list of worlds, one for each call of [doPoll], and stops when the
    list is used up: the result is the state of the agent after that
    many polls. *)

(** How a call of [backoff.RetryNotify] stands: it has returned, with
    its error, or it is still retrying when the worlds run out. *)
Inductive RetryStatus : Type :=
| Returned (err : option error)
| Retrying.

(** The loop of [backoff.RetryNotify(op, bo, notify)] with
    [op = doPoll(client)] and [notify = pollErrorCounter.Inc]: call the
    operation; on an error ask the policy for the next interval, give
    up when it says [Stop], otherwise notify and wait.  (No error of
    [doPoll] is a [PermanentError], and the policy has no context to
    cancel.) *)
Fixpoint retry_loop (F : Flags) (client : Http.Client)
         (b : Backoff.ExponentialBackOff) (worlds : list World)
  : M (RetryStatus * Backoff.ExponentialBackOff * list World) :=
  match worlds with
  | [] => ret (Retrying, b, [])
  | w :: worlds' =>
      err <- doPoll w F client ;;
      match err with
      | None => ret (Returned None, b, worlds')
      | Some e =>
          let (next, b') :=
            Backoff.NextBackOff b (now_backoff w) (rand_Float64 w) in
          if next =? Backoff.Stop_ then ret (Returned (Some e), b', worlds')
          else pollErrorCounter_Inc ;;; wait next ;;;
               retry_loop F client b' worlds'
      end
  end.

(** [backoff.RetryNotify]: the policy is reset, then the loop runs. *)
Definition RetryNotify (F : Flags) (client : Http.Client)
           (b : Backoff.ExponentialBackOff) (worlds : list World)
  : M (RetryStatus * Backoff.ExponentialBackOff * list World) :=
  match worlds with
  | [] => ret (Retrying, b, [])
  | w :: _ => retry_loop F client (Backoff.Reset b (now_backoff w)) worlds
  end.

(** [loop(bo, client)] (lines 297-309): [RetryNotify] again and again.
    Every call of [RetryNotify] uses up a world, so [fuel] turns, one
    for each world, are enough. *)
Fixpoint loop_turns (fuel : nat) (F : Flags) (client : Http.Client)
         (bo : Backoff.ExponentialBackOff) (worlds : list World)
  : M Backoff.ExponentialBackOff :=
  match fuel, worlds with
  | O, _ => ret bo
  | _, [] => ret bo
  | S fuel', _ =>
      r <- RetryNotify F client bo worlds ;;
      let '(_, bo', worlds') := r in
      loop_turns fuel' F client bo' worlds'
  end.

Definition loop (F : Flags) (bo : Backoff.ExponentialBackOff)
           (client : Http.Client) (worlds : list World)
  : M Backoff.ExponentialBackOff :=
  loop_turns (length worlds) F client bo worlds.

(** ** main (lines 311-400) *)

Definition set_proxyURL (F : Flags) (p : string) : Flags :=
  mkFlags (myFqdn F) p (tokenPath F) (useLocalhost F) (allowPort F)
          (retryInitialWait F) (retryMaxWait F) (matchStrings F).

(** The transport of lines 383-395. *)
Definition main_transport (tlsConfig : Http.tls_Config) : Http.Transport_ :=
  Http.mkTransport true
    (30 * Backoff.Second) (30 * Backoff.Second) true
    100 (90 * Backoff.Second) (10 * Backoff.Second) (1 * Backoff.Second)
    tlsConfig.

(** The client of line 397. *)
Definition main_client (tlsConfig : Http.tls_Config) : Http.Client :=
  Http.mkClient (Some (main_transport tlsConfig)).

Inductive Outcome : Type :=
| Exit (code : Z)
| Running (st : State).

(** [main], given the flags as parsed, the TLS configuration that the
    certificate files give, or the error of reading them, and the clock
    at the start.  The metrics server is left out. *)
Definition main (F : Flags) (tlsConfig : Http.tls_Config + error)
           (now : Z) (worlds : list World) : Outcome :=
  if (length (matchStrings F) =? 0)%nat then Exit (-1)
  else if String.eqb (proxyURL F) "" then Exit 1
  else
    let F := set_proxyURL F (trim_right "/" (proxyURL F) ++ "/")%string in
    match tlsConfig with
    | inr _ => Exit 1
    | inl tlsConfig =>
        if useLocalhost F && String.eqb (allowPort F) "*" then Exit 1
        else
          let client := main_client tlsConfig in
          Running (snd (loop F (newBackOffFromFlags F now) client worlds
                             initial_state))
    end.

End Client.

(* ================================================================== *)
(** * A concrete agent, relay and job, to run the client on *)

Module Sample.

Import Strs.
Local Open Scope Z_scope.

Definition plain_url (scheme host path query : string) : Url.URL :=
  Url.mkURL scheme "" None host path "" false query "" "".

Definition relay : string := "http://relay.example:8080/".

Definition federate_url : string :=
  "http://prometheus-server.prometheus.svc.cluster.local/federate?match%5B%5D=up".

(** What [url.Parse] returns on the texts the sample run parses. *)
Definition parse (s : string) : Url.URL + error :=
  if String.eqb s relay then inl (plain_url "http" "relay.example:8080" "/" "")
  else if String.eqb s "http://relay.example:8080/poll"
  then inl (plain_url "http" "relay.example:8080" "/poll" "")
  else if String.eqb s "poll" then inl (plain_url "" "" "poll" "")
  else if String.eqb s "push" then inl (plain_url "" "" "push" "")
  else if String.eqb s federate_url
  then inl (plain_url "http" Client.federate_host "/federate" "match%5B%5D=up")
  else inr ("parse " ++ s ++ ": invalid URL")%string.

(** The resolution of a one-segment relative path against a base whose
    path is the root. *)
Definition resolve (base ref : Url.URL) : Url.URL :=
  plain_url (Url.Scheme base) (Url.Host base) ("/" ++ Url.Path ref) (Url.RawQuery ref).

Fixpoint digits_value (acc : Z) (s : string) : Z :=
  match s with
  | EmptyString => acc
  | String c s' =>
      digits_value (10 * acc + Z.of_N (N_of_ascii c - N_of_ascii "0")) s'
  end.

(** A whole number of seconds, as a duration. *)
Definition seconds (v : string) : Z + error :=
  if negb (String.eqb v "") && all is_digit v
  then inl (digits_value 0 v * Backoff.Second)
  else inr ("strconv.ParseFloat: parsing " ++ v ++ ": invalid syntax")%string.

(** A duration in seconds, with the microseconds after the point. *)
Definition show_seconds (d : Z) : string :=
  let micros := Z.quot d 1000 in
  let frac := Z.abs (Z.rem micros 1000000) in
  ((if (d <? 0)%Z then "-" else "")
   ++ NilZero.string_of_uint (N.to_uint (Z.to_N (Z.abs (Z.quot micros 1000000))))
   ++ "."
   ++ NilZero.string_of_uint (N.to_uint (Z.to_N (frac / 100000 mod 10)))
   ++ NilZero.string_of_uint (N.to_uint (Z.to_N (frac / 10000 mod 10)))
   ++ NilZero.string_of_uint (N.to_uint (Z.to_N (frac / 1000 mod 10)))
   ++ NilZero.string_of_uint (N.to_uint (Z.to_N (frac / 100 mod 10)))
   ++ NilZero.string_of_uint (N.to_uint (Z.to_N (frac / 10 mod 10)))
   ++ NilZero.string_of_uint (N.to_uint (Z.to_N (frac mod 10))))%string.

Definition metrics : Http.Response :=
  Http.mkResponse 200 [("Content-Type", ["text/plain"])] "up 1".

(** The relay answers a poll with the job, and a push with an empty
    200; the federate endpoint answers with [metrics]; nothing else
    is reachable. *)
Definition round_trip (c : Http.Client) (r : Http.Request)
  : Http.Response + error :=
  if String.eqb (Url.Host (Http.URL r)) Client.federate_host then inl metrics
  else if String.eqb (Url.Host (Http.URL r)) "relay.example:8080"
  then inl (Http.mkResponse 200 [] (Url.Path (Http.URL r)))
  else inr ("dial tcp: lookup " ++ Url.Host (Http.URL r) ++ ": no such host")%string.

(** A world in which the relay hands out [job]. *)
Definition world (job : Http.Request) : Client.World :=
  Client.mkWorld parse resolve
    (fun _ => inr "open: no such file or directory"%string)
    round_trip
    (fun _ => inl job)
    "X-Prometheus-Scrape-Timeout-Seconds" seconds show_seconds
    (1000 * Backoff.Second)
    (1001 * Backoff.Second)
    (1002 * Backoff.Second)
    (9 # 10).

(** A world in which the relay cannot be reached. *)
Definition offline (random : Q) : Client.World :=
  Client.mkWorld parse resolve
    (fun _ => inr "open: no such file or directory"%string)
    (fun _ _ => inr "dial tcp: connection refused"%string)
    (fun _ => inr "EOF"%string)
    "X-Prometheus-Scrape-Timeout-Seconds" seconds show_seconds
    (1000 * Backoff.Second)
    (1001 * Backoff.Second)
    (1002 * Backoff.Second)
    random.

Definition flags (use_localhost : bool) (allow_port : string) : Client.Flags :=
  Client.mkFlags "agent.example" relay "" use_localhost allow_port
                 (1 * Backoff.Second) (5 * Backoff.Second) ["up"].

(** The same flags with a token path. *)
Definition flags_with_token (allow_port : string) : Client.Flags :=
  Client.mkFlags "agent.example" relay "/var/run/secrets/token" false
                 allow_port (1 * Backoff.Second) (5 * Backoff.Second) ["up"].

(** A job for the target [host], with identifier 42, a timeout of ten
    seconds and the query [query]. *)
Definition job (host query : string) : Http.Request :=
  Http.mkRequest "GET" (plain_url "http" host "/metrics" query)
    [("Id", ["42"]); ("X-Prometheus-Scrape-Timeout-Seconds", ["10"])]
    Http.NoBody "" Http.Background.

(** The same job without its timeout header. *)
Definition job_without_timeout (host : string) : Http.Request :=
  Http.mkRequest "GET" (plain_url "http" host "/metrics" "")
    [("Id", ["42"])] Http.NoBody "" Http.Background.

Definition tls : Http.tls_Config := Http.mk_tls_Config [] false None.

Definition client : Http.Client := Client.main_client tls.

End Sample.

(* ================================================================== *)
(** * What a run of the client shows *)

Module Obs.

Import Client.
Local Open Scope Z_scope.

(** The network calls that the computation [m] makes from the state
    [st]. *)
Definition calls {A : Type} (m : M A) (st : State) : list Event :=
  skipn (length (trace st)) (trace (snd (m st))).

Definition is_scrape (e : Event) : bool :=
  match site e with ScrapeCall => true | _ => false end.

Definition is_push (e : Event) : bool :=
  match site e with PushCall => true | _ => false end.

(** The scrape requests among some calls. *)
Definition scrapes (t : list Event) : list Event := filter is_scrape t.

(** The results pushed to the relay among some calls: the responses
    written into the body of the calls made by [doPush]. *)
Definition pushed (t : list Event) : list Http.Response :=
  flat_map (fun e =>
              match site e, Http.Body (sent e) with
              | PushCall, Http.Written r => [r]
              | _, _ => []
              end) t.

(** The client that a call is expected to go through: the client handed
    to the coordinator for a poll and for a push, and a client of its
    own, without transport, for a scrape. *)
Definition routed (client : Http.Client) (e : Event) : Prop :=
  match site e with
  | ScrapeCall => via e = Http.mkClient None
  | PollCall | PushCall => via e = client
  end.

(** Every call that [m] makes satisfies [Q], whatever the state it
    starts from; the calls made before are kept. *)
Definition appends {A : Type} (Q : Event -> Prop) (m : M A) : Prop :=
  forall st, exists new,
      trace (snd (m st)) = (trace st ++ new)%list /\ Forall Q new.

(** The computation [m] starts no wait of the retry timer. *)
Definition keeps_waits {A : Type} (m : M A) : Prop :=
  forall st, waits (snd (m st)) = waits st.

(** The response as [doPush] sends it: with the identifier of the job
    and the time left until its deadline. *)
Definition stamp (W : World) (resp : Http.Response) (orig : Http.Request)
  : Http.Response :=
  Http.mkResponse
    (Http.StatusCode resp)
    (Http.Set_
       (Http.Set_ (Http.RespHeader resp) "id"
                  (Http.Get (Http.ReqHeader orig) "id"))
       "X-Prometheus-Scrape-Timeout"
       (format_seconds W
          (time_Until (now_push W) (Http.Deadline (Http.Ctx orig)))))
    (Http.RespBody resp).

(** The call by which [doPush] sends [resp] for the job [orig] to the
    push endpoint, [up] resolved against [base]. *)
Definition push_call (W : World) (base up : Url.URL) (client : Http.Client)
           (resp : Http.Response) (orig : Http.Request) : Event :=
  mkEvent PushCall client
    (Http.mkRequest "POST" (url_ResolveReference W base up) []
       (Http.Written (stamp W resp orig)) "" (Http.Ctx orig)).

(** The response that [handleErr] makes of an error. *)
Definition error_response (err : error) : Http.Response :=
  Http.mkResponse Http.StatusInternalServerError [] err.

(** The text that the scrape asks [url.Parse] to read: the federate
    endpoint with the [--match] flags. *)
Definition federate_target (F : Flags) : string :=
  createURL federate_host "federate"
    (fold_left (fun p s => Url.Add p "match[]" s) (matchStrings F) []).

(** The call that the scrape makes, [u] being the parsed target. *)
Definition scrape_call (u : Url.URL) : Event :=
  mkEvent ScrapeCall (Http.mkClient None)
    (Http.mkRequest "GET" (Url.set_Host u (Http.removeEmptyPort (Url.Host u)))
       [] Http.NoBody "" Http.Background).

(** The result of the scrape made for [target]: the response of the
    endpoint, or the error response made of the failure. *)
Definition scrape_result (W : World) (target : Http.Request) (u : Url.URL)
  : Http.Response :=
  match client_Do W (via (scrape_call u)) (sent (scrape_call u)) with
  | inl scrapeResp => scrapeResp
  | inr err =>
      error_response
        (errors_Wrap err
           ("failed to scrape " ++ Url.String_ (Http.URL target))%string)
  end.

(** The call that [doPoll] makes, [u] being the parsed poll endpoint. *)
Definition poll_call (F : Flags) (client : Http.Client) (u : Url.URL) : Event :=
  mkEvent PollCall client
    (Http.mkRequest "POST" (Url.set_Host u (Http.removeEmptyPort (Url.Host u)))
       (Http.Set_ [] "Content-Type" "") (Http.Bytes (myFqdn F)) ""
       Http.Background).

(** The context under which [doScrape] works on a job: the deadline
    that the timeout header gives, when it gives one. *)
Definition job_context (W : World) (job : Http.Request) : Http.Context :=
  match GetHeaderTimeout W (Http.ReqHeader job) with
  | inl timeout => Http.WithTimeout (Http.Ctx job) (now_scrape W) timeout
  | inr _ => Http.Ctx job
  end.

(** The bearer token can be had: no token path is configured, or the
    file at the path can be read. *)
Definition token_readable (W : World) (F : Flags) : Prop :=
  tokenPath F = ""%string \/
  exists token, ioutil_ReadFile W (tokenPath F) = inl token.

Fixpoint nondecreasing (l : list Z) : Prop :=
  match l with
  | x :: (y :: _) as l' => x <= y /\ nondecreasing l'
  | _ => True
  end.

(** The piece [piece] of a query, cut at [&], names the key [key]. *)
Definition names_key (key piece : string) : bool :=
  match Url.QueryUnescape (fst (Strs.cut "=" piece)) with
  | Some k => String.eqb k key
  | None => false
  end.

End Obs.

(* ================================================================== *)
(** * More of what a run shows *)

Module More.

Import Client Obs.

(** [strings.HasSuffix(s, string(c))]. *)
Fixpoint ends_with (c : ascii) (s : string) : bool :=
  match s with
  | EmptyString => false
  | String d EmptyString => Ascii.eqb d c
  | String _ s' => ends_with c s'
  end.

(** The parameters that [scrapeFederatedPrometheusEndpoint] collects
    from the [--match] flags (lines 117-121). *)
Definition match_params (F : Flags) : Url.Values :=
  fold_left (fun p s => Url.Add p "match[]" s) (matchStrings F) [].

(** The call [e] gets a response from the world, not an error. *)
Definition answered (W : World) (e : Event) : bool :=
  match client_Do W (via e) (sent e) with
  | inl _ => true
  | inr _ => false
  end.

Definition is_poll (e : Event) : bool :=
  match site e with PollCall => true | _ => false end.

(** The computation [m] counts no poll error. *)
Definition keeps_polls {A : Type} (m : M A) : Prop :=
  forall st, pollErrorCounter (snd (m st)) = pollErrorCounter st.

(** The request of a poll, as [doPoll] makes it with the flags [F]. *)
Definition poll_shaped (F : Flags) (e : Event) : Prop :=
  site e = PollCall ->
  Http.Method (sent e) = "POST" /\
  Http.Body (sent e) = Http.Bytes (myFqdn F) /\
  Http.ReqHeader (sent e) = [("Content-Type", [""])] /\
  Http.Ctx (sent e) = Http.Background.

(** The request of a scrape: a GET without header, body or deadline. *)
Definition scrape_shaped (e : Event) : Prop :=
  site e = ScrapeCall ->
  Http.Method (sent e) = "GET" /\
  Http.Body (sent e) = Http.NoBody /\
  Http.ReqHeader (sent e) = [] /\
  Http.Ctx (sent e) = Http.Background.

(** Two policies with the same settings, whatever their current
    interval and start time. *)
Definition same_settings (b b' : Backoff.ExponentialBackOff) : Prop :=
  Backoff.InitialInterval b' = Backoff.InitialInterval b /\
  Backoff.RandomizationFactor b' = Backoff.RandomizationFactor b /\
  Backoff.Multiplier b' = Backoff.Multiplier b /\
  Backoff.MaxInterval b' = Backoff.MaxInterval b /\
  Backoff.MaxElapsedTime b' = Backoff.MaxElapsedTime b.

(** A world like [Sample.world] in which the token file can be read. *)
Definition world_with_token (job : Http.Request) (token : string) : World :=
  mkWorld Sample.parse Sample.resolve (fun _ => inl token)
    Sample.round_trip (fun _ => inl job)
    "X-Prometheus-Scrape-Timeout-Seconds" Sample.seconds Sample.show_seconds
    (1000 * Backoff.Second) (1001 * Backoff.Second) (1002 * Backoff.Second)
    (9 # 10).

End More.

(* ================================================================== *)
(** * Facts about strings, URLs and headers *)

Module StrsFacts.
Import Strs.

Lemma mem_app (c : ascii) (a b : string) :
  mem c (a ++ b) = mem c a || mem c b.
Proof.
  induction a as [|d a IH]; simpl; [reflexivity|].
  rewrite IH. apply orb_assoc.
Qed.

Lemma append_empty (s : string) : s ++ "" = s.
Proof. induction s as [|c s IH]; cbn; [reflexivity|]. rewrite IH. reflexivity. Qed.

Lemma split_without_sep (sep : ascii) (s : string) :
  mem sep s = false -> split sep s = [s].
Proof.
  induction s as [|c s IH]; simpl; intros H; [reflexivity|].
  apply orb_false_iff in H. destruct H as [Hc Hs].
  rewrite Ascii.eqb_sym, Hc. rewrite (IH Hs). reflexivity.
Qed.

Lemma split_app_sep (sep : ascii) (p rest : string) :
  mem sep p = false ->
  split sep (p ++ String sep rest) = p :: split sep rest.
Proof.
  induction p as [|c p IH]; simpl; intros H.
  - rewrite Ascii.eqb_refl. reflexivity.
  - apply orb_false_iff in H. destruct H as [Hc Hp].
    rewrite Ascii.eqb_sym, Hc, (IH Hp). reflexivity.
Qed.

Lemma split_join (sep : ascii) (ps : list string) :
  ps <> [] ->
  Forall (fun p => mem sep p = false) ps ->
  split sep (join sep ps) = ps.
Proof.
  induction ps as [|p ps IH]; intros Hne Hall; [congruence|].
  inversion Hall as [|? ? Hp Hps]; subst.
  destruct ps as [|q ps].
  - simpl. apply split_without_sep; assumption.
  - change (join sep (p :: q :: ps)) with (p ++ String sep (join sep (q :: ps))).
    rewrite split_app_sep by assumption.
    rewrite IH; [reflexivity|discriminate|assumption].
Qed.

Lemma cut_app_sep (sep : ascii) (a b : string) :
  mem sep a = false -> cut sep (a ++ String sep b) = (a, b).
Proof.
  induction a as [|c a IH]; simpl; intros H.
  - rewrite Ascii.eqb_refl. reflexivity.
  - apply orb_false_iff in H. destruct H as [Hc Ha].
    rewrite Ascii.eqb_sym, Hc, (IH Ha). reflexivity.
Qed.

Lemma cut_last_none (sep : ascii) (s : string) :
  mem sep s = false -> cut_last sep s = None.
Proof.
  induction s as [|c s IH]; simpl; intros H; [reflexivity|].
  apply orb_false_iff in H. destruct H as [Hc Hs].
  rewrite (IH Hs), Ascii.eqb_sym, Hc. reflexivity.
Qed.

Lemma cut_last_app_sep (sep : ascii) (a b : string) :
  mem sep b = false -> cut_last sep (a ++ String sep b) = Some (a, b).
Proof.
  intros Hb. induction a as [|c a IH]; simpl.
  - rewrite (cut_last_none _ _ Hb), Ascii.eqb_refl. reflexivity.
  - rewrite IH. reflexivity.
Qed.

Lemma all_digits_no_colon (s : string) :
  all is_digit s = true -> mem ":" s = false.
Proof.
  induction s as [|c s IH]; cbn [all mem]; intros H; [reflexivity|].
  apply andb_true_iff in H. destruct H as [Hc Hs].
  rewrite (IH Hs), orb_false_r.
  destruct (Ascii.eqb ":" c) eqn:E; [|reflexivity].
  apply Ascii.eqb_eq in E. subst c. discriminate Hc.
Qed.

End StrsFacts.

Module UrlFacts.
Import Strs Url StrsFacts.

(** Every byte has an escaped form without separators. *)
Lemma escape_byte_clean (d : ascii) :
  mem "&" (escape_byte encodeQueryComponent d) = false /\
  mem "=" (escape_byte encodeQueryComponent d) = false /\
  mem ";" (escape_byte encodeQueryComponent d) = false.
Proof.
  destruct d as [[] [] [] [] [] [] [] []]; vm_compute; repeat split.
Qed.

Lemma QueryEscape_clean (s : string) :
  mem "&" (QueryEscape s) = false /\
  mem "=" (QueryEscape s) = false /\
  mem ";" (QueryEscape s) = false.
Proof.
  unfold QueryEscape.
  induction s as [|d s IH]; cbn [escape]; [repeat split|].
  rewrite !mem_app.
  destruct (escape_byte_clean d) as (-> & -> & ->).
  destruct IH as (-> & -> & ->). repeat split.
Qed.

Lemma unescape_escape_byte (d : ascii) (rest : string) :
  unescape (escape_byte encodeQueryComponent d ++ rest) encodeQueryComponent
  = option_map (String d) (unescape rest encodeQueryComponent).
Proof.
  destruct d as [[] [] [] [] [] [] [] []]; reflexivity.
Qed.

Lemma QueryUnescape_QueryEscape (s : string) :
  QueryUnescape (QueryEscape s) = Some s.
Proof.
  unfold QueryUnescape, QueryEscape.
  induction s as [|d s IH]; cbn [escape]; [reflexivity|].
  rewrite unescape_escape_byte, IH. reflexivity.
Qed.

Lemma append_sep_not_empty (a b : string) (c : ascii) :
  String.eqb (a ++ String c b) "" = false.
Proof. destruct a; reflexivity. Qed.

Lemma parse_piece_encode_pair (m : Values) (p : string * string) :
  parse_piece m (encode_pair p) = add_pair m p.
Proof.
  unfold parse_piece, encode_pair, contains_byte, add_pair.
  destruct (QueryEscape_clean (fst p)) as (_ & Hk & Hk').
  destruct (QueryEscape_clean (snd p)) as (_ & _ & Hv').
  rewrite mem_app. cbn [mem]. rewrite Hk', Hv'. cbn [Ascii.eqb orb].
  replace (Ascii.eqb ";" "=") with false by reflexivity. cbn [orb].
  rewrite append_sep_not_empty.
  rewrite cut_app_sep by assumption.
  rewrite !QueryUnescape_QueryEscape. reflexivity.
Qed.

Lemma parse_pieces_encoded (prs : list (string * string)) (m : Values) :
  fold_left parse_piece (map encode_pair prs) m = fold_left add_pair prs m.
Proof.
  revert m. induction prs as [|p prs IH]; intros m; [reflexivity|].
  cbn [map fold_left]. rewrite parse_piece_encode_pair. apply IH.
Qed.

Lemma encode_pair_clean (p : string * string) :
  mem "&" (encode_pair p) = false.
Proof.
  unfold encode_pair. rewrite mem_app. cbn [mem].
  destruct (QueryEscape_clean (fst p)) as (-> & _).
  destruct (QueryEscape_clean (snd p)) as (-> & _). reflexivity.
Qed.

(** Parsing what [Encode] wrote adds the pairs back, in the order they
    were written. *)
Lemma ParseQuery_Encode (v : Values) :
  ParseQuery (Encode v) = fold_left add_pair (pairs v) [].
Proof.
  unfold ParseQuery, Encode.
  destruct (pairs v) as [|p prs] eqn:E; [reflexivity|].
  rewrite split_join.
  - apply parse_pieces_encoded.
  - discriminate.
  - apply Forall_forall. intros x Hx. apply in_map_iff in Hx.
    destruct Hx as (q & <- & _). apply encode_pair_clean.
Qed.

Lemma lookup_Add_other (m : Values) (k k' x : string) :
  k' <> k -> lookup (Add m k' x) k = lookup m k.
Proof.
  intros Hne. induction m as [|[k0 vs] m IH]; cbn [Add lookup].
  - destruct (String.eqb_spec k' k); [contradiction|reflexivity].
  - destruct (String.eqb_spec k0 k') as [->|Hk0]; cbn [lookup].
    + destruct (String.eqb_spec k' k); [contradiction|reflexivity].
    + rewrite IH. reflexivity.
Qed.

Lemma lookup_add_pairs_other (prs : list (string * string)) (m : Values)
      (k : string) :
  Forall (fun p => fst p <> k) prs ->
  lookup (fold_left add_pair prs m) k = lookup m k.
Proof.
  revert m. induction prs as [|p prs IH]; intros m H; [reflexivity|].
  inversion H as [|? ? Hp Hps]; subst. cbn [fold_left].
  rewrite IH by exact Hps. apply lookup_Add_other. exact Hp.
Qed.

Lemma In_insert_sorted (x kv : string * list string) (v : Values) :
  In kv (insert_sorted x v) <-> kv = x \/ In kv v.
Proof.
  induction v as [|y v IH]; cbn [insert_sorted].
  - cbn. intuition.
  - destruct (String.leb (fst x) (fst y)); cbn [In].
    + intuition.
    + rewrite IH. intuition.
Qed.

Lemma In_sort_keys (kv : string * list string) (v : Values) :
  In kv (sort_keys v) <-> In kv v.
Proof.
  unfold sort_keys. induction v as [|y v IH]; cbn [fold_right]; [tauto|].
  rewrite In_insert_sorted, IH. cbn [In]. intuition.
Qed.

Lemma In_pairs (p : string * string) (v : Values) :
  In p (pairs v) -> exists vs, In (fst p, vs) v /\ In (snd p) vs.
Proof.
  unfold pairs. intros H. apply in_flat_map in H.
  destruct H as ([k vs] & Hkv & Hp). apply (proj1 (In_sort_keys _ _)) in Hkv.
  apply in_map_iff in Hp. destruct Hp as (x & <- & Hx).
  exists vs. cbn [fst snd] in *. split; assumption.
Qed.

Lemma In_Del (kv : string * list string) (v : Values) (k : string) :
  In kv (Del v k) -> In kv v /\ fst kv <> k.
Proof.
  unfold Del. intros H. apply filter_In in H. destruct H as [Hin Hk].
  split; [assumption|]. apply negb_true_iff in Hk.
  apply String.eqb_neq. assumption.
Qed.

(** A key deleted before [Encode] is not a key of the encoded query. *)
Lemma Del_Encode_no_key (v : Values) (k : string) :
  lookup (ParseQuery (Encode (Del v k))) k = [].
Proof.
  rewrite ParseQuery_Encode, lookup_add_pairs_other; [reflexivity|].
  apply Forall_forall. intros p Hp. apply In_pairs in Hp.
  destruct Hp as (vs & Hkv & _). apply In_Del in Hkv. apply Hkv.
Qed.

Lemma lookup_Add_same (m : Values) (k x : string) :
  lookup (Add m k x) k = (lookup m k ++ [x])%list.
Proof.
  induction m as [|[k0 vs] m IH]; cbn [Add lookup].
  - rewrite String.eqb_refl. reflexivity.
  - destruct (String.eqb_spec k0 k) as [->|Hk0]; cbn [lookup].
    + rewrite String.eqb_refl. reflexivity.
    + destruct (String.eqb_spec k0 k); [contradiction|]. exact IH.
Qed.

(** What one piece of a query does to the values of the key [k]: it
    leaves them, or it names [k] and adds a value after them. *)
Lemma parse_piece_lookup (m : Values) (piece k : string) :
  lookup (parse_piece m piece) k = lookup m k \/
  (Obs.names_key k piece = true /\
   exists x, lookup (parse_piece m piece) k = (lookup m k ++ [x])%list).
Proof.
  unfold parse_piece, Obs.names_key.
  destruct (contains_byte piece ";"); [left; reflexivity|].
  destruct (String.eqb piece ""); [left; reflexivity|].
  destruct (cut "=" piece) as [key value]. cbn [fst].
  destruct (QueryUnescape key) as [key'|]; [|left; reflexivity].
  destruct (QueryUnescape value) as [v|]; [|left; reflexivity].
  destruct (String.eqb_spec key' k) as [->|Hne].
  - right. split; [reflexivity|]. exists v. apply lookup_Add_same.
  - left. apply lookup_Add_other. exact Hne.
Qed.

Lemma parse_pieces_other (pieces : list string) (k : string) :
  existsb (Obs.names_key k) pieces = false ->
  forall m, lookup (fold_left parse_piece pieces m) k = lookup m k.
Proof.
  induction pieces as [|piece pieces IH]; intros H m; [reflexivity|].
  cbn [existsb] in H. apply orb_false_iff in H. destruct H as [H1 H2].
  cbn [fold_left]. rewrite (IH H2).
  destruct (parse_piece_lookup m piece k) as [E|[E _]]; [exact E|congruence].
Qed.

(** The first value of a key stays the first. *)
Lemma parse_pieces_first (pieces : list string) (k x : string) :
  forall m l,
    lookup m k = x :: l ->
    exists l', lookup (fold_left parse_piece pieces m) k = x :: l'.
Proof.
  induction pieces as [|piece pieces IH]; intros m l H; cbn [fold_left].
  - exists l. exact H.
  - destruct (parse_piece_lookup m piece k) as [E|[_ [y E]]].
    + apply (IH _ l). rewrite E. exact H.
    + apply (IH _ (l ++ [y])%list). rewrite E, H. reflexivity.
Qed.

Lemma parse_piece_scheme (m : Values) (raw value : string) :
  contains_byte raw ";" = false ->
  QueryUnescape raw = Some value ->
  parse_piece m ("_scheme=" ++ raw) = Add m "_scheme" value.
Proof.
  intros Hc Hu. unfold parse_piece, contains_byte in *.
  change ("_scheme=" ++ raw) with ("_scheme" ++ String "=" raw).
  rewrite mem_app. cbn [mem].
  replace (Ascii.eqb ";" "=") with false by reflexivity.
  rewrite Hc. replace (mem ";" "_scheme") with false by reflexivity.
  cbn [orb]. rewrite append_sep_not_empty.
  rewrite cut_app_sep by reflexivity.
  replace (QueryUnescape "_scheme") with (Some "_scheme") by reflexivity.
  rewrite Hu. reflexivity.
Qed.

(** [Query().Get("_scheme")] of a query that has the piece
    [_scheme=raw], and before it no piece that names [_scheme]: what
    [raw] unescapes to. *)
Lemma Get_scheme (query : string) (before after : list string)
      (raw value : string) :
  split "&" query = (before ++ ("_scheme=" ++ raw)%string :: after)%list ->
  existsb (Obs.names_key "_scheme") before = false ->
  contains_byte raw ";" = false ->
  QueryUnescape raw = Some value ->
  Get (ParseQuery query) "_scheme" = value.
Proof.
  intros Hs Hb Hc Hu. unfold Get, ParseQuery. rewrite Hs.
  rewrite fold_left_app. cbn [fold_left].
  rewrite (parse_piece_scheme _ raw value Hc Hu).
  destruct (parse_pieces_first after "_scheme" value
              (Add (fold_left parse_piece before []) "_scheme" value) [])
    as [l' E].
  - rewrite lookup_Add_same, (parse_pieces_other before "_scheme" Hb).
    reflexivity.
  - rewrite E. reflexivity.
Qed.

Lemma Port_digits (host : string) :
  all is_digit (snd (splitHostPort host)) = true.
Proof.
  unfold splitHostPort.
  destruct (cut_last ":" host) as [[h p]|]; [|reflexivity].
  unfold validOptionalPort_after_colon.
  destruct (all is_digit p) eqn:E; [exact E|reflexivity].
Qed.

Lemma splitHostPort_loopback (port : string) :
  all is_digit port = true ->
  splitHostPort ("127.0.0.1:" ++ port) = ("127.0.0.1", port).
Proof.
  intros H. unfold splitHostPort.
  change ("127.0.0.1:" ++ port) with ("127.0.0.1" ++ String ":" port).
  rewrite cut_last_app_sep by (apply all_digits_no_colon; assumption).
  unfold validOptionalPort_after_colon. rewrite H. reflexivity.
Qed.

(** Samples of the escaping and of the host and port of a URL. *)
Example QueryEscape_sample :
  QueryEscape "match[]" = "match%5B%5D" /\
  QueryEscape "a b&c=d" = "a+b%26c%3Dd" /\
  QueryUnescape "a+b%26c%3Dd" = Some "a b&c=d" /\
  QueryUnescape "100%" = None.
Proof. repeat split. Qed.

Example Encode_sample :
  Encode (Del (ParseQuery "b=2&_scheme=https&a=1&a=x%20y&;&=") "_scheme")
  = "=&a=1&a=x+y&b=2".
Proof. reflexivity. Qed.

Example splitHostPort_sample :
  splitHostPort "host:9100" = ("host", "9100") /\
  splitHostPort "host" = ("host", "") /\
  splitHostPort "host:" = ("host", "") /\
  splitHostPort "[::1]:9100" = ("::1", "9100") /\
  splitHostPort "host:http" = ("host:http", "").
Proof. repeat split. Qed.

End UrlFacts.

Module HttpFacts.
Import Http.

Lemma lookup_store_same (h : Header) (k : string) (vs : list string) :
  header_lookup (header_store h k vs) k = vs.
Proof.
  induction h as [|[k0 vs0] h IH]; cbn [header_store header_lookup].
  - rewrite String.eqb_refl. reflexivity.
  - destruct (String.eqb_spec k0 k) as [->|Hne]; cbn [header_lookup].
    + rewrite String.eqb_refl. reflexivity.
    + destruct (String.eqb_spec k0 k); [contradiction|]. exact IH.
Qed.

Lemma lookup_store_other (h : Header) (k k' : string) (vs : list string) :
  k <> k' -> header_lookup (header_store h k vs) k' = header_lookup h k'.
Proof.
  intros Hne. induction h as [|[k0 vs0] h IH]; cbn [header_store header_lookup].
  - destruct (String.eqb_spec k k'); [contradiction|reflexivity].
  - destruct (String.eqb_spec k0 k) as [->|Hk0]; cbn [header_lookup].
    + destruct (String.eqb_spec k k'); [contradiction|reflexivity].
    + rewrite IH. reflexivity.
Qed.

Lemma Get_Set_same (h : Header) (key value : string) :
  Get (Set_ h key value) key = value.
Proof. unfold Get, Set_. rewrite lookup_store_same. reflexivity. Qed.

Lemma Get_Set_other (h : Header) (key key' value : string) :
  CanonicalMIMEHeaderKey key <> CanonicalMIMEHeaderKey key' ->
  Get (Set_ h key value) key' = Get h key'.
Proof.
  intros Hne. unfold Get, Set_. rewrite lookup_store_other by assumption.
  reflexivity.
Qed.

End HttpFacts.

(* ================================================================== *)
(** * Facts about the backoff policy *)

Module BackoffFacts.
Import Backoff Obs.
Local Open Scope Z_scope.

Lemma increment_keeps (b : ExponentialBackOff) :
  InitialInterval (incrementCurrentInterval b) = InitialInterval b /\
  RandomizationFactor (incrementCurrentInterval b) = RandomizationFactor b /\
  Multiplier (incrementCurrentInterval b) = Multiplier b /\
  MaxInterval (incrementCurrentInterval b) = MaxInterval b /\
  MaxElapsedTime (incrementCurrentInterval b) = MaxElapsedTime b.
Proof.
  unfold incrementCurrentInterval.
  destruct (F64.leb _ _); cbn; repeat split.
Qed.

(** The policy that a call of [NextBackOff] leaves. *)
Lemma NextBackOff_policy (b : ExponentialBackOff) (now : Z) (random : Q) :
  snd (NextBackOff b now random) = incrementCurrentInterval b.
Proof.
  unfold NextBackOff.
  destruct (negb (MaxElapsedTime b =? 0) && _); reflexivity.
Qed.

(** Without a maximum elapsed time, [NextBackOff] returns the current
    interval randomized. *)
Lemma NextBackOff_unlimited (b : ExponentialBackOff) (now : Z) (random : Q) :
  MaxElapsedTime b = 0 ->
  fst (NextBackOff b now random)
  = getRandomValueFromInterval (RandomizationFactor b) random
                               (currentInterval b).
Proof. intros H. unfold NextBackOff. rewrite H. reflexivity. Qed.

(** Samples of the arithmetic.  The interval of one second randomized
    by the factor 0.5: the sample 0 gives half a second, the sample 0.75
    gives 1.25 s, and the largest sample below 1 gives one nanosecond
    more than 1.5 s, the sum being rounded up to the next float.  A
    factor of zero leaves the interval alone. *)
Example getRandomValueFromInterval_sample :
  getRandomValueFromInterval (1 # 2) 0 (1 * Second) = 500000000 /\
  getRandomValueFromInterval (1 # 2) (3 # 4) (1 * Second) = 1250000000 /\
  getRandomValueFromInterval (1 # 2) (9007199254740991 # 9007199254740992)
                             (1 * Second) = 1500000001 /\
  getRandomValueFromInterval 0 (3 # 4) (1 * Second) = 1 * Second.
Proof. repeat split; vm_compute; reflexivity. Qed.

(** The current interval multiplied by 1.5 under a ceiling of five
    seconds; and above 2^53 ns, where the interval is rounded to a float
    before it is multiplied. *)
Example incrementCurrentInterval_sample :
  map (fun cur =>
         currentInterval
           (incrementCurrentInterval
              (mkExponentialBackOff (1 * Second) (1 # 2) (3 # 2) (5 * Second)
                                    0 Stop_ cur 0)))
      [1000000000; 1500000000; 2250000000; 3375000000; 5000000000]
  = [1500000000; 2250000000; 3375000000; 5000000000; 5000000000] /\
  currentInterval
    (incrementCurrentInterval
       (mkExponentialBackOff (1 * Second) (1 # 2) (3 # 2) F64.MaxInt64
                             0 Stop_ 9007199254740993 0))
  = 13510798882111488.
Proof. split; vm_compute; reflexivity. Qed.

End BackoffFacts.

(* ================================================================== *)
(** * Facts about the client *)

Module ClientFacts.
Import Client Obs.

Lemma calls_of_trace {A : Type} (m : M A) (st : State) (new : list Event) :
  trace (snd (m st)) = (trace st ++ new)%list -> calls m st = new.
Proof.
  intros H. unfold calls. rewrite H.
  rewrite skipn_app, skipn_all, Nat.sub_diag. reflexivity.
Qed.

Lemma trace_record (st : State) (e : Event) :
  trace (record st e) = (trace st ++ [e])%list.
Proof. reflexivity. Qed.

Section Run.

Variables (W : World) (F : Flags).

Lemma call_run (s : CallSite) (c : Http.Client) (r : Http.Request) (st : State) :
  call W s c r st = (client_Do W c r, record st (mkEvent s c r)).
Proof. reflexivity. Qed.

(** [doPush] makes one call, to the push endpoint. *)
Lemma doPush_run (resp : Http.Response) (orig : Http.Request)
      (client : Http.Client) (st : State) (base up : Url.URL) :
  url_Parse W (proxyURL F) = inl base ->
  url_Parse W "push" = inl up ->
  snd (doPush W F resp orig client st)
  = record st (push_call W base up client resp orig).
Proof.
  intros Hbase Hup. unfold doPush. rewrite Hbase, Hup.
  unfold bind. rewrite call_run.
  destruct (client_Do W client _); reflexivity.
Qed.

(** Without a relay URL that parses, [doPush] makes no call. *)
Lemma doPush_no_relay (resp : Http.Response) (orig : Http.Request)
      (client : Http.Client) (st : State) (err : error) :
  url_Parse W (proxyURL F) = inr err ->
  doPush W F resp orig client st = (Some err, st).
Proof. intros H. unfold doPush. rewrite H. reflexivity. Qed.

Lemma handleErr_trace (request : Http.Request) (client : Http.Client)
      (err : error) (st : State) (base up : Url.URL) :
  url_Parse W (proxyURL F) = inl base ->
  url_Parse W "push" = inl up ->
  trace (snd (handleErr W F request client err st))
  = (trace st ++ [push_call W base up client (error_response err) request])%list.
Proof.
  intros Hbase Hup. unfold handleErr, bind, scrapeErrorCounter_Inc.
  cbv beta iota.
  match goal with
  | |- context [doPush W F ?r ?o ?c ?s] =>
      pose proof (doPush_run r o c s base up Hbase Hup) as Hrun;
      destruct (doPush W F r o c s) as [res st'] eqn:E
  end.
  cbn [snd] in Hrun. subst st'.
  destruct res; reflexivity.
Qed.

(** The target of the scrape with the flag [--match=up], and a job
    with its scheme parameter, as the scrape finds it. *)
Example federate_target_sample :
  federate_target (Sample.flags false "*") = Sample.federate_url.
Proof. reflexivity. Qed.

Example resolveTarget_sample :
  match resolveTarget (Sample.world (Sample.job "host:9100" ""))
                      (Sample.flags true "9100")
                      (Sample.job "host:9100" "b=2&_scheme=https&a=1") with
  | inl target =>
      Url.String_ (Http.URL target) = "https://127.0.0.1:9100/metrics?a=1&b=2"
  | inr _ => False
  end.
Proof. reflexivity. Qed.

(** ** What every call of a computation satisfies *)

Lemma appends_ret {A : Type} (Q : Event -> Prop) (a : A) : appends Q (ret a).
Proof. intros st. exists []. rewrite app_nil_r. split; [reflexivity|constructor]. Qed.

Lemma appends_bind {A B : Type} (Q : Event -> Prop) (m : M A) (k : A -> M B) :
  appends Q m -> (forall a, appends Q (k a)) -> appends Q (bind m k).
Proof.
  intros Hm Hk st. unfold bind.
  destruct (Hm st) as (n1 & E1 & Q1).
  destruct (m st) as [a st1]. cbn [snd] in E1.
  destruct (Hk a st1) as (n2 & E2 & Q2).
  exists (n1 ++ n2)%list. split.
  - rewrite E2, E1, app_assoc. reflexivity.
  - apply Forall_app. split; assumption.
Qed.

Lemma appends_emit (Q : Event -> Prop) (e : Event) : Q e -> appends Q (emit e).
Proof.
  intros H st. exists [e]. split; [reflexivity|]. constructor; [assumption|constructor].
Qed.

Lemma appends_scrapeErrorCounter_Inc (Q : Event -> Prop) :
  appends Q scrapeErrorCounter_Inc.
Proof. intros st. exists []. rewrite app_nil_r. split; [reflexivity|constructor]. Qed.

Lemma appends_pushErrorCounter_Inc (Q : Event -> Prop) :
  appends Q pushErrorCounter_Inc.
Proof. intros st. exists []. rewrite app_nil_r. split; [reflexivity|constructor]. Qed.

Lemma appends_pollErrorCounter_Inc (Q : Event -> Prop) :
  appends Q pollErrorCounter_Inc.
Proof. intros st. exists []. rewrite app_nil_r. split; [reflexivity|constructor]. Qed.

Lemma appends_wait (Q : Event -> Prop) (d : Z) : appends Q (wait d).
Proof. intros st. exists []. rewrite app_nil_r. split; [reflexivity|constructor]. Qed.

Lemma appends_calls {A : Type} (Q : Event -> Prop) (m : M A) (st : State) :
  appends Q m -> Forall Q (calls m st).
Proof.
  intros H. destruct (H st) as (new & E & HQ).
  rewrite (calls_of_trace m st new E). exact HQ.
Qed.

Lemma appends_call (Q : Event -> Prop) (s : CallSite) (c : Http.Client)
      (r : Http.Request) :
  Q (mkEvent s c r) -> appends Q (call W s c r).
Proof.
  intros H. unfold call. apply appends_bind.
  - apply appends_emit. exact H.
  - intros _. apply appends_ret.
Qed.

Section Sites.

Variable Q : Event -> Prop.
Variable client : Http.Client.

Lemma doPush_appends (resp : Http.Response) (orig : Http.Request) :
  (forall r, Q (mkEvent PushCall client r)) ->
  appends Q (doPush W F resp orig client).
Proof.
  intros HQ. unfold doPush.
  destruct (url_Parse W (proxyURL F)); [|apply appends_ret].
  destruct (url_Parse W "push"); [|apply appends_ret].
  apply appends_bind.
  - apply appends_call. apply HQ.
  - intros [r|e]; apply appends_ret.
Qed.

Lemma handleErr_appends (request : Http.Request) (err : error) :
  (forall r, Q (mkEvent PushCall client r)) ->
  appends Q (handleErr W F request client err).
Proof.
  intros HQ. unfold handleErr.
  apply appends_bind; [apply appends_scrapeErrorCounter_Inc|]. intros _.
  apply appends_bind; [apply doPush_appends; exact HQ|].
  intros [e|]; [apply appends_pushErrorCounter_Inc|apply appends_ret].
Qed.

Lemma scrape_appends :
  (forall r, Q (mkEvent ScrapeCall (Http.mkClient None) r)) ->
  appends Q (scrapeFederatedPrometheusEndpoint W F).
Proof.
  intros HQ. unfold scrapeFederatedPrometheusEndpoint.
  destruct (http_NewRequest W "GET" _ Http.NoBody); [|apply appends_ret].
  apply appends_call. apply HQ.
Qed.

Lemma doScrape_appends (request : Http.Request) :
  (forall r, Q (mkEvent PushCall client r)) ->
  (forall r, Q (mkEvent ScrapeCall (Http.mkClient None) r)) ->
  appends Q (doScrape W F request client).
Proof.
  intros HP HS. unfold doScrape.
  destruct (GetHeaderTimeout W (Http.ReqHeader request));
    [|apply handleErr_appends; exact HP].
  destruct (resolveTarget W F _) as [target|[r e]];
    [|apply handleErr_appends; exact HP].
  apply appends_bind; [apply scrape_appends; exact HS|].
  intros [scrapeResp|e]; [|apply handleErr_appends; exact HP].
  apply appends_bind; [apply doPush_appends; exact HP|].
  intros [e|]; [apply appends_pushErrorCounter_Inc|apply appends_ret].
Qed.

Lemma doPoll_appends :
  (forall r, Q (mkEvent PollCall client r)) ->
  (forall r, Q (mkEvent PushCall client r)) ->
  (forall r, Q (mkEvent ScrapeCall (Http.mkClient None) r)) ->
  appends Q (doPoll W F client).
Proof.
  intros HL HP HS. unfold doPoll.
  destruct (url_Parse W (proxyURL F)); [|apply appends_ret].
  destruct (url_Parse W "poll"); [|apply appends_ret].
  apply appends_bind.
  - unfold client_Post.
    destruct (http_NewRequest W "POST" _ _); [|apply appends_ret].
    apply appends_call. apply HL.
  - intros [resp|e]; [|apply appends_ret].
    destruct (http_ReadRequest W (Http.RespBody resp)); [|apply appends_ret].
    apply appends_bind; [apply doScrape_appends; assumption|].
    intros _. apply appends_ret.
Qed.

End Sites.

(** The scrape: one call, to the parsed federate target, through a
    client without transport. *)
Lemma scrape_run (st : State) (u : Url.URL) :
  url_Parse W (federate_target F) = inl u ->
  scrapeFederatedPrometheusEndpoint W F st
  = (client_Do W (via (scrape_call u)) (sent (scrape_call u)),
     record st (scrape_call u)).
Proof.
  intros Hu. unfold scrapeFederatedPrometheusEndpoint, http_NewRequest.
  fold (federate_target F). rewrite Hu. reflexivity.
Qed.

Lemma scrape_without_request (st : State) (err : error) :
  url_Parse W (federate_target F) = inr err ->
  scrapeFederatedPrometheusEndpoint W F st = (inr err, st).
Proof.
  intros Hu. unfold scrapeFederatedPrometheusEndpoint, http_NewRequest.
  fold (federate_target F). rewrite Hu. reflexivity.
Qed.

(** What the checks before the scrape leave alone. *)
Lemma schemeOverride_keeps (r : Http.Request) :
  Http.Ctx (schemeOverride r) = Http.Ctx r /\
  Http.ReqHeader (schemeOverride r) = Http.ReqHeader r /\
  Url.Host (Http.URL (schemeOverride r)) = Url.Host (Http.URL r).
Proof.
  unfold schemeOverride.
  destruct (String.eqb _ _); repeat split.
Qed.

Lemma attachToken_keeps (r t : Http.Request) :
  attachToken W F r = inl t ->
  Http.Ctx t = Http.Ctx r /\
  Http.Get (Http.ReqHeader t) "id" = Http.Get (Http.ReqHeader r) "id" /\
  Url.Host (Http.URL t) = Url.Host (Http.URL r) /\
  Url.RawQuery (Http.URL t) = Url.RawQuery (Http.URL r).
Proof.
  unfold attachToken.
  destruct (negb (String.eqb (tokenPath F) "")).
  - destruct (ioutil_ReadFile W (tokenPath F)) as [token|e]; [|discriminate].
    intros H. injection H as <-. cbn. repeat split.
    apply HttpFacts.Get_Set_other. vm_compute. discriminate.
  - intros H. injection H as <-. repeat split.
Qed.

Lemma checkPort_keeps (r t : Http.Request) :
  checkPort F r = inl t ->
  Http.Ctx t = Http.Ctx r /\ Http.ReqHeader t = Http.ReqHeader r /\
  Url.Scheme (Http.URL t) = Url.Scheme (Http.URL r) /\
  Url.RawQuery (Http.URL t) = Url.RawQuery (Http.URL r).
Proof.
  unfold checkPort.
  destruct (0 <? _)%Z; [|intros H; injection H as <-; repeat split].
  destruct (negb (String.eqb (allowPort F) "*") && _); [discriminate|].
  destruct (useLocalhost F); intros H; injection H as <-; repeat split.
Qed.

Lemma attachToken_scheme (r t : Http.Request) :
  attachToken W F r = inl t ->
  Url.Scheme (Http.URL t) = "https" \/
  Url.Scheme (Http.URL t) = Url.Scheme (Http.URL r).
Proof.
  unfold attachToken.
  destruct (negb (String.eqb (tokenPath F) "")).
  - destruct (ioutil_ReadFile W (tokenPath F)) as [token|e]; [|discriminate].
    intros H. injection H as <-. left. reflexivity.
  - intros H. injection H as <-. right. reflexivity.
Qed.

Lemma attachToken_readable (r : Http.Request) :
  token_readable W F -> exists t, attachToken W F r = inl t.
Proof.
  unfold token_readable, attachToken. intros [H|[token H]].
  - rewrite H. cbn. eexists. reflexivity.
  - destruct (negb (String.eqb (tokenPath F) "")); [|eexists; reflexivity].
    rewrite H. eexists. reflexivity.
Qed.

(** The request that [resolveTarget] hands on, to the scrape or to
    [handleErr], has the context and the identifier of the job. *)
Lemma resolveTarget_keeps (r : Http.Request) :
  let t := match resolveTarget W F r with inl t => t | inr (t, _) => t end in
  Http.Ctx t = Http.Ctx r /\
  Http.Get (Http.ReqHeader t) "id" = Http.Get (Http.ReqHeader r) "id".
Proof.
  cbv zeta. unfold resolveTarget.
  destruct (schemeOverride_keeps r) as (Hc & Hh & _).
  destruct (attachToken W F (schemeOverride r)) as [r1|e] eqn:E1.
  - destruct (attachToken_keeps _ _ E1) as (Hc1 & Hh1 & _).
    destruct (checkPort F r1) as [r2|e] eqn:E2.
    + destruct (checkPort_keeps _ _ E2) as (Hc2 & Hh2 & _).
      rewrite Hc2, Hh2, Hc1, Hh1, Hc, Hh. split; reflexivity.
    + rewrite Hc1, Hh1, Hc, Hh. split; reflexivity.
  - rewrite Hc, Hh. split; reflexivity.
Qed.

Section Job.

Variables (job : Http.Request) (client : Http.Client) (st : State).
Variables (base up : Url.URL).
Hypothesis Hbase : url_Parse W (proxyURL F) = inl base.
Hypothesis Hup : url_Parse W "push" = inl up.

(** The paths of [doScrape]. *)
Lemma doScrape_without_timeout (err : error) :
  GetHeaderTimeout W (Http.ReqHeader job) = inr err ->
  calls (doScrape W F job client) st
  = [push_call W base up client (error_response err) job].
Proof.
  intros Ht. apply calls_of_trace. unfold doScrape. rewrite Ht.
  apply handleErr_trace; assumption.
Qed.

Lemma doScrape_check_fails (timeout : Z) (request : Http.Request) (err : error) :
  GetHeaderTimeout W (Http.ReqHeader job) = inl timeout ->
  resolveTarget W F
    (Http.WithContext job
       (Http.WithTimeout (Http.Ctx job) (now_scrape W) timeout))
  = inr (request, err) ->
  calls (doScrape W F job client) st
  = [push_call W base up client (error_response err) request].
Proof.
  intros Ht Hr. apply calls_of_trace. unfold doScrape. rewrite Ht, Hr.
  apply handleErr_trace; assumption.
Qed.

Lemma doScrape_scrapes (timeout : Z) (target : Http.Request) (u : Url.URL) :
  GetHeaderTimeout W (Http.ReqHeader job) = inl timeout ->
  resolveTarget W F
    (Http.WithContext job
       (Http.WithTimeout (Http.Ctx job) (now_scrape W) timeout))
  = inl target ->
  url_Parse W (federate_target F) = inl u ->
  calls (doScrape W F job client) st
  = [scrape_call u;
     push_call W base up client (scrape_result W target u) target].
Proof.
  intros Ht Hr Hu. apply calls_of_trace. unfold doScrape. rewrite Ht, Hr.
  unfold bind. rewrite (scrape_run st u Hu). unfold scrape_result.
  destruct (client_Do W _ _) as [scrapeResp|err].
  - match goal with
    | |- context [doPush W F ?r ?o ?c ?s] =>
        pose proof (doPush_run r o c s base up Hbase Hup) as Hrun;
        destruct (doPush W F r o c s) as [res st'] eqn:E
    end.
    cbn [snd] in Hrun. subst st'.
    destruct res; cbn; rewrite <- app_assoc; reflexivity.
  - rewrite (handleErr_trace _ _ _ _ base up Hbase Hup).
    cbn. rewrite <- app_assoc. reflexivity.
Qed.

Lemma doScrape_without_request (timeout : Z) (target : Http.Request) (err : error) :
  GetHeaderTimeout W (Http.ReqHeader job) = inl timeout ->
  resolveTarget W F
    (Http.WithContext job
       (Http.WithTimeout (Http.Ctx job) (now_scrape W) timeout))
  = inl target ->
  url_Parse W (federate_target F) = inr err ->
  calls (doScrape W F job client) st
  = [push_call W base up client
       (error_response
          (errors_Wrap err ("failed to scrape " ++ Url.String_ (Http.URL target))))
       target].
Proof.
  intros Ht Hr Hu. apply calls_of_trace. unfold doScrape. rewrite Ht, Hr.
  unfold bind. rewrite (scrape_without_request st err Hu).
  apply handleErr_trace; assumption.
Qed.

(** Whatever the path, [doScrape] makes one push, of a response stamped
    for a request that has the identifier of the job and the context
    that the job was given. *)
Lemma doScrape_pushes_once :
  exists resp orig,
    filter is_push (calls (doScrape W F job client) st)
    = [push_call W base up client resp orig] /\
    Http.Get (Http.ReqHeader orig) "id" = Http.Get (Http.ReqHeader job) "id" /\
    Http.Ctx orig = job_context W job.
Proof.
  unfold job_context.
  destruct (GetHeaderTimeout W (Http.ReqHeader job)) as [timeout|err] eqn:Ht.
  - set (r := Http.WithContext job
                (Http.WithTimeout (Http.Ctx job) (now_scrape W) timeout)).
    pose proof (resolveTarget_keeps r) as Hk. cbv zeta in Hk.
    destruct (resolveTarget W F r) as [target|[request e]] eqn:Hr.
    + destruct (url_Parse W (federate_target F)) as [u|e] eqn:Hu.
      * rewrite (doScrape_scrapes timeout target u Ht Hr Hu).
        eexists _, target. split; [reflexivity|]. exact (conj (proj2 Hk) (proj1 Hk)).
      * rewrite (doScrape_without_request timeout target e Ht Hr Hu).
        eexists _, target. split; [reflexivity|]. exact (conj (proj2 Hk) (proj1 Hk)).
    + rewrite (doScrape_check_fails timeout request e Ht Hr).
      eexists _, request. split; [reflexivity|]. exact (conj (proj2 Hk) (proj1 Hk)).
  - rewrite (doScrape_without_timeout err Ht).
    eexists _, job. repeat split; reflexivity.
Qed.

End Job.
End Run.

(** ** The retry timer is started by the retry loop only *)

Lemma keeps_waits_ret {A : Type} (a : A) : keeps_waits (ret a).
Proof. intros st. reflexivity. Qed.

Lemma keeps_waits_bind {A B : Type} (m : M A) (k : A -> M B) :
  keeps_waits m -> (forall a, keeps_waits (k a)) -> keeps_waits (bind m k).
Proof.
  intros Hm Hk st. unfold bind. pose proof (Hm st) as H1.
  destruct (m st) as [a st1]. cbn [snd] in H1. rewrite (Hk a st1). exact H1.
Qed.

Lemma keeps_waits_call (W : World) (s : CallSite) (c : Http.Client)
      (r : Http.Request) : keeps_waits (call W s c r).
Proof. intros st. reflexivity. Qed.

Lemma doPush_keeps_waits (W : World) (F : Flags) (resp : Http.Response)
      (orig : Http.Request) (client : Http.Client) :
  keeps_waits (doPush W F resp orig client).
Proof.
  unfold doPush.
  destruct (url_Parse W (proxyURL F)); [|apply keeps_waits_ret].
  destruct (url_Parse W "push"); [|apply keeps_waits_ret].
  apply keeps_waits_bind; [apply keeps_waits_call|].
  intros [r|e]; apply keeps_waits_ret.
Qed.

Lemma handleErr_keeps_waits (W : World) (F : Flags) (request : Http.Request)
      (client : Http.Client) (err : error) :
  keeps_waits (handleErr W F request client err).
Proof.
  unfold handleErr.
  apply keeps_waits_bind; [intros st; reflexivity|]. intros _.
  apply keeps_waits_bind; [apply doPush_keeps_waits|].
  intros [e|]; [intros st; reflexivity|apply keeps_waits_ret].
Qed.

Lemma doScrape_keeps_waits (W : World) (F : Flags) (request : Http.Request)
      (client : Http.Client) :
  keeps_waits (doScrape W F request client).
Proof.
  unfold doScrape.
  destruct (GetHeaderTimeout W (Http.ReqHeader request));
    [|apply handleErr_keeps_waits].
  destruct (resolveTarget W F _) as [target|[r e]];
    [|apply handleErr_keeps_waits].
  apply keeps_waits_bind.
  - unfold scrapeFederatedPrometheusEndpoint.
    destruct (http_NewRequest W "GET" _ Http.NoBody);
      [apply keeps_waits_call|apply keeps_waits_ret].
  - intros [scrapeResp|e]; [|apply handleErr_keeps_waits].
    apply keeps_waits_bind; [apply doPush_keeps_waits|].
    intros [e|]; [intros st; reflexivity|apply keeps_waits_ret].
Qed.

Lemma doPoll_keeps_waits (W : World) (F : Flags) (client : Http.Client) :
  keeps_waits (doPoll W F client).
Proof.
  unfold doPoll.
  destruct (url_Parse W (proxyURL F)); [|apply keeps_waits_ret].
  destruct (url_Parse W "poll"); [|apply keeps_waits_ret].
  apply keeps_waits_bind.
  - unfold client_Post.
    destruct (http_NewRequest W "POST" _ _);
      [apply keeps_waits_call|apply keeps_waits_ret].
  - intros [resp|e]; [|apply keeps_waits_ret].
    destruct (http_ReadRequest W (Http.RespBody resp)); [|apply keeps_waits_ret].
    apply keeps_waits_bind; [apply doScrape_keeps_waits|].
    intros _. apply keeps_waits_ret.
Qed.

(** One turn of the loop of [RetryNotify] after a poll that failed. *)
Lemma retry_loop_turn (F : Flags) (client : Http.Client) (w : World)
      (worlds : list World) (b b1 : Backoff.ExponentialBackOff)
      (st st1 : State) (e : error) (next : Z) :
  doPoll w F client st = (Some e, st1) ->
  Backoff.NextBackOff b (now_backoff w) (rand_Float64 w) = (next, b1) ->
  (next =? Backoff.Stop_)%Z = false ->
  retry_loop F client b (w :: worlds) st
  = retry_loop F client b1 worlds
      (mkState (trace st1) (scrapeErrorCounter st1) (pushErrorCounter st1)
               (S (pollErrorCounter st1)) (waits st1 ++ [next])).
Proof.
  intros Hpoll Hnext Hstop. cbn [retry_loop]. unfold bind at 1.
  rewrite Hpoll, Hnext, Hstop. reflexivity.
Qed.

(** ** The pushed result *)

Lemma stamp_headers (W : World) (resp : Http.Response) (orig : Http.Request) :
  Http.Get (Http.RespHeader (stamp W resp orig)) "id"
  = Http.Get (Http.ReqHeader orig) "id" /\
  Http.Get (Http.RespHeader (stamp W resp orig)) "X-Prometheus-Scrape-Timeout"
  = format_seconds W (time_Until (now_push W) (Http.Deadline (Http.Ctx orig))).
Proof.
  unfold stamp. cbn [Http.RespHeader]. split.
  - rewrite HttpFacts.Get_Set_other by (vm_compute; discriminate).
    apply HttpFacts.Get_Set_same.
  - apply HttpFacts.Get_Set_same.
Qed.

Lemma pushed_of_pushes (t : list Event) : pushed t = pushed (filter is_push t).
Proof.
  unfold pushed. induction t as [|e t IH]; [reflexivity|].
  cbn [flat_map filter]. unfold is_push at 1.
  destruct (site e) eqn:Es; cbn [flat_map]; rewrite ?Es, IH; reflexivity.
Qed.

(** A poll that brings a job: the call to the relay, then the calls of
    [doScrape] on the job. *)
Lemma doPoll_job (W : World) (F : Flags) (client : Http.Client) (st : State)
      (base u pollURL : Url.URL) (resp : Http.Response) (job : Http.Request) :
  url_Parse W (proxyURL F) = inl base ->
  url_Parse W "poll" = inl u ->
  url_Parse W (Url.String_ (url_ResolveReference W base u)) = inl pollURL ->
  client_Do W client (sent (poll_call F client pollURL)) = inl resp ->
  http_ReadRequest W (Http.RespBody resp) = inl job ->
  calls (doPoll W F client) st
  = poll_call F client pollURL
      :: calls (doScrape W F (Http.set_RequestURI job "") client)
               (record st (poll_call F client pollURL)).
Proof.
  intros Hbase Hu Hp Hdo Hread.
  destruct (doScrape_appends W F (fun _ => True) client
              (Http.set_RequestURI job "") (fun _ => I) (fun _ => I)
              (record st (poll_call F client pollURL))) as (new & E & _).
  rewrite (calls_of_trace _ _ _ E).
  apply calls_of_trace.
  unfold doPoll. rewrite Hbase, Hu. unfold bind, client_Post, http_NewRequest.
  rewrite Hp. rewrite call_run.
  change (Http.set_Header _ _) with (sent (poll_call F client pollURL)).
  rewrite Hdo, Hread.
  change (mkEvent PollCall client (sent (poll_call F client pollURL)))
    with (poll_call F client pollURL).
  destruct (doScrape W F (Http.set_RequestURI job "") client
                     (record st (poll_call F client pollURL))) as [[] st'] eqn:Es.
  cbn [snd] in *. unfold ret. cbn [snd].
  rewrite E, trace_record, <- app_assoc. reflexivity.
Qed.

(** ** The driver loop *)

Section Loop.

Variable Q : Event -> Prop.
Variable F : Flags.
Variable client : Http.Client.
Hypothesis Hpoll : forall r, Q (mkEvent PollCall client r).
Hypothesis Hpush : forall r, Q (mkEvent PushCall client r).
Hypothesis Hscrape : forall r, Q (mkEvent ScrapeCall (Http.mkClient None) r).

Lemma retry_loop_appends (worlds : list World) :
  forall b, appends Q (retry_loop F client b worlds).
Proof.
  induction worlds as [|w worlds IH]; intros b; cbn [retry_loop].
  - apply appends_ret.
  - apply appends_bind; [apply doPoll_appends; assumption|].
    intros [e|]; [|apply appends_ret].
    destruct (Backoff.NextBackOff b (now_backoff w) (rand_Float64 w)) as [next b'].
    destruct (next =? Backoff.Stop_)%Z; [apply appends_ret|].
    apply appends_bind; [apply appends_pollErrorCounter_Inc|]. intros _.
    apply appends_bind; [apply appends_wait|]. intros _.
    apply IH.
Qed.

Lemma RetryNotify_appends (worlds : list World) (b : Backoff.ExponentialBackOff) :
  appends Q (RetryNotify F client b worlds).
Proof.
  unfold RetryNotify. destruct worlds as [|w worlds].
  - apply appends_ret.
  - apply retry_loop_appends.
Qed.

Lemma loop_turns_appends (fuel : nat) :
  forall bo worlds, appends Q (loop_turns fuel F client bo worlds).
Proof.
  induction fuel as [|fuel IH]; intros bo worlds; cbn [loop_turns].
  - apply appends_ret.
  - destruct worlds as [|w worlds]; [apply appends_ret|].
    apply appends_bind; [apply RetryNotify_appends|].
    intros [[status bo'] worlds']. apply IH.
Qed.

(** A call of [RetryNotify] uses up a world, when there is one. *)
Lemma retry_loop_uses (worlds : list World) :
  forall b st,
    (length (snd (fst (retry_loop F client b worlds st)))
     <= pred (length worlds))%nat.
Proof.
  induction worlds as [|w worlds IH]; intros b st; cbn [retry_loop].
  - apply Nat.le_refl.
  - unfold bind at 1.
    destruct (doPoll w F client st) as [[e|] st1]; [|apply Nat.le_refl].
    destruct (Backoff.NextBackOff b (now_backoff w) (rand_Float64 w)) as [next b'].
    destruct (next =? Backoff.Stop_)%Z; [apply Nat.le_refl|].
    unfold bind, pollErrorCounter_Inc, wait. cbv beta iota.
    match goal with
    | |- context [retry_loop F client b' worlds ?s2] =>
        pose proof (IH b' s2) as Hle
    end.
    cbn [length pred]. lia.
Qed.

(** One turn for each world is enough fuel: with more, the loop does
    the same. *)
Lemma loop_turns_enough (fuel : nat) :
  forall fuel' bo worlds st,
    (length worlds <= fuel)%nat -> (length worlds <= fuel')%nat ->
    loop_turns fuel F client bo worlds st
    = loop_turns fuel' F client bo worlds st.
Proof.
  induction fuel as [|fuel IH]; intros fuel' bo worlds st H1 H2.
  - destruct worlds; [|cbn in H1; lia]. destruct fuel'; reflexivity.
  - destruct worlds as [|w worlds]; [destruct fuel'; reflexivity|].
    destruct fuel' as [|fuel']; [cbn in H2; lia|].
    cbn [loop_turns]. unfold bind. unfold RetryNotify.
    pose proof (retry_loop_uses (w :: worlds)
                  (Backoff.Reset bo (now_backoff w)) st) as Hle.
    destruct (retry_loop F client (Backoff.Reset bo (now_backoff w))
                         (w :: worlds) st) as [[[status bo'] worlds'] st1].
    cbn [fst snd length pred] in Hle. cbn [length] in H1, H2.
    apply IH; lia.
Qed.

Lemma loop_appends (bo : Backoff.ExponentialBackOff) (worlds : list World) :
  appends Q (loop F bo client worlds).
Proof. apply loop_turns_appends. Qed.

End Loop.

End ClientFacts.

(* ================================================================== *)
(** * The properties of the protocol *)

Module Protocol.

Import Client Obs ClientFacts.

(** ** Target resolution *)

(** The scheme override, by the test that the code makes on the parsed
    query. *)
Lemma schemeOverride_by_test (W : World) (F : Flags) (request : Http.Request) :
  if String.eqb (Url.Get (Url.Query (Http.URL request)) "_scheme") "https" then
    Url.Scheme (Http.URL (schemeOverride request)) = "https" /\
    Url.lookup (Url.Query (Http.URL (schemeOverride request))) "_scheme" = [] /\
    match resolveTarget W F request with
    | inl final =>
        Url.Scheme (Http.URL final) = "https" /\
        Url.lookup (Url.Query (Http.URL final)) "_scheme" = []
    | inr _ => True
    end
  else schemeOverride request = request.
Proof.
  destruct (String.eqb (Url.Get (Url.Query (Http.URL request)) "_scheme") "https")
    eqn:E.
  - assert (Hs : Url.Scheme (Http.URL (schemeOverride request)) = "https"
                 /\ Url.lookup (Url.Query (Http.URL (schemeOverride request)))
                               "_scheme" = []).
    { unfold schemeOverride. rewrite E. cbn. split; [reflexivity|].
      unfold Url.Query at 1. cbn. apply UrlFacts.Del_Encode_no_key. }
    destruct Hs as [Hs Hq]. repeat split; try assumption.
    unfold resolveTarget.
    destruct (attachToken W F (schemeOverride request)) as [r1|e] eqn:E1;
      [|exact I].
    destruct (checkPort F r1) as [r2|e] eqn:E2; [|exact I].
    destruct (checkPort_keeps F _ _ E2) as (_ & _ & Hs2 & Hq2).
    destruct (attachToken_keeps W F _ _ E1) as (_ & _ & _ & Hq1).
    unfold Url.Query in *. rewrite Hs2, Hq2, Hq1. split; [|assumption].
    destruct (attachToken_scheme W F _ _ E1) as [H|H]; congruence.
  - unfold schemeOverride. rewrite E. reflexivity.
Qed.

(** C8.  A job carries the query parameter [_scheme] when the query of
    its URL has the piece [_scheme=raw] between two [&], and before it
    no piece that names [_scheme]; its value is what [raw] unescapes to.
    When the value is [https], the scheme of the URL is set to [https]
    and the parameter is taken out of the query, by the scheme override
    and in the request that the scrape starts from; with any other value
    the request is left as it is. *)
Theorem scheme_parameter_override (W : World) (F : Flags)
        (request : Http.Request) (before after : list string)
        (raw value : string) :
  Strs.split "&" (Url.RawQuery (Http.URL request))
  = (before ++ ("_scheme=" ++ raw)%string :: after)%list ->
  existsb (names_key "_scheme") before = false ->
  Strs.contains_byte raw ";" = false ->
  Url.QueryUnescape raw = Some value ->
  if String.eqb value "https" then
    Url.Scheme (Http.URL (schemeOverride request)) = "https" /\
    Url.lookup (Url.Query (Http.URL (schemeOverride request))) "_scheme" = [] /\
    match resolveTarget W F request with
    | inl final =>
        Url.Scheme (Http.URL final) = "https" /\
        Url.lookup (Url.Query (Http.URL final)) "_scheme" = []
    | inr _ => True
    end
  else schemeOverride request = request.
Proof.
  intros Hs Hb Hc Hu.
  pose proof (schemeOverride_by_test W F request) as H.
  unfold Url.Query at 1 in H.
  rewrite (UrlFacts.Get_scheme _ before after raw value Hs Hb Hc Hu) in H.
  exact H.
Qed.

(** A job for [http://host:9100/metrics?b=2&_scheme=https&a=1]: the
    override makes it [https://host:9100/metrics?a=1&b=2]; and a job
    with [_scheme=http] stays as it is. *)
Lemma scheme_parameter_override_witness :
  Url.String_
    (Http.URL (schemeOverride (Sample.job "host:9100" "b=2&_scheme=https&a=1")))
  = "https://host:9100/metrics?a=1&b=2" /\
  (Url.Scheme
     (Http.URL (schemeOverride (Sample.job "host:9100" "b=2&_scheme=https&a=1")))
   = "https" /\
   Url.lookup
     (Url.Query
        (Http.URL (schemeOverride
                     (Sample.job "host:9100" "b=2&_scheme=https&a=1"))))
     "_scheme" = [] /\
   match resolveTarget (Sample.world (Sample.job "host:9100" ""))
                       (Sample.flags true "9100")
                       (Sample.job "host:9100" "b=2&_scheme=https&a=1") with
   | inl final =>
       Url.Scheme (Http.URL final) = "https" /\
       Url.lookup (Url.Query (Http.URL final)) "_scheme" = []
   | inr _ => True
   end) /\
  schemeOverride (Sample.job "host:9100" "_scheme=http&a=1")
  = Sample.job "host:9100" "_scheme=http&a=1".
Proof.
  split; [reflexivity|]. split.
  - exact (scheme_parameter_override
             (Sample.world (Sample.job "host:9100" ""))
             (Sample.flags true "9100")
             (Sample.job "host:9100" "b=2&_scheme=https&a=1")
             ["b=2"] ["a=1"] "https" "https"
             eq_refl eq_refl eq_refl eq_refl).
  - exact (scheme_parameter_override
             (Sample.world (Sample.job "host:9100" ""))
             (Sample.flags true "9100")
             (Sample.job "host:9100" "_scheme=http&a=1")
             [] ["a=1"] "http" "http"
             eq_refl eq_refl eq_refl eq_refl).
Defined.

Lemma no_scrapes (new : list Event) :
  Forall (fun e => is_scrape e = false) new -> filter is_scrape new = [].
Proof.
  induction 1 as [|e new He _ IH]; [reflexivity|].
  cbn [filter]. rewrite He. exact IH.
Qed.

Lemma port_present (port : string) :
  port <> "" -> (0 <? Z.of_nat (String.length port))%Z = true.
Proof. destruct port; [congruence|reflexivity]. Qed.

Lemma port_of_checked (W : World) (F : Flags) (request r1 : Http.Request) :
  attachToken W F (schemeOverride request) = inl r1 ->
  Url.Port (Http.URL r1) = Url.Port (Http.URL request) /\
  Url.Host (Http.URL r1) = Url.Host (Http.URL request).
Proof.
  intros E1.
  destruct (attachToken_keeps W F _ _ E1) as (_ & _ & Hh & _).
  destruct (schemeOverride_keeps request) as (_ & _ & Hh0).
  unfold Url.Port. rewrite Hh, Hh0. split; reflexivity.
Qed.

(** C7, as the code has it.  With [use-localhost], a job whose target
    has a port, one that the allowed port lets through, and for which
    the token can be had, is scraped at 127.0.0.1 with the port it came
    with. *)
Theorem loopback_rewrite_with_port (W : World) (F : Flags) (request : Http.Request) :
  useLocalhost F = true ->
  Url.Port (Http.URL request) <> "" ->
  allowPort F = "*" \/ allowPort F = Url.Port (Http.URL request) ->
  token_readable W F ->
  exists target,
    resolveTarget W F request = inl target /\
    Url.Host (Http.URL target) = "127.0.0.1:" ++ Url.Port (Http.URL request) /\
    Url.Hostname (Http.URL target) = "127.0.0.1" /\
    Url.Port (Http.URL target) = Url.Port (Http.URL request).
Proof.
  intros Hlocal Hport Hallow Htoken.
  destruct (attachToken_readable W F (schemeOverride request) Htoken) as [r1 E1].
  destruct (port_of_checked W F request r1 E1) as [Hp _].
  unfold resolveTarget. rewrite E1. unfold checkPort.
  rewrite Hp, (port_present _ Hport), Hlocal.
  assert (Hgate : negb (String.eqb (allowPort F) "*")
                  && negb (String.eqb (allowPort F) (Url.Port (Http.URL request)))
                  = false).
  { destruct Hallow as [->| ->].
    - reflexivity.
    - rewrite String.eqb_refl. apply andb_false_r. }
  rewrite Hgate. eexists. split; [reflexivity|].
  cbn [Http.URL Http.set_URL].
  assert (Hd : Strs.all Strs.is_digit (Url.Port (Http.URL request)) = true)
    by apply UrlFacts.Port_digits.
  remember (Url.Port (Http.URL request)) as port eqn:Eport.
  split; [reflexivity|].
  unfold Url.Hostname, Url.Port. cbn [Url.Host Url.set_Host].
  rewrite UrlFacts.splitHostPort_loopback by exact Hd.
  split; reflexivity.
Qed.

Lemma loopback_rewrite_with_port_witness :
  exists target,
    resolveTarget (Sample.world (Sample.job "host:9100" ""))
                  (Sample.flags true "9100") (Sample.job "host:9100" "")
    = inl target /\
    Url.Host (Http.URL target) = "127.0.0.1:9100" /\
    Url.Hostname (Http.URL target) = "127.0.0.1" /\
    Url.Port (Http.URL target) = "9100".
Proof.
  apply (loopback_rewrite_with_port
           (Sample.world (Sample.job "host:9100" ""))
           (Sample.flags true "9100") (Sample.job "host:9100" "")).
  - reflexivity.
  - vm_compute. discriminate.
  - right. reflexivity.
  - left. reflexivity.
Defined.

(** C7, as stated, fails: with [use-localhost], the job for
    [http://host/metrics], a target without a port, keeps its host. *)
Lemma loopback_skipped_without_port :
  useLocalhost (Sample.flags true "9100") = true /\
  exists target,
    resolveTarget (Sample.world (Sample.job "host" ""))
                  (Sample.flags true "9100") (Sample.job "host" "")
    = inl target /\
    Url.Hostname (Http.URL target) = "host" /\
    Url.Hostname (Http.URL target) <> "127.0.0.1".
Proof.
  split; [reflexivity|]. eexists. split; [reflexivity|].
  split; [reflexivity|]. vm_compute. discriminate.
Qed.

(** C10.  A job whose target has no port passes the port check and
    keeps its host, whatever the allowed port and with or without
    [use-localhost]; given its timeout and the token, the scrape is
    made. *)
Theorem portless_job_proceeds (W : World) (F : Flags) (job : Http.Request)
        (client : Http.Client) (st : State) (timeout : Z) (u : Url.URL) :
  Url.Port (Http.URL job) = "" ->
  GetHeaderTimeout W (Http.ReqHeader job) = inl timeout ->
  token_readable W F ->
  url_Parse W (federate_target F) = inl u ->
  exists target,
    resolveTarget W F
      (Http.WithContext job
         (Http.WithTimeout (Http.Ctx job) (now_scrape W) timeout))
    = inl target /\
    Url.Host (Http.URL target) = Url.Host (Http.URL job) /\
    scrapes (calls (doScrape W F job client) st) = [scrape_call u].
Proof.
  intros Hport Ht Htoken Hu.
  set (r := Http.WithContext job
              (Http.WithTimeout (Http.Ctx job) (now_scrape W) timeout)).
  destruct (attachToken_readable W F (schemeOverride r) Htoken) as [r1 E1].
  destruct (port_of_checked W F r r1 E1) as [Hp Hh].
  assert (Hr : resolveTarget W F r = inl r1).
  { unfold resolveTarget. rewrite E1. unfold checkPort.
    rewrite Hp. unfold r. cbn [Http.URL Http.WithContext].
    rewrite Hport. reflexivity. }
  exists r1. split; [exact Hr|]. split; [exact Hh|].
  unfold doScrape, calls. rewrite Ht. fold r. rewrite Hr.
  unfold bind. rewrite (scrape_run W F st u Hu).
  set (rest := match client_Do W _ _ with inl _ => _ | inr _ => _ end).
  assert (Hrest : appends (fun e => is_scrape e = false) rest).
  { unfold rest. destruct (client_Do W _ _) as [scrapeResp|e].
    - apply appends_bind; [apply doPush_appends; reflexivity|].
      intros [e|]; [apply appends_pushErrorCounter_Inc|apply appends_ret].
    - apply handleErr_appends. reflexivity. }
  destruct (Hrest (record st (scrape_call u))) as (new & E & Hnew).
  rewrite E, trace_record, <- app_assoc, skipn_app, skipn_all, Nat.sub_diag.
  cbn [skipn app scrapes filter is_scrape site scrape_call].
  rewrite (no_scrapes new Hnew). reflexivity.
Qed.

Lemma portless_job_proceeds_witness :
  exists target,
    resolveTarget (Sample.world (Sample.job "host" ""))
      (Sample.flags true "9100")
      (Http.WithContext (Sample.job "host" "")
         (Http.WithTimeout Http.Background (1000 * Backoff.Second)
                           (10 * Backoff.Second)))
    = inl target /\
    Url.Host (Http.URL target) = "host" /\
    scrapes (calls (doScrape (Sample.world (Sample.job "host" ""))
                             (Sample.flags true "9100")
                             (Sample.job "host" "") Sample.client)
                   initial_state)
    = [scrape_call (Sample.plain_url "http" federate_host "/federate"
                                     "match%5B%5D=up")].
Proof.
  apply (portless_job_proceeds
           (Sample.world (Sample.job "host" "")) (Sample.flags true "9100")
           (Sample.job "host" "") Sample.client initial_state
           (10 * Backoff.Second)).
  - reflexivity.
  - reflexivity.
  - left. reflexivity.
  - reflexivity.
Defined.

(** ** The clients *)

(** C3, as the code has it.  In a run of [main], every poll and every
    push goes through the client that [main] built on its transport,
    and every scrape through a client of its own, [&http.Client{}]. *)
Theorem calls_by_site (F : Flags) (tlsConfig : Http.tls_Config + error)
        (now : Z) (worlds : list World) (st : State) :
  main F tlsConfig now worlds = Running st ->
  exists tls,
    tlsConfig = inl tls /\ Forall (routed (main_client tls)) (trace st).
Proof.
  unfold main.
  destruct (length (matchStrings F) =? 0)%nat; [discriminate|].
  destruct (String.eqb (proxyURL F) ""); [discriminate|].
  destruct tlsConfig as [tls|e]; [|discriminate].
  destruct (useLocalhost _ && _); [discriminate|].
  intros H. injection H as <-. exists tls. split; [reflexivity|].
  match goal with
  | |- context [loop ?F' ?bo ?c ?ws] =>
      destruct (loop_appends (routed c) F' c
                  (fun _ => eq_refl) (fun _ => eq_refl) (fun _ => eq_refl)
                  bo ws initial_state) as (new & E & Hnew)
  end.
  rewrite E. exact Hnew.
Qed.

Lemma calls_by_site_witness :
  exists tls,
    @inl Http.tls_Config error Sample.tls = inl tls /\
    Forall (routed (main_client tls))
      (trace (snd (loop (Sample.flags false "9100")
                        (newBackOffFromFlags (Sample.flags false "9100") 0)
                        Sample.client
                        [Sample.world (Sample.job "host:9100" "")]
                        initial_state))).
Proof.
  apply (calls_by_site (Sample.flags false "9100") (inl Sample.tls) 0
                       [Sample.world (Sample.job "host:9100" "")]).
  reflexivity.
Defined.

(** C3, as stated, fails: in a run of [main] that polls one job, the
    scrape does not go through the client that [main] built. *)
Lemma scrape_by_another_client :
  exists st e,
    main (Sample.flags false "9100") (inl Sample.tls) 0
         [Sample.world (Sample.job "host:9100" "")] = Running st /\
    In e (trace st) /\
    site e = ScrapeCall /\
    via e = Http.mkClient None /\
    via e <> main_client Sample.tls.
Proof.
  eexists. eexists. split; [reflexivity|].
  split; [right; left; reflexivity|].
  split; [reflexivity|]. split; [reflexivity|]. discriminate.
Qed.

(** ** The scrape *)

(** The text of the federate target. *)
Lemma federate_target_text (F : Flags) :
  federate_target F
  = "http://prometheus-server.prometheus.svc.cluster.local/federate"
    ++ (if Url.is_empty
             (Url.Encode (fold_left (fun p s => Url.Add p "match[]" s)
                                    (matchStrings F) []))
        then ""
        else "?" ++ Url.Encode (fold_left (fun p s => Url.Add p "match[]" s)
                                          (matchStrings F) [])).
Proof.
  unfold federate_target, createURL, Url.String_.
  generalize (Url.Encode (fold_left (fun p s => Url.Add p "match[]" s)
                                    (matchStrings F) [])).
  intros q. cbn -[Url.is_empty].
  destruct (Url.is_empty q); cbn; rewrite ?StrsFacts.append_empty; reflexivity.
Qed.

(** C1, as the code has it.  A job that passes the timeout, token and
    port checks is scraped at the federate endpoint, whatever the target
    it resolves to; one result is pushed, with the status and the body
    of the response of that endpoint when the scrape succeeds, and with
    the status 500 and the text of the failure when it does not. *)
Theorem scrape_at_federate_endpoint (W : World) (F : Flags) (job : Http.Request)
        (client : Http.Client) (st : State) (timeout : Z)
        (target : Http.Request) (u base up : Url.URL) :
  GetHeaderTimeout W (Http.ReqHeader job) = inl timeout ->
  resolveTarget W F
    (Http.WithContext job
       (Http.WithTimeout (Http.Ctx job) (now_scrape W) timeout))
  = inl target ->
  url_Parse W (federate_target F) = inl u ->
  url_Parse W (proxyURL F) = inl base ->
  url_Parse W "push" = inl up ->
  scrapes (calls (doScrape W F job client) st) = [scrape_call u] /\
  exists r,
    pushed (calls (doScrape W F job client) st) = [r] /\
    match client_Do W (via (scrape_call u)) (sent (scrape_call u)) with
    | inl scrapeResp =>
        Http.StatusCode r = Http.StatusCode scrapeResp /\
        Http.RespBody r = Http.RespBody scrapeResp
    | inr err =>
        Http.StatusCode r = Http.StatusInternalServerError /\
        Http.RespBody r
        = errors_Wrap err ("failed to scrape " ++ Url.String_ (Http.URL target))
    end.
Proof.
  intros Ht Hr Hu Hbase Hup.
  rewrite (doScrape_scrapes W F job client st base up Hbase Hup
                            timeout target u Ht Hr Hu).
  split; [reflexivity|].
  exists (stamp W (scrape_result W target u) target). split; [reflexivity|].
  unfold scrape_result.
  destruct (client_Do W _ _); split; reflexivity.
Qed.

Lemma scrape_at_federate_endpoint_witness :
  scrapes (calls (doScrape (Sample.world (Sample.job "host:9100" ""))
                           (Sample.flags false "9100")
                           (Sample.job "host:9100" "") Sample.client)
                 initial_state)
  = [scrape_call (Sample.plain_url "http" federate_host "/federate"
                                   "match%5B%5D=up")] /\
  exists r,
    pushed (calls (doScrape (Sample.world (Sample.job "host:9100" ""))
                            (Sample.flags false "9100")
                            (Sample.job "host:9100" "") Sample.client)
                  initial_state) = [r] /\
    Http.StatusCode r = 200%Z /\ Http.RespBody r = "up 1".
Proof.
  apply (scrape_at_federate_endpoint
           (Sample.world (Sample.job "host:9100" ""))
           (Sample.flags false "9100") (Sample.job "host:9100" "")
           Sample.client initial_state (10 * Backoff.Second)
           (Http.WithContext (Sample.job "host:9100" "")
              (Http.mkContext (Some (1010 * Backoff.Second)%Z)))
           (Sample.plain_url "http" federate_host "/federate" "match%5B%5D=up")
           (Sample.plain_url "http" "relay.example:8080" "/" "")
           (Sample.plain_url "" "" "push" ""));
    reflexivity.
Defined.

(** C1, as stated, fails: the job for [http://host:9100/metrics] passes
    the checks with that URL as its target, and the scrape goes to the
    federate endpoint. *)
Lemma scrape_not_at_job_target :
  exists target e,
    resolveTarget (Sample.world (Sample.job "host:9100" ""))
      (Sample.flags false "9100")
      (Http.WithContext (Sample.job "host:9100" "")
         (Http.WithTimeout Http.Background (1000 * Backoff.Second)
                           (10 * Backoff.Second)))
    = inl target /\
    Url.String_ (Http.URL target) = "http://host:9100/metrics" /\
    scrapes (calls (doScrape (Sample.world (Sample.job "host:9100" ""))
                             (Sample.flags false "9100")
                             (Sample.job "host:9100" "") Sample.client)
                   initial_state) = [e] /\
    Url.String_ (Http.URL (sent e))
    = "http://prometheus-server.prometheus.svc.cluster.local/federate?match%5B%5D=up" /\
    Http.URL (sent e) <> Http.URL target.
Proof.
  eexists. eexists. split; [reflexivity|]. split; [reflexivity|].
  split; [reflexivity|]. split; [reflexivity|]. discriminate.
Qed.

(** ** One result for each job *)

(** C2.  A poll that brings a job is followed by one push, and the
    result pushed has the identifier of the job, whatever the path that
    the job takes. *)
Theorem one_result_per_job (W : World) (F : Flags) (client : Http.Client)
        (st : State) (base u pollURL up : Url.URL) (resp : Http.Response)
        (job : Http.Request) :
  url_Parse W (proxyURL F) = inl base ->
  url_Parse W "poll" = inl u ->
  url_Parse W (Url.String_ (url_ResolveReference W base u)) = inl pollURL ->
  client_Do W client (sent (poll_call F client pollURL)) = inl resp ->
  http_ReadRequest W (Http.RespBody resp) = inl job ->
  url_Parse W "push" = inl up ->
  exists r,
    pushed (calls (doPoll W F client) st) = [r] /\
    Http.Get (Http.RespHeader r) "id" = Http.Get (Http.ReqHeader job) "id".
Proof.
  intros Hbase Hu Hp Hdo Hread Hup.
  rewrite (doPoll_job W F client st base u pollURL resp job
                      Hbase Hu Hp Hdo Hread).
  destruct (doScrape_pushes_once W F (Http.set_RequestURI job "") client
              (record st (poll_call F client pollURL)) base up Hbase Hup)
    as (r0 & orig & Hpush & Hid & _).
  exists (stamp W r0 orig). split.
  - rewrite pushed_of_pushes. cbn [filter is_push poll_call site].
    rewrite Hpush. reflexivity.
  - rewrite (proj1 (stamp_headers W r0 orig)). exact Hid.
Qed.

Lemma one_result_per_job_witness :
  exists r,
    pushed (calls (doPoll (Sample.world (Sample.job "host:9200" ""))
                          (Sample.flags false "9100") Sample.client)
                  initial_state) = [r] /\
    Http.Get (Http.RespHeader r) "id" = "42".
Proof.
  apply (one_result_per_job
           (Sample.world (Sample.job "host:9200" ""))
           (Sample.flags false "9100") Sample.client initial_state
           (Sample.plain_url "http" "relay.example:8080" "/" "")
           (Sample.plain_url "" "" "poll" "")
           (Sample.plain_url "http" "relay.example:8080" "/poll" "")
           (Sample.plain_url "" "" "push" "")
           (Http.mkResponse 200 [] "/poll")
           (Sample.job "host:9200" ""));
    reflexivity.
Defined.

(** ** The failure paths *)

(** C5.  A job whose timeout header is missing, or has a value that does
    not parse, is not scraped; one result is pushed, with the status 500
    and the error as its body; and the push runs under the context that
    the job came with: no deadline is made up. *)
Theorem no_timeout_no_scrape (W : World) (F : Flags) (job : Http.Request)
        (client : Http.Client) (st : State) (base up : Url.URL) :
  url_Parse W (proxyURL F) = inl base ->
  url_Parse W "push" = inl up ->
  Http.header_lookup (Http.ReqHeader job)
                     (Http.CanonicalMIMEHeaderKey (timeout_header W)) = []
  \/ (exists v vs err,
         Http.header_lookup (Http.ReqHeader job)
                            (Http.CanonicalMIMEHeaderKey (timeout_header W))
         = v :: vs /\
         parse_seconds W v = inr err) ->
  scrapes (calls (doScrape W F job client) st) = [] /\
  Forall (fun e => Http.Ctx (sent e) = Http.Ctx job)
         (calls (doScrape W F job client) st) /\
  exists r,
    pushed (calls (doScrape W F job client) st) = [r] /\
    Http.StatusCode r = Http.StatusInternalServerError /\
    GetHeaderTimeout W (Http.ReqHeader job) = inr (Http.RespBody r).
Proof.
  intros Hbase Hup Hbad.
  assert (Herr : exists err, GetHeaderTimeout W (Http.ReqHeader job) = inr err).
  { unfold GetHeaderTimeout. destruct Hbad as [-> | (v & vs & err & -> & Hv)].
    - eexists. reflexivity.
    - exists err. exact Hv. }
  destruct Herr as [err Herr].
  rewrite (doScrape_without_timeout W F job client st base up Hbase Hup err Herr).
  split; [reflexivity|]. split.
  - constructor; [reflexivity|constructor].
  - exists (stamp W (error_response err) job).
    split; [reflexivity|]. split; [reflexivity|]. exact Herr.
Qed.

Lemma no_timeout_no_scrape_witness :
  scrapes (calls (doScrape (Sample.world (Sample.job_without_timeout "host:9100"))
                           (Sample.flags false "9100")
                           (Sample.job_without_timeout "host:9100")
                           Sample.client)
                 initial_state) = [] /\
  Forall (fun e => Http.Ctx (sent e) = Http.Background)
         (calls (doScrape (Sample.world (Sample.job_without_timeout "host:9100"))
                          (Sample.flags false "9100")
                          (Sample.job_without_timeout "host:9100")
                          Sample.client)
                initial_state) /\
  exists r,
    pushed (calls (doScrape (Sample.world (Sample.job_without_timeout "host:9100"))
                            (Sample.flags false "9100")
                            (Sample.job_without_timeout "host:9100")
                            Sample.client)
                  initial_state) = [r] /\
    Http.StatusCode r = 500%Z /\
    GetHeaderTimeout (Sample.world (Sample.job_without_timeout "host:9100"))
                     (Http.ReqHeader (Sample.job_without_timeout "host:9100"))
    = inr (Http.RespBody r).
Proof.
  apply (no_timeout_no_scrape
           (Sample.world (Sample.job_without_timeout "host:9100"))
           (Sample.flags false "9100")
           (Sample.job_without_timeout "host:9100") Sample.client initial_state
           (Sample.plain_url "http" "relay.example:8080" "/" "")
           (Sample.plain_url "" "" "push" "")).
  - reflexivity.
  - reflexivity.
  - left. reflexivity.
Defined.

(** A job for a port that is not the allowed one is never scraped,
    whichever check stops it. *)
Lemma forbidden_port_never_scraped (W : World) (F : Flags) (job : Http.Request)
      (client : Http.Client) (st : State) :
  allowPort F <> "*" ->
  Url.Port (Http.URL job) <> "" ->
  allowPort F <> Url.Port (Http.URL job) ->
  scrapes (calls (doScrape W F job client) st) = [].
Proof.
  intros Hstar Hport Hne.
  apply no_scrapes. apply appends_calls.
  unfold doScrape.
  destruct (GetHeaderTimeout W (Http.ReqHeader job)) as [timeout|err];
    [|apply handleErr_appends; reflexivity].
  set (r := Http.WithContext job _).
  destruct (resolveTarget W F r) as [target|[r' e]] eqn:Hr;
    [|apply handleErr_appends; reflexivity].
  exfalso. unfold resolveTarget in Hr.
  destruct (attachToken W F (schemeOverride r)) as [r1|e] eqn:E1; [|discriminate].
  destruct (port_of_checked W F r r1 E1) as [Hp _].
  unfold checkPort in Hr. rewrite Hp in Hr.
  change (Http.URL r) with (Http.URL job) in Hr.
  rewrite (port_present _ Hport) in Hr.
  apply String.eqb_neq in Hstar, Hne. rewrite Hstar, Hne in Hr.
  discriminate Hr.
Qed.

(** C6, as the code has it.  With an allowed port, a job that has its
    timeout and can have its token, and whose target has a port that is
    not the allowed one, is not scraped, and the one result pushed for
    it is the denial. *)
Theorem forbidden_port_denied (W : World) (F : Flags) (job : Http.Request)
        (client : Http.Client) (st : State) (base up : Url.URL) (timeout : Z) :
  allowPort F <> "*" ->
  Url.Port (Http.URL job) <> "" ->
  allowPort F <> Url.Port (Http.URL job) ->
  url_Parse W (proxyURL F) = inl base ->
  url_Parse W "push" = inl up ->
  GetHeaderTimeout W (Http.ReqHeader job) = inl timeout ->
  token_readable W F ->
  scrapes (calls (doScrape W F job client) st) = [] /\
  exists r,
    pushed (calls (doScrape W F job client) st) = [r] /\
    Http.StatusCode r = Http.StatusInternalServerError /\
    Http.RespBody r
    = "client does not have permissions to scrape port "
      ++ Url.Port (Http.URL job).
Proof.
  intros Hstar Hport Hne Hbase Hup Ht Htoken.
  split; [apply forbidden_port_never_scraped; assumption|].
  set (r := Http.WithContext job
              (Http.WithTimeout (Http.Ctx job) (now_scrape W) timeout)).
  destruct (attachToken_readable W F (schemeOverride r) Htoken) as [r1 E1].
  destruct (port_of_checked W F r r1 E1) as [Hp _].
  change (Http.URL r) with (Http.URL job) in Hp.
  assert (Hr : resolveTarget W F r
               = inr (r1, "client does not have permissions to scrape port "
                          ++ Url.Port (Http.URL job))).
  { unfold resolveTarget. rewrite E1. unfold checkPort.
    rewrite Hp, (port_present _ Hport).
    apply String.eqb_neq in Hstar, Hne. rewrite Hstar, Hne. reflexivity. }
  rewrite (doScrape_check_fails W F job client st base up Hbase Hup
                                timeout r1 _ Ht Hr).
  eexists. split; [reflexivity|]. split; reflexivity.
Qed.

Lemma forbidden_port_denied_witness :
  scrapes (calls (doScrape (Sample.world (Sample.job "host:9200" ""))
                           (Sample.flags false "9100")
                           (Sample.job "host:9200" "") Sample.client)
                 initial_state) = [] /\
  exists r,
    pushed (calls (doScrape (Sample.world (Sample.job "host:9200" ""))
                            (Sample.flags false "9100")
                            (Sample.job "host:9200" "") Sample.client)
                  initial_state) = [r] /\
    Http.StatusCode r = 500%Z /\
    Http.RespBody r = "client does not have permissions to scrape port 9200".
Proof.
  apply (forbidden_port_denied
           (Sample.world (Sample.job "host:9200" ""))
           (Sample.flags false "9100") (Sample.job "host:9200" "")
           Sample.client initial_state
           (Sample.plain_url "http" "relay.example:8080" "/" "")
           (Sample.plain_url "" "" "push" "")
           (10 * Backoff.Second)).
  - vm_compute. discriminate.
  - vm_compute. discriminate.
  - vm_compute. discriminate.
  - reflexivity.
  - reflexivity.
  - reflexivity.
  - left. reflexivity.
Defined.

(** C6, as stated, fails, with the allowed port 9100.  The job for
    [http://host/metrics], whose target is not the port 9100, is scraped
    and its result is the response of the scrape.  And the job for
    [http://host:9200/metrics], when the token cannot be read, gets the
    error of the token as its result, not the denial. *)
Lemma other_port_not_denied :
  allowPort (Sample.flags false "9100") <> "*" /\
  Url.Port (Http.URL (Sample.job "host" ""))
    <> allowPort (Sample.flags false "9100") /\
  (exists e r,
      scrapes (calls (doScrape (Sample.world (Sample.job "host" ""))
                               (Sample.flags false "9100")
                               (Sample.job "host" "") Sample.client)
                     initial_state) = [e] /\
      pushed (calls (doScrape (Sample.world (Sample.job "host" ""))
                              (Sample.flags false "9100")
                              (Sample.job "host" "") Sample.client)
                    initial_state) = [r] /\
      Http.StatusCode r = 200%Z /\ Http.RespBody r = "up 1") /\
  Url.Port (Http.URL (Sample.job "host:9200" "")) = "9200" /\
  (exists r,
      pushed (calls (doScrape (Sample.world (Sample.job "host:9200" ""))
                              (Sample.flags_with_token "9100")
                              (Sample.job "host:9200" "") Sample.client)
                    initial_state) = [r] /\
      Http.RespBody r = "cannot read token from token-path").
Proof.
  split; [vm_compute; discriminate|]. split; [vm_compute; discriminate|].
  split.
  - eexists. eexists. split; [reflexivity|]. split; [reflexivity|].
    split; reflexivity.
  - split; [reflexivity|]. eexists. split; reflexivity.
Qed.

(** ** The push *)

(** C9.  The one push of a job is a POST to the push endpoint of the
    relay, of a response that has the identifier of the job and, as its
    timeout header, the time left until the deadline of the job in
    seconds; the request runs under the context of the job, with the
    deadline that the timeout header of the job gave. *)
Theorem push_carries_id_and_deadline (W : World) (F : Flags)
        (job : Http.Request) (client : Http.Client) (st : State)
        (base up : Url.URL) :
  url_Parse W (proxyURL F) = inl base ->
  url_Parse W "push" = inl up ->
  exists r,
    filter is_push (calls (doScrape W F job client) st)
    = [mkEvent PushCall client
         (Http.mkRequest "POST" (url_ResolveReference W base up) []
                         (Http.Written r) "" (job_context W job))] /\
    Http.Get (Http.RespHeader r) "id" = Http.Get (Http.ReqHeader job) "id" /\
    Http.Get (Http.RespHeader r) "X-Prometheus-Scrape-Timeout"
    = format_seconds W
        (time_Until (now_push W) (Http.Deadline (job_context W job))).
Proof.
  intros Hbase Hup.
  destruct (doScrape_pushes_once W F job client st base up Hbase Hup)
    as (r0 & orig & Hpush & Hid & Hctx).
  exists (stamp W r0 orig).
  destruct (stamp_headers W r0 orig) as [H1 H2].
  rewrite Hpush, H1, H2, Hid. unfold push_call. rewrite Hctx.
  repeat split.
Qed.

Lemma push_carries_id_and_deadline_witness :
  exists r,
    filter is_push
      (calls (doScrape (Sample.world (Sample.job "host:9100" ""))
                       (Sample.flags false "9100")
                       (Sample.job "host:9100" "") Sample.client)
             initial_state)
    = [mkEvent PushCall Sample.client
         (Http.mkRequest "POST"
            (Sample.plain_url "http" "relay.example:8080" "/push" "") []
            (Http.Written r) ""
            (Http.mkContext (Some (1010 * Backoff.Second)%Z)))] /\
    Http.Get (Http.RespHeader r) "id" = "42" /\
    Http.Get (Http.RespHeader r) "X-Prometheus-Scrape-Timeout" = "9.000000".
Proof.
  apply (push_carries_id_and_deadline
           (Sample.world (Sample.job "host:9100" ""))
           (Sample.flags false "9100") (Sample.job "host:9100" "")
           Sample.client initial_state
           (Sample.plain_url "http" "relay.example:8080" "/" "")
           (Sample.plain_url "" "" "push" ""));
    reflexivity.
Defined.

(** ** The backoff *)

(** C4.  The waits between retries are not kept under the ceiling, and
    they do not only grow: [newBackOffFromFlags] leaves the
    randomization factor of the policy at 0.5, the default of
    [NewExponentialBackOff], so that each wait is the current interval
    of the policy randomized, between half of it and one and a half
    times it.  With the initial wait of one second and the ceiling of
    five seconds, five polls that fail, with the samples 0.75, 0, 0.5,
    0.75 and 0.75 of [rand.Float64()], are followed by the waits
    1.25 s, 0.75 s, 2.25 s, 4.21875 s and 6.25 s: the first is not the
    initial wait, the second is shorter than the first, and the last is
    longer than the ceiling. *)
Theorem waits_exceed_max_wait :
  exists st,
    main (Sample.flags false "9100") (inl Sample.tls) 0
         [Sample.offline (3 # 4); Sample.offline 0; Sample.offline (1 # 2);
          Sample.offline (3 # 4); Sample.offline (3 # 4)]
    = Running st /\
    retryInitialWait (Sample.flags false "9100") = 1000000000%Z /\
    retryMaxWait (Sample.flags false "9100") = 5000000000%Z /\
    waits st = [1250000000; 750000000; 2250000000; 4218750000; 6250000000]%Z /\
    ~ nondecreasing (waits st) /\
    Exists (fun d => (retryMaxWait (Sample.flags false "9100") < d)%Z)
           (waits st).
Proof.
  eexists. split; [vm_compute; reflexivity|].
  cbn [waits]. split; [reflexivity|]. split; [reflexivity|].
  split; [reflexivity|]. split.
  - cbn [nondecreasing]. intros [H _]. revert H. apply Z.lt_nge. reflexivity.
  - do 4 apply Exists_cons_tl. apply Exists_cons_hd. reflexivity.
Qed.

End Protocol.

(* ================================================================== *)
(** * More properties of the client *)

Module Extra.

Import Client Obs More ClientFacts.

(** ** The relay URL *)

Lemma trim_right_suffix (c : ascii) (s : string) :
  Strs.trim_right c (s ++ String c "") = Strs.trim_right c s.
Proof.
  induction s as [|d s IH]; cbn [append Strs.trim_right].
  - rewrite Ascii.eqb_refl. reflexivity.
  - rewrite IH. reflexivity.
Qed.

Lemma trim_right_trimmed (c : ascii) (s : string) :
  ends_with c (Strs.trim_right c s) = false.
Proof.
  induction s as [|d s IH]; cbn [Strs.trim_right]; [reflexivity|].
  destruct (Strs.trim_right c s) as [|e t] eqn:E.
  - destruct (Ascii.eqb d c) eqn:Ed; cbn [ends_with]; [reflexivity|exact Ed].
  - cbn [ends_with] in *. exact IH.
Qed.

Lemma append_not_empty (s : string) (c : ascii) :
  String.eqb (s ++ String c "") "" = false.
Proof. destruct s; reflexivity. Qed.

(** X1. A relay URL is taken with or without a slash at its end: [main]
    does the same with both. *)
Theorem main_ignores_trailing_slash (F : Flags)
        (tlsConfig : Http.tls_Config + error) (now : Z) (worlds : list World) :
  proxyURL F <> "" ->
  main (set_proxyURL F (proxyURL F ++ "/")) tlsConfig now worlds
  = main F tlsConfig now worlds.
Proof.
  intros Hne. unfold main.
  cbn [matchStrings proxyURL set_proxyURL useLocalhost allowPort].
  rewrite append_not_empty.
  apply String.eqb_neq in Hne. rewrite Hne.
  rewrite trim_right_suffix.
  destruct (length (matchStrings F) =? 0)%nat; reflexivity.
Qed.

(** X2. The relay URL that the loop of [main] works with ends in one
    slash, and one only. *)
Theorem main_single_slash (F : Flags) (tlsConfig : Http.tls_Config + error)
        (now : Z) (worlds : list World) (st : State) :
  main F tlsConfig now worlds = Running st ->
  exists q tls,
    ends_with "/" q = false /\
    tlsConfig = inl tls /\
    st = snd (loop (set_proxyURL F (q ++ "/")) (newBackOffFromFlags F now)
                   (main_client tls) worlds initial_state).
Proof.
  unfold main.
  destruct (length (matchStrings F) =? 0)%nat; [discriminate|].
  destruct (String.eqb (proxyURL F) ""); [discriminate|].
  destruct tlsConfig as [tls|e]; [|discriminate].
  destruct (useLocalhost _ && _); [discriminate|].
  intros H. injection H as <-.
  exists (Strs.trim_right "/" (proxyURL F)), tls.
  split; [apply trim_right_trimmed|]. split; reflexivity.
Qed.

Lemma main_single_slash_witness :
  exists q tls,
    ends_with "/" q = false /\
    @inl Http.tls_Config error Sample.tls = inl tls /\
    snd (loop (Sample.flags false "9100")
              (newBackOffFromFlags (Sample.flags false "9100") 0)
              Sample.client [Sample.offline 0] initial_state)
    = snd (loop (set_proxyURL
                   (set_proxyURL (Sample.flags false "9100")
                                 "http://relay.example:8080///")
                   (q ++ "/"))
                (newBackOffFromFlags
                   (set_proxyURL (Sample.flags false "9100")
                                 "http://relay.example:8080///") 0)
                (main_client tls) [Sample.offline 0] initial_state).
Proof.
  apply (main_single_slash
           (set_proxyURL (Sample.flags false "9100")
                         "http://relay.example:8080///")
           (inl Sample.tls) 0 [Sample.offline 0]).
  vm_compute. reflexivity.
Defined.

Lemma main_ignores_trailing_slash_witness :
  main (set_proxyURL (Sample.flags false "9100") "http://relay.example:8080//")
       (inl Sample.tls) 0 [Sample.world (Sample.job "host:9100" "")]
  = main (set_proxyURL (Sample.flags false "9100") "http://relay.example:8080/")
         (inl Sample.tls) 0 [Sample.world (Sample.job "host:9100" "")].
Proof.
  apply (main_ignores_trailing_slash
           (set_proxyURL (Sample.flags false "9100") "http://relay.example:8080/")
           (inl Sample.tls) 0 [Sample.world (Sample.job "host:9100" "")]).
  vm_compute. discriminate.
Defined.

(** ** The startup check of the loopback mode *)

(** X3. An agent that runs with [use-localhost] scrapes a target with a
    port at the allowed port of the loopback address, and nowhere else:
    [main] refuses to start with the allowed port [*], and the port
    check lets no other port through. *)
Theorem loopback_only_allowed_port (F : Flags)
        (tlsConfig : Http.tls_Config + error) (now : Z) (worlds : list World)
        (st : State) (W : World) (job target : Http.Request) :
  main F tlsConfig now worlds = Running st ->
  useLocalhost F = true ->
  Url.Port (Http.URL job) <> "" ->
  resolveTarget W F job = inl target ->
  Url.Host (Http.URL target) = "127.0.0.1:" ++ allowPort F /\
  Url.Port (Http.URL job) = allowPort F.
Proof.
  intros Hmain Hlocal Hport Hr.
  assert (Hstar : String.eqb (allowPort F) "*" = false).
  { unfold main in Hmain.
    destruct (length (matchStrings F) =? 0)%nat; [discriminate|].
    destruct (String.eqb (proxyURL F) ""); [discriminate|].
    destruct tlsConfig as [tls|e]; [|discriminate].
    cbn [useLocalhost allowPort set_proxyURL] in Hmain.
    rewrite Hlocal in Hmain.
    destruct (String.eqb (allowPort F) "*"); [discriminate|reflexivity]. }
  unfold resolveTarget in Hr.
  destruct (attachToken W F (schemeOverride job)) as [r1|e] eqn:E1;
    [|discriminate].
  destruct (Protocol.port_of_checked W F job r1 E1) as [Hp _].
  unfold checkPort in Hr.
  rewrite Hp, (Protocol.port_present _ Hport), Hstar, Hlocal in Hr.
  cbn [negb andb] in Hr.
  destruct (String.eqb (allowPort F) (Url.Port (Http.URL job))) eqn:Ea;
    [|discriminate].
  apply String.eqb_eq in Ea. cbn [negb] in Hr.
  injection Hr as <-. cbn [Http.URL Http.set_URL Url.Host Url.set_Host].
  rewrite Ea. split; reflexivity.
Qed.

Lemma loopback_only_allowed_port_witness :
  Url.Host (Http.URL
              (Http.set_URL (Sample.job "host:9100" "")
                 (Sample.plain_url "http" "127.0.0.1:9100" "/metrics" "")))
  = "127.0.0.1:" ++ "9100" /\
  Url.Port (Http.URL (Sample.job "host:9100" "")) = "9100".
Proof.
  apply (loopback_only_allowed_port
           (Sample.flags true "9100") (inl Sample.tls) 0 [Sample.offline 0]
           (snd (loop (Sample.flags true "9100")
                      (newBackOffFromFlags (Sample.flags true "9100") 0)
                      Sample.client [Sample.offline 0] initial_state))
           (Sample.world (Sample.job "host:9100" ""))
           (Sample.job "host:9100" "")).
  - vm_compute. reflexivity.
  - reflexivity.
  - vm_compute. discriminate.
  - reflexivity.
Defined.

(** ** The match flags *)

Lemma fold_Add_key (k : string) (l vs : list string) :
  fold_left (fun p s => Url.Add p k s) l [(k, vs)] = [(k, (vs ++ l)%list)].
Proof.
  revert vs. induction l as [|x l IH]; intros vs; cbn [fold_left].
  - rewrite app_nil_r. reflexivity.
  - cbn [Url.Add]. rewrite String.eqb_refl, IH, <- app_assoc. reflexivity.
Qed.

Lemma fold_add_pair_key (k : string) (l vs : list string) :
  fold_left Url.add_pair (map (fun x => (k, x)) l) [(k, vs)]
  = [(k, (vs ++ l)%list)].
Proof.
  revert vs. induction l as [|x l IH]; intros vs; cbn [fold_left map].
  - rewrite app_nil_r. reflexivity.
  - unfold Url.add_pair at 2. cbn [fst snd Url.Add].
    rewrite String.eqb_refl, IH, <- app_assoc. reflexivity.
Qed.

Lemma match_params_shape (F : Flags) :
  match_params F
  = match matchStrings F with
    | [] => []
    | x :: l => [("match[]", x :: l)]
    end.
Proof.
  unfold match_params. destruct (matchStrings F) as [|x l]; [reflexivity|].
  cbn [fold_left Url.Add]. apply (fold_Add_key "match[]" l [x]).
Qed.

(** X4. The query of the federate target, read back as the endpoint
    reads it, gives the [--match] flags as they were given, in their
    order and byte for byte, under the key [match[]], and no other
    key. *)
Theorem match_flags_round_trip (F : Flags) (k : string) :
  Url.lookup (Url.ParseQuery (Url.Encode (match_params F))) k
  = if String.eqb k "match[]" then matchStrings F else [].
Proof.
  rewrite UrlFacts.ParseQuery_Encode, match_params_shape.
  destruct (matchStrings F) as [|x l].
  - cbn. destruct (String.eqb k "match[]"); reflexivity.
  - unfold Url.pairs, Url.sort_keys.
    cbn [fold_right Url.insert_sorted flat_map fst snd].
    rewrite app_nil_r. cbn [map fold_left].
    unfold Url.add_pair at 2. cbn [fst snd Url.Add].
    rewrite (fold_add_pair_key "match[]" l [x]).
    cbn [Url.lookup app]. rewrite String.eqb_sym. reflexivity.
Qed.

(** ** The bearer token *)

(** X5. With a token path whose file can be read, a job that gets to
    the scrape has the scheme [https] and the header
    [Authorization: Bearer <token>]. *)
Theorem token_attached (W : World) (F : Flags) (request target : Http.Request)
        (token : string) :
  tokenPath F <> "" ->
  ioutil_ReadFile W (tokenPath F) = inl token ->
  resolveTarget W F request = inl target ->
  Url.Scheme (Http.URL target) = "https" /\
  Http.Get (Http.ReqHeader target) "Authorization" = "Bearer " ++ token.
Proof.
  intros Hpath Hread Hr. unfold resolveTarget in Hr.
  destruct (attachToken W F (schemeOverride request)) as [r1|e] eqn:E1;
    [|discriminate].
  destruct (checkPort F r1) as [r2|e] eqn:E2; [|discriminate].
  injection Hr as <-.
  destruct (checkPort_keeps F _ _ E2) as (_ & Hh & Hs & _).
  rewrite Hh, Hs. unfold attachToken in E1.
  apply String.eqb_neq in Hpath. rewrite Hpath, Hread in E1.
  cbn [negb] in E1. injection E1 as <-.
  cbn [Http.URL Http.set_URL Url.Scheme Url.set_Scheme Http.ReqHeader
       Http.set_Header].
  split; [reflexivity|]. apply HttpFacts.Get_Set_same.
Qed.

Lemma token_attached_witness :
  Url.Scheme (Http.URL
                (Http.mkRequest "GET"
                   (Sample.plain_url "https" "host:9100" "/metrics" "")
                   [("Id", ["42"]);
                    ("X-Prometheus-Scrape-Timeout-Seconds", ["10"]);
                    ("Authorization", ["Bearer s3cr3t"])]
                   Http.NoBody "" Http.Background)) = "https" /\
  Http.Get (Http.ReqHeader
              (Http.mkRequest "GET"
                 (Sample.plain_url "https" "host:9100" "/metrics" "")
                 [("Id", ["42"]);
                  ("X-Prometheus-Scrape-Timeout-Seconds", ["10"]);
                  ("Authorization", ["Bearer s3cr3t"])]
                 Http.NoBody "" Http.Background)) "Authorization"
  = "Bearer " ++ "s3cr3t".
Proof.
  apply (token_attached
           (world_with_token (Sample.job "host:9100" "") "s3cr3t")
           (Sample.flags_with_token "9100") (Sample.job "host:9100" "")).
  - vm_compute. discriminate.
  - reflexivity.
  - reflexivity.
Defined.

(** X6. With a token path whose file cannot be read, a job that has its
    timeout is not scraped, and the one result pushed for it is a 500
    that says so. *)
Theorem token_unreadable (W : World) (F : Flags) (job : Http.Request)
        (client : Http.Client) (st : State) (base up : Url.URL)
        (timeout : Z) (err : error) :
  url_Parse W (proxyURL F) = inl base ->
  url_Parse W "push" = inl up ->
  GetHeaderTimeout W (Http.ReqHeader job) = inl timeout ->
  tokenPath F <> "" ->
  ioutil_ReadFile W (tokenPath F) = inr err ->
  scrapes (calls (doScrape W F job client) st) = [] /\
  exists r,
    pushed (calls (doScrape W F job client) st) = [r] /\
    Http.StatusCode r = Http.StatusInternalServerError /\
    Http.RespBody r = "cannot read token from token-path".
Proof.
  intros Hbase Hup Ht Hpath Hread.
  set (r := Http.WithContext job
              (Http.WithTimeout (Http.Ctx job) (now_scrape W) timeout)).
  assert (Hr : resolveTarget W F r
               = inr (schemeOverride r, "cannot read token from token-path")).
  { unfold resolveTarget, attachToken.
    apply String.eqb_neq in Hpath. rewrite Hpath, Hread. reflexivity. }
  rewrite (doScrape_check_fails W F job client st base up Hbase Hup
                                timeout _ _ Ht Hr).
  split; [reflexivity|]. eexists. split; [reflexivity|]. split; reflexivity.
Qed.

Lemma token_unreadable_witness :
  scrapes (calls (doScrape (Sample.world (Sample.job "host:9100" ""))
                           (Sample.flags_with_token "9100")
                           (Sample.job "host:9100" "") Sample.client)
                 initial_state) = [] /\
  exists r,
    pushed (calls (doScrape (Sample.world (Sample.job "host:9100" ""))
                            (Sample.flags_with_token "9100")
                            (Sample.job "host:9100" "") Sample.client)
                  initial_state) = [r] /\
    Http.StatusCode r = 500%Z /\
    Http.RespBody r = "cannot read token from token-path".
Proof.
  apply (token_unreadable
           (Sample.world (Sample.job "host:9100" ""))
           (Sample.flags_with_token "9100") (Sample.job "host:9100" "")
           Sample.client initial_state
           (Sample.plain_url "http" "relay.example:8080" "/" "")
           (Sample.plain_url "" "" "push" "")
           (10 * Backoff.Second) "open: no such file or directory").
  - reflexivity.
  - reflexivity.
  - reflexivity.
  - vm_compute. discriminate.
  - reflexivity.
Defined.

(** ** The time left *)

Lemma pushed_once (W : World) (F : Flags) (job : Http.Request)
      (client : Http.Client) (st : State) (base up : Url.URL) :
  url_Parse W (proxyURL F) = inl base ->
  url_Parse W "push" = inl up ->
  exists r,
    pushed (calls (doScrape W F job client) st) = [r] /\
    Http.Get (Http.RespHeader r) "X-Prometheus-Scrape-Timeout"
    = format_seconds W
        (time_Until (now_push W) (Http.Deadline (job_context W job))).
Proof.
  intros Hbase Hup.
  destruct (doScrape_pushes_once W F job client st base up Hbase Hup)
    as (r0 & orig & Hpush & _ & Hctx).
  exists (stamp W r0 orig). split.
  - rewrite pushed_of_pushes, Hpush. reflexivity.
  - rewrite (proj2 (stamp_headers W r0 orig)), Hctx. reflexivity.
Qed.

(** X7. For a job that comes without deadline and with a timeout, the
    result tells the relay the time that is left of the timeout: the
    timeout less the time between the start of the work on the job and
    the push, also when that is negative. *)
Theorem remaining_time_pushed (W : World) (F : Flags) (job : Http.Request)
        (client : Http.Client) (st : State) (base up : Url.URL) (timeout : Z) :
  url_Parse W (proxyURL F) = inl base ->
  url_Parse W "push" = inl up ->
  Http.Deadline (Http.Ctx job) = None ->
  GetHeaderTimeout W (Http.ReqHeader job) = inl timeout ->
  (minDuration <= timeout - (now_push W - now_scrape W) <= maxDuration)%Z ->
  exists r,
    pushed (calls (doScrape W F job client) st) = [r] /\
    Http.Get (Http.RespHeader r) "X-Prometheus-Scrape-Timeout"
    = format_seconds W (timeout - (now_push W - now_scrape W))%Z.
Proof.
  intros Hbase Hup Hctx Ht Hrange.
  destruct (pushed_once W F job client st base up Hbase Hup) as (r & Hp & Hh).
  exists r. split; [exact Hp|]. rewrite Hh. f_equal.
  unfold job_context. rewrite Ht. unfold Http.WithTimeout. rewrite Hctx.
  cbn [Http.Deadline time_Until]. lia.
Qed.

Lemma remaining_time_pushed_witness :
  exists r,
    pushed (calls (doScrape (Sample.world (Sample.job "host:9100" ""))
                            (Sample.flags false "9100")
                            (Sample.job "host:9100" "") Sample.client)
                  initial_state) = [r] /\
    Http.Get (Http.RespHeader r) "X-Prometheus-Scrape-Timeout"
    = Sample.show_seconds (9 * Backoff.Second).
Proof.
  apply (remaining_time_pushed
           (Sample.world (Sample.job "host:9100" ""))
           (Sample.flags false "9100") (Sample.job "host:9100" "")
           Sample.client initial_state
           (Sample.plain_url "http" "relay.example:8080" "/" "")
           (Sample.plain_url "" "" "push" "")
           (10 * Backoff.Second)).
  - reflexivity.
  - reflexivity.
  - reflexivity.
  - reflexivity.
  - vm_compute. split; discriminate.
Defined.

(** X8. For a job without a timeout that parses, and without deadline,
    the result tells the relay that the least duration there is, -2^63
    nanoseconds, is left. *)
Theorem remaining_time_without_timeout (W : World) (F : Flags)
        (job : Http.Request) (client : Http.Client) (st : State)
        (base up : Url.URL) (err : error) :
  url_Parse W (proxyURL F) = inl base ->
  url_Parse W "push" = inl up ->
  Http.Deadline (Http.Ctx job) = None ->
  GetHeaderTimeout W (Http.ReqHeader job) = inr err ->
  exists r,
    pushed (calls (doScrape W F job client) st) = [r] /\
    Http.Get (Http.RespHeader r) "X-Prometheus-Scrape-Timeout"
    = format_seconds W (- 2 ^ 63)%Z.
Proof.
  intros Hbase Hup Hctx Ht.
  destruct (pushed_once W F job client st base up Hbase Hup) as (r & Hp & Hh).
  exists r. split; [exact Hp|]. rewrite Hh.
  unfold job_context. rewrite Ht, Hctx. reflexivity.
Qed.

Lemma remaining_time_without_timeout_witness :
  exists r,
    pushed (calls (doScrape
                     (Sample.world (Sample.job_without_timeout "host:9100"))
                     (Sample.flags false "9100")
                     (Sample.job_without_timeout "host:9100") Sample.client)
                  initial_state) = [r] /\
    Http.Get (Http.RespHeader r) "X-Prometheus-Scrape-Timeout"
    = Sample.show_seconds (- 2 ^ 63)%Z.
Proof.
  apply (remaining_time_without_timeout
           (Sample.world (Sample.job_without_timeout "host:9100"))
           (Sample.flags false "9100")
           (Sample.job_without_timeout "host:9100")
           Sample.client initial_state
           (Sample.plain_url "http" "relay.example:8080" "/" "")
           (Sample.plain_url "" "" "push" "")
           Client.missing_timeout_error);
    reflexivity.
Defined.

(** ** The headers of the result *)

(** X9. The result of a scrape that succeeds has the headers of the
    response of the endpoint, other than the identifier and the timeout
    that [doPush] sets over them. *)
Theorem result_keeps_headers (W : World) (F : Flags) (job : Http.Request)
        (client : Http.Client) (st : State) (timeout : Z)
        (target : Http.Request) (u base up : Url.URL)
        (scrapeResp : Http.Response) (key : string) :
  GetHeaderTimeout W (Http.ReqHeader job) = inl timeout ->
  resolveTarget W F
    (Http.WithContext job
       (Http.WithTimeout (Http.Ctx job) (now_scrape W) timeout))
  = inl target ->
  url_Parse W (federate_target F) = inl u ->
  url_Parse W (proxyURL F) = inl base ->
  url_Parse W "push" = inl up ->
  client_Do W (via (scrape_call u)) (sent (scrape_call u)) = inl scrapeResp ->
  Http.CanonicalMIMEHeaderKey key <> "Id" ->
  Http.CanonicalMIMEHeaderKey key <> "X-Prometheus-Scrape-Timeout" ->
  exists r,
    pushed (calls (doScrape W F job client) st) = [r] /\
    Http.Get (Http.RespHeader r) key = Http.Get (Http.RespHeader scrapeResp) key.
Proof.
  intros Ht Hr Hu Hbase Hup Hdo Hid Htime.
  rewrite (doScrape_scrapes W F job client st base up Hbase Hup
                            timeout target u Ht Hr Hu).
  eexists. split; [reflexivity|].
  unfold scrape_result. rewrite Hdo. unfold stamp. cbn [Http.RespHeader].
  rewrite !HttpFacts.Get_Set_other; [reflexivity| |].
  - intros E. apply Hid. rewrite <- E. reflexivity.
  - intros E. apply Htime. rewrite <- E. reflexivity.
Qed.

Lemma result_keeps_headers_witness :
  exists r,
    pushed (calls (doScrape (Sample.world (Sample.job "host:9100" ""))
                            (Sample.flags false "9100")
                            (Sample.job "host:9100" "") Sample.client)
                  initial_state) = [r] /\
    Http.Get (Http.RespHeader r) "content-type"
    = Http.Get (Http.RespHeader Sample.metrics) "content-type".
Proof.
  apply (result_keeps_headers
           (Sample.world (Sample.job "host:9100" ""))
           (Sample.flags false "9100") (Sample.job "host:9100" "")
           Sample.client initial_state (10 * Backoff.Second)
           (Http.WithContext (Sample.job "host:9100" "")
              (Http.mkContext (Some (1010 * Backoff.Second)%Z)))
           (Sample.plain_url "http" federate_host "/federate" "match%5B%5D=up")
           (Sample.plain_url "http" "relay.example:8080" "/" "")
           (Sample.plain_url "" "" "push" "")
           Sample.metrics "content-type");
    try reflexivity; vm_compute; discriminate.
Defined.

(** ** A poll that fails *)

Lemma calls_none {A : Type} (a : A) (st : State) :
  calls (fun s => (a, s)) st = [].
Proof. unfold calls. cbn [snd]. apply skipn_all. Qed.

(** X10. A poll that returns an error brought no job: no scrape is made
    and nothing is pushed, the poll is the only call there can have
    been, and no counter moves ([doPoll] leaves the counting of a poll
    error to the loop). *)
Theorem failed_poll_is_quiet (W : World) (F : Flags) (client : Http.Client)
        (st : State) (err : error) :
  fst (doPoll W F client st) = Some err ->
  scrapes (calls (doPoll W F client) st) = [] /\
  pushed (calls (doPoll W F client) st) = [] /\
  (length (calls (doPoll W F client) st) <= 1)%nat /\
  scrapeErrorCounter (snd (doPoll W F client st)) = scrapeErrorCounter st /\
  pushErrorCounter (snd (doPoll W F client st)) = pushErrorCounter st /\
  pollErrorCounter (snd (doPoll W F client st)) = pollErrorCounter st.
Proof.
  unfold doPoll, calls.
  destruct (url_Parse W (proxyURL F)) as [base|e].
  2:{ intros _. unfold ret. cbn [snd]. rewrite skipn_all. repeat split.
      apply Nat.le_0_l. }
  destruct (url_Parse W "poll") as [u|e].
  2:{ intros _. unfold ret. cbn [snd]. rewrite skipn_all. repeat split.
      apply Nat.le_0_l. }
  unfold bind, client_Post.
  destruct (http_NewRequest W "POST" _ _) as [req|e].
  2:{ intros _. unfold ret. cbn [snd]. rewrite skipn_all. repeat split.
      apply Nat.le_0_l. }
  rewrite call_run.
  destruct (client_Do W client _) as [resp|e].
  - destruct (http_ReadRequest W (Http.RespBody resp)) as [request|e].
    + destruct (doScrape W F _ client _) as [[] st1]. discriminate.
    + intros _. unfold ret. cbn [snd]. rewrite trace_record.
      rewrite skipn_app, skipn_all, Nat.sub_diag. repeat split.
      apply Nat.le_refl.
  - intros _. unfold ret. cbn [snd]. rewrite trace_record.
    rewrite skipn_app, skipn_all, Nat.sub_diag. repeat split.
    apply Nat.le_refl.
Qed.

Lemma failed_poll_is_quiet_witness :
  scrapes (calls (doPoll (Sample.offline 0) (Sample.flags false "9100")
                         Sample.client) initial_state) = [] /\
  pushed (calls (doPoll (Sample.offline 0) (Sample.flags false "9100")
                        Sample.client) initial_state) = [] /\
  (length (calls (doPoll (Sample.offline 0) (Sample.flags false "9100")
                         Sample.client) initial_state) <= 1)%nat /\
  scrapeErrorCounter (snd (doPoll (Sample.offline 0) (Sample.flags false "9100")
                                  Sample.client initial_state)) = 0%nat /\
  pushErrorCounter (snd (doPoll (Sample.offline 0) (Sample.flags false "9100")
                                Sample.client initial_state)) = 0%nat /\
  pollErrorCounter (snd (doPoll (Sample.offline 0) (Sample.flags false "9100")
                                Sample.client initial_state)) = 0%nat.
Proof.
  apply (failed_poll_is_quiet (Sample.offline 0) (Sample.flags false "9100")
           Sample.client initial_state
           "error polling: dial tcp: connection refused").
  reflexivity.
Defined.

(** ** The error counters of a job *)

Section Counters.

Variables (W : World) (F : Flags) (client : Http.Client).
Variables (base up : Url.URL).
Hypothesis Hbase : url_Parse W (proxyURL F) = inl base.
Hypothesis Hup : url_Parse W "push" = inl up.

Lemma doPush_exact (resp : Http.Response) (orig : Http.Request) (st : State) :
  doPush W F resp orig client st
  = (match client_Do W client (sent (push_call W base up client resp orig)) with
     | inl _ => None
     | inr e => Some e
     end,
     record st (push_call W base up client resp orig)).
Proof.
  unfold doPush. rewrite Hbase, Hup. unfold bind. rewrite call_run.
  unfold push_call, stamp. cbn [sent].
  destruct (client_Do W client _); reflexivity.
Qed.

(** The state that [doPush] and the count of its error leave. *)
Lemma push_counted (resp : Http.Response) (orig : Http.Request) (st : State) :
  let m := r <- doPush W F resp orig client ;;
           match r with
           | Some _ => pushErrorCounter_Inc
           | None => ret tt
           end in
  let pc := push_call W base up client resp orig in
  trace (snd (m st)) = (trace st ++ [pc])%list /\
  scrapeErrorCounter (snd (m st)) = scrapeErrorCounter st /\
  pushErrorCounter (snd (m st))
  = (pushErrorCounter st + if answered W pc then 0 else 1)%nat /\
  pollErrorCounter (snd (m st)) = pollErrorCounter st.
Proof.
  cbv zeta. unfold bind. rewrite doPush_exact. unfold answered.
  cbn [via sent push_call].
  destruct (client_Do W client _); cbn; repeat split; lia.
Qed.

Lemma handleErr_counted (request : Http.Request) (err : error) (st : State) :
  let pc := push_call W base up client (error_response err) request in
  trace (snd (handleErr W F request client err st)) = (trace st ++ [pc])%list /\
  scrapeErrorCounter (snd (handleErr W F request client err st))
  = S (scrapeErrorCounter st) /\
  pushErrorCounter (snd (handleErr W F request client err st))
  = (pushErrorCounter st + if answered W pc then 0 else 1)%nat /\
  pollErrorCounter (snd (handleErr W F request client err st))
  = pollErrorCounter st.
Proof.
  cbv zeta.
  pose proof (push_counted (error_response err) request
                           (snd (scrapeErrorCounter_Inc st))) as H.
  cbv zeta in H. exact H.
Qed.

(** X11. The counters after a job.  The scrape error counter goes up by
    one unless a scrape was made and answered; the push error counter
    goes up by one when the push was not answered; the poll error
    counter stays. *)
Theorem job_counters (job : Http.Request) (st : State) :
  let cs := calls (doScrape W F job client) st in
  let st' := snd (doScrape W F job client st) in
  scrapeErrorCounter st'
  = (scrapeErrorCounter st
     + if existsb (answered W) (scrapes cs) then 0 else 1)%nat /\
  pushErrorCounter st'
  = (pushErrorCounter st
     + if forallb (answered W) (filter is_push cs) then 0 else 1)%nat /\
  pollErrorCounter st' = pollErrorCounter st.
Proof.
  cbv zeta.
  destruct (GetHeaderTimeout W (Http.ReqHeader job)) as [timeout|err] eqn:Ht.
  2:{ rewrite (doScrape_without_timeout W F job client st base up Hbase Hup
                                         err Ht).
      unfold doScrape. rewrite Ht.
      destruct (handleErr_counted job err st) as (_ & H2 & H3 & H4).
      rewrite H2, H3, H4. cbn [scrapes filter is_scrape is_push push_call site
                               existsb forallb].
      rewrite andb_true_r. repeat split. lia. }
  set (r := Http.WithContext job
              (Http.WithTimeout (Http.Ctx job) (now_scrape W) timeout)).
  destruct (resolveTarget W F r) as [target|[request e]] eqn:Hr.
  2:{ rewrite (doScrape_check_fails W F job client st base up Hbase Hup
                                     timeout request e Ht Hr).
      unfold doScrape. rewrite Ht. fold r. rewrite Hr.
      destruct (handleErr_counted request e st) as (_ & H2 & H3 & H4).
      rewrite H2, H3, H4. cbn [scrapes filter is_scrape is_push push_call site
                               existsb forallb].
      rewrite andb_true_r. repeat split. lia. }
  destruct (url_Parse W (federate_target F)) as [u|e] eqn:Hu.
  2:{ rewrite (doScrape_without_request W F job client st base up Hbase Hup
                                         timeout target e Ht Hr Hu).
      assert (E : doScrape W F job client st
                  = handleErr W F target client
                      (errors_Wrap e ("failed to scrape "
                                      ++ Url.String_ (Http.URL target))) st).
      { unfold doScrape. rewrite Ht. fold r. rewrite Hr. unfold bind.
        rewrite (scrape_without_request W F st e Hu). reflexivity. }
      rewrite E.
      match goal with
      | |- context [handleErr W F target client ?x st] =>
          destruct (handleErr_counted target x st) as (_ & H2 & H3 & H4)
      end.
      rewrite H2, H3, H4. cbn [scrapes filter is_scrape is_push push_call site
                               existsb forallb].
      rewrite andb_true_r. repeat split. lia. }
  rewrite (doScrape_scrapes W F job client st base up Hbase Hup
                            timeout target u Ht Hr Hu).
  cbn [scrapes filter is_scrape is_push push_call scrape_call site
       existsb forallb].
  rewrite andb_true_r, orb_false_r. unfold scrape_result.
  unfold answered at 1. cbn [via sent scrape_call].
  destruct (client_Do W (Http.mkClient None)
              (Http.mkRequest "GET"
                 (Url.set_Host u (Http.removeEmptyPort (Url.Host u)))
                 [] Http.NoBody "" Http.Background))
    as [scrapeResp|e] eqn:Hdo.
  - assert (E : doScrape W F job client st
                = (r <- doPush W F scrapeResp target client ;;
                   match r with
                   | Some _ => pushErrorCounter_Inc
                   | None => ret tt
                   end) (record st (scrape_call u))).
    { unfold doScrape. rewrite Ht. fold r. rewrite Hr. unfold bind at 1.
      rewrite (scrape_run W F st u Hu). cbn [via sent scrape_call].
      rewrite Hdo. reflexivity. }
    rewrite E.
    destruct (push_counted scrapeResp target (record st (scrape_call u)))
      as (_ & H2 & H3 & H4).
    cbv zeta in H2, H3, H4. rewrite H2, H3, H4. cbn. repeat split. lia.
  - assert (E : doScrape W F job client st
                = handleErr W F target client
                    (errors_Wrap e ("failed to scrape "
                                    ++ Url.String_ (Http.URL target)))
                    (record st (scrape_call u))).
    { unfold doScrape. rewrite Ht. fold r. rewrite Hr. unfold bind at 1.
      rewrite (scrape_run W F st u Hu). cbn [via sent scrape_call].
      rewrite Hdo. reflexivity. }
    rewrite E.
    match goal with
    | |- context [handleErr W F target client ?x ?s] =>
        destruct (handleErr_counted target x s) as (_ & H2 & H3 & H4)
    end.
    rewrite H2, H3, H4. cbn. repeat split. lia.
Qed.

End Counters.

Lemma job_counters_witness :
  scrapeErrorCounter
    (snd (doScrape (Sample.world (Sample.job "host:9200" ""))
                   (Sample.flags false "9100") (Sample.job "host:9200" "")
                   Sample.client initial_state))
  = (0 + 1)%nat /\
  pushErrorCounter
    (snd (doScrape (Sample.world (Sample.job "host:9200" ""))
                   (Sample.flags false "9100") (Sample.job "host:9200" "")
                   Sample.client initial_state))
  = (0 + 0)%nat /\
  pollErrorCounter
    (snd (doScrape (Sample.world (Sample.job "host:9200" ""))
                   (Sample.flags false "9100") (Sample.job "host:9200" "")
                   Sample.client initial_state))
  = 0%nat.
Proof.
  apply (job_counters (Sample.world (Sample.job "host:9200" ""))
                      (Sample.flags false "9100") Sample.client
                      (Sample.plain_url "http" "relay.example:8080" "/" "")
                      (Sample.plain_url "" "" "push" "")
                      eq_refl eq_refl
                      (Sample.job "host:9200" "") initial_state).
Defined.

(** ** Poll errors and waits *)

Lemma keeps_polls_ret {A : Type} (a : A) : keeps_polls (ret a).
Proof. intros st. reflexivity. Qed.

Lemma keeps_polls_bind {A B : Type} (m : M A) (k : A -> M B) :
  keeps_polls m -> (forall a, keeps_polls (k a)) -> keeps_polls (bind m k).
Proof.
  intros Hm Hk st. unfold bind. pose proof (Hm st) as H1.
  destruct (m st) as [a st1]. cbn [snd] in H1. rewrite (Hk a st1). exact H1.
Qed.

Lemma doPush_keeps_polls (W : World) (F : Flags) (resp : Http.Response)
      (orig : Http.Request) (client : Http.Client) :
  keeps_polls (doPush W F resp orig client).
Proof.
  unfold doPush.
  destruct (url_Parse W (proxyURL F)); [|apply keeps_polls_ret].
  destruct (url_Parse W "push"); [|apply keeps_polls_ret].
  apply keeps_polls_bind; [intros st; reflexivity|].
  intros [r|e]; apply keeps_polls_ret.
Qed.

Lemma handleErr_keeps_polls (W : World) (F : Flags) (request : Http.Request)
      (client : Http.Client) (err : error) :
  keeps_polls (handleErr W F request client err).
Proof.
  unfold handleErr.
  apply keeps_polls_bind; [intros st; reflexivity|]. intros _.
  apply keeps_polls_bind; [apply doPush_keeps_polls|].
  intros [e|]; [intros st; reflexivity|apply keeps_polls_ret].
Qed.

Lemma doScrape_keeps_polls (W : World) (F : Flags) (request : Http.Request)
      (client : Http.Client) :
  keeps_polls (doScrape W F request client).
Proof.
  unfold doScrape.
  destruct (GetHeaderTimeout W (Http.ReqHeader request));
    [|apply handleErr_keeps_polls].
  destruct (resolveTarget W F _) as [target|[r e]];
    [|apply handleErr_keeps_polls].
  apply keeps_polls_bind.
  - unfold scrapeFederatedPrometheusEndpoint.
    destruct (http_NewRequest W "GET" _ Http.NoBody);
      [intros st; reflexivity|apply keeps_polls_ret].
  - intros [scrapeResp|e]; [|apply handleErr_keeps_polls].
    apply keeps_polls_bind; [apply doPush_keeps_polls|].
    intros [e|]; [intros st; reflexivity|apply keeps_polls_ret].
Qed.

Lemma doPoll_keeps_polls (W : World) (F : Flags) (client : Http.Client) :
  keeps_polls (doPoll W F client).
Proof.
  unfold doPoll.
  destruct (url_Parse W (proxyURL F)); [|apply keeps_polls_ret].
  destruct (url_Parse W "poll"); [|apply keeps_polls_ret].
  apply keeps_polls_bind.
  - unfold client_Post.
    destruct (http_NewRequest W "POST" _ _);
      [intros st; reflexivity|apply keeps_polls_ret].
  - intros [resp|e]; [|apply keeps_polls_ret].
    destruct (http_ReadRequest W (Http.RespBody resp)); [|apply keeps_polls_ret].
    apply keeps_polls_bind; [apply doScrape_keeps_polls|].
    intros _. apply keeps_polls_ret.
Qed.

Lemma retry_loop_balance (F : Flags) (client : Http.Client)
      (worlds : list World) :
  forall b st,
    (pollErrorCounter (snd (retry_loop F client b worlds st))
     + length (waits st)
     = pollErrorCounter st
       + length (waits (snd (retry_loop F client b worlds st))))%nat.
Proof.
  induction worlds as [|w worlds IH]; intros b st.
  - cbn. lia.
  - pose proof (doPoll_keeps_polls w F client st) as Hp.
    pose proof (doPoll_keeps_waits w F client st) as Hw.
    destruct (doPoll w F client st) as [[e|] st1] eqn:Hpoll;
      cbn [snd] in Hp, Hw.
    + destruct (Backoff.NextBackOff b (now_backoff w) (rand_Float64 w))
        as [next b'] eqn:Hn.
      destruct (next =? Backoff.Stop_)%Z eqn:Hs.
      * assert (E : retry_loop F client b (w :: worlds) st
                    = (Returned (Some e), b', worlds, st1)).
        { cbn [retry_loop]. unfold bind. rewrite Hpoll, Hn, Hs. reflexivity. }
        rewrite E. cbn [snd]. rewrite Hp, Hw. lia.
      * rewrite (retry_loop_turn F client w worlds b b' st st1 e next
                                 Hpoll Hn Hs).
        match goal with
        | |- context [retry_loop F client b' worlds ?s2] =>
            pose proof (IH b' s2) as H; cbn [pollErrorCounter waits] in H
        end.
        rewrite length_app, Hp, Hw in H. cbn [length] in H.
        rewrite Hp, Hw. lia.
    + assert (E : retry_loop F client b (w :: worlds) st
                  = (Returned None, b, worlds, st1)).
      { cbn [retry_loop]. unfold bind. rewrite Hpoll. reflexivity. }
      rewrite E. cbn [snd]. rewrite Hp, Hw. lia.
Qed.

Lemma loop_turns_balance (F : Flags) (client : Http.Client) (fuel : nat) :
  forall bo worlds st,
    (pollErrorCounter (snd (loop_turns fuel F client bo worlds st))
     + length (waits st)
     = pollErrorCounter st
       + length (waits (snd (loop_turns fuel F client bo worlds st))))%nat.
Proof.
  induction fuel as [|fuel IH]; intros bo worlds st; cbn [loop_turns].
  - cbn. lia.
  - destruct worlds as [|w worlds]; [cbn; lia|].
    unfold bind, RetryNotify.
    pose proof (retry_loop_balance F client (w :: worlds)
                  (Backoff.Reset bo (now_backoff w)) st) as H1.
    destruct (retry_loop F client (Backoff.Reset bo (now_backoff w))
                         (w :: worlds) st) as [[[status bo'] worlds'] st1].
    cbn [snd] in H1.
    pose proof (IH bo' worlds' st1) as H2. lia.
Qed.

(** X12. In a run of [main], the poll error counter counts the waits of
    the retry timer: each poll error that is counted is followed by one
    wait, and there is no other wait. *)
Theorem poll_errors_are_waits (F : Flags) (tlsConfig : Http.tls_Config + error)
        (now : Z) (worlds : list World) (st : State) :
  main F tlsConfig now worlds = Running st ->
  pollErrorCounter st = length (waits st).
Proof.
  unfold main.
  destruct (length (matchStrings F) =? 0)%nat; [discriminate|].
  destruct (String.eqb (proxyURL F) ""); [discriminate|].
  destruct tlsConfig as [tls|e]; [|discriminate].
  destruct (useLocalhost _ && _); [discriminate|].
  intros H. injection H as <-. unfold loop.
  match goal with
  | |- context [loop_turns ?n ?F' ?c ?bo ?ws initial_state] =>
      pose proof (loop_turns_balance F' c n bo ws initial_state) as Hb
  end.
  cbn [pollErrorCounter waits initial_state length] in Hb. lia.
Qed.

Lemma poll_errors_are_waits_witness :
  pollErrorCounter
    (snd (loop (Sample.flags false "9100")
               (newBackOffFromFlags (Sample.flags false "9100") 0)
               Sample.client
               [Sample.offline 0; Sample.world (Sample.job "host:9100" "");
                Sample.offline (1 # 2)]
               initial_state))
  = length
      (waits
         (snd (loop (Sample.flags false "9100")
                    (newBackOffFromFlags (Sample.flags false "9100") 0)
                    Sample.client
                    [Sample.offline 0; Sample.world (Sample.job "host:9100" "");
                     Sample.offline (1 # 2)]
                    initial_state))).
Proof.
  apply (poll_errors_are_waits (Sample.flags false "9100") (inl Sample.tls) 0
           [Sample.offline 0; Sample.world (Sample.job "host:9100" "");
            Sample.offline (1 # 2)]).
  vm_compute. reflexivity.
Defined.

(** ** The requests of a run *)

Section Shapes.

Variable Q : Event -> Prop.
Variable F : Flags.
Variable client : Http.Client.
Hypothesis Hpoll : forall u, Q (poll_call F client u).
Hypothesis Hpush : forall r, Q (mkEvent PushCall client r).
Hypothesis Hscrape : forall u, Q (scrape_call u).

Lemma scrape_shapes (W : World) :
  appends Q (scrapeFederatedPrometheusEndpoint W F).
Proof.
  unfold scrapeFederatedPrometheusEndpoint, http_NewRequest.
  destruct (url_Parse W _) as [u|e]; [|apply appends_ret].
  apply appends_call. exact (Hscrape u).
Qed.

Lemma doScrape_shapes (W : World) (request : Http.Request) :
  appends Q (doScrape W F request client).
Proof.
  unfold doScrape.
  destruct (GetHeaderTimeout W (Http.ReqHeader request));
    [|apply handleErr_appends; exact Hpush].
  destruct (resolveTarget W F _) as [target|[r e]];
    [|apply handleErr_appends; exact Hpush].
  apply appends_bind; [apply scrape_shapes|].
  intros [scrapeResp|e]; [|apply handleErr_appends; exact Hpush].
  apply appends_bind; [apply doPush_appends; exact Hpush|].
  intros [e|]; [apply appends_pushErrorCounter_Inc|apply appends_ret].
Qed.

Lemma doPoll_shapes (W : World) : appends Q (doPoll W F client).
Proof.
  unfold doPoll.
  destruct (url_Parse W (proxyURL F)); [|apply appends_ret].
  destruct (url_Parse W "poll"); [|apply appends_ret].
  apply appends_bind.
  - unfold client_Post, http_NewRequest.
    destruct (url_Parse W _) as [u'|e]; [|apply appends_ret].
    apply appends_call. exact (Hpoll u').
  - intros [resp|e]; [|apply appends_ret].
    destruct (http_ReadRequest W (Http.RespBody resp)); [|apply appends_ret].
    apply appends_bind; [apply doScrape_shapes|].
    intros _. apply appends_ret.
Qed.

Lemma retry_loop_shapes (worlds : list World) :
  forall b, appends Q (retry_loop F client b worlds).
Proof.
  induction worlds as [|w worlds IH]; intros b; cbn [retry_loop].
  - apply appends_ret.
  - apply appends_bind; [apply doPoll_shapes|].
    intros [e|]; [|apply appends_ret].
    destruct (Backoff.NextBackOff b (now_backoff w) (rand_Float64 w)) as [next b'].
    destruct (next =? Backoff.Stop_)%Z; [apply appends_ret|].
    apply appends_bind; [apply appends_pollErrorCounter_Inc|]. intros _.
    apply appends_bind; [apply appends_wait|]. intros _.
    apply IH.
Qed.

Lemma loop_turns_shapes (fuel : nat) :
  forall bo worlds, appends Q (loop_turns fuel F client bo worlds).
Proof.
  induction fuel as [|fuel IH]; intros bo worlds; cbn [loop_turns].
  - apply appends_ret.
  - destruct worlds as [|w worlds]; [apply appends_ret|].
    apply appends_bind.
    + unfold RetryNotify. apply retry_loop_shapes.
    + intros [[status bo'] worlds']. apply IH.
Qed.

End Shapes.

Lemma main_shapes (Q : Flags -> Http.Client -> Event -> Prop)
      (F : Flags) (tlsConfig : Http.tls_Config + error) (now : Z)
      (worlds : list World) (st : State) :
  (forall p tls u, Q F (main_client tls) (poll_call (set_proxyURL F p)
                                                    (main_client tls) u)) ->
  (forall tls r, Q F (main_client tls) (mkEvent PushCall (main_client tls) r)) ->
  (forall tls u, Q F (main_client tls) (scrape_call u)) ->
  main F tlsConfig now worlds = Running st ->
  exists tls, tlsConfig = inl tls /\ Forall (Q F (main_client tls)) (trace st).
Proof.
  intros Hpoll Hpush Hscrape. unfold main.
  destruct (length (matchStrings F) =? 0)%nat; [discriminate|].
  destruct (String.eqb (proxyURL F) ""); [discriminate|].
  destruct tlsConfig as [tls|e]; [|discriminate].
  destruct (useLocalhost _ && _); [discriminate|].
  intros H. injection H as <-. exists tls. split; [reflexivity|].
  unfold loop.
  match goal with
  | |- context [loop_turns ?n ?F' ?c ?bo ?ws initial_state] =>
      destruct (loop_turns_shapes (Q F c) F' c
                  (Hpoll _ tls) (Hpush tls) (Hscrape tls)
                  n bo ws initial_state) as (new & E & Hnew)
  end.
  rewrite E. exact Hnew.
Qed.

(** X13. Every poll of a run of [main] is a POST whose body is the name
    of the agent, the [--fqdn] flag, with an empty content type, and it
    has no deadline. *)
Theorem polls_name_the_agent (F : Flags) (tlsConfig : Http.tls_Config + error)
        (now : Z) (worlds : list World) (st : State) :
  main F tlsConfig now worlds = Running st ->
  Forall (poll_shaped F) (trace st).
Proof.
  intros Hmain.
  destruct (main_shapes (fun F _ => poll_shaped F) F tlsConfig now worlds st)
    as (tls & _ & H); try assumption.
  - intros p tls u _. repeat split.
  - intros tls r Hs. discriminate Hs.
  - intros tls u Hs. discriminate Hs.
Qed.

Lemma polls_name_the_agent_witness :
  Forall (poll_shaped (Sample.flags false "9100"))
         (trace (snd (loop (Sample.flags false "9100")
                           (newBackOffFromFlags (Sample.flags false "9100") 0)
                           Sample.client
                           [Sample.world (Sample.job "host:9100" "")]
                           initial_state))).
Proof.
  apply (polls_name_the_agent (Sample.flags false "9100") (inl Sample.tls) 0
           [Sample.world (Sample.job "host:9100" "")]).
  vm_compute. reflexivity.
Defined.

(** X14. Every scrape of a run of [main] is a GET without any header,
    body or deadline: neither the bearer token, nor a header of the job,
    nor the deadline of the job goes with it. *)
Theorem scrapes_carry_nothing (F : Flags) (tlsConfig : Http.tls_Config + error)
        (now : Z) (worlds : list World) (st : State) :
  main F tlsConfig now worlds = Running st ->
  Forall scrape_shaped (trace st).
Proof.
  intros Hmain.
  destruct (main_shapes (fun _ _ => scrape_shaped) F tlsConfig now worlds st)
    as (tls & _ & H); try assumption.
  - intros p tls u Hs. discriminate Hs.
  - intros tls r Hs. discriminate Hs.
  - intros tls u _. repeat split.
Qed.

Lemma scrapes_carry_nothing_witness :
  Forall scrape_shaped
         (trace (snd (loop (Sample.flags_with_token "9100")
                           (newBackOffFromFlags (Sample.flags_with_token "9100") 0)
                           Sample.client
                           [world_with_token (Sample.job "host:9100" "") "s3cr3t"]
                           initial_state))).
Proof.
  apply (scrapes_carry_nothing (Sample.flags_with_token "9100")
           (inl Sample.tls) 0
           [world_with_token (Sample.job "host:9100" "") "s3cr3t"]).
  vm_compute. reflexivity.
Defined.

(** ** The backoff after a poll that succeeds *)

Lemma same_settings_refl (b : Backoff.ExponentialBackOff) : same_settings b b.
Proof. repeat split. Qed.

Lemma same_settings_increment (b : Backoff.ExponentialBackOff) :
  same_settings b (Backoff.incrementCurrentInterval b).
Proof.
  destruct (BackoffFacts.increment_keeps b) as (H1 & H2 & H3 & H4 & H5).
  repeat split; assumption.
Qed.

Lemma same_settings_trans (b1 b2 b3 : Backoff.ExponentialBackOff) :
  same_settings b1 b2 -> same_settings b2 b3 -> same_settings b1 b3.
Proof.
  intros (A1 & A2 & A3 & A4 & A5) (B1 & B2 & B3 & B4 & B5).
  repeat split; congruence.
Qed.

Lemma same_settings_Reset (b : Backoff.ExponentialBackOff) (now : Z) :
  same_settings b (Backoff.Reset b now).
Proof. repeat split. Qed.

(** A call of the loop of [RetryNotify] on worlds that hold one in
    which the poll succeeds: it returns at that world or before it, has
    only added waits, and leaves the settings of the policy as they
    were. *)
Lemma retry_loop_reaches (F : Flags) (client : Http.Client)
      (w_ok : World) (rest : list World) (history : list World) :
  (forall st', fst (doPoll w_ok F client st') = None) ->
  forall b st,
    exists status b' worlds' st' ws,
      retry_loop F client b (history ++ w_ok :: rest) st
      = (status, b', worlds', st') /\
      same_settings b b' /\
      waits st' = (waits st ++ ws)%list /\
      (worlds' = rest \/
       exists shorter,
         worlds' = (shorter ++ w_ok :: rest)%list /\
         (length shorter < length history)%nat).
Proof.
  intros Hok. induction history as [|w history IH]; intros b st.
  - cbn [app].
    pose proof (doPoll_keeps_waits w_ok F client st) as Hw.
    pose proof (Hok st) as Hnone.
    destruct (doPoll w_ok F client st) as [[e|] st1] eqn:Hpoll;
      cbn [fst snd] in *; [discriminate|].
    exists (Returned None), b, rest, st1, [].
    split; [cbn [retry_loop]; unfold bind; rewrite Hpoll; reflexivity|].
    split; [apply same_settings_refl|].
    split; [rewrite app_nil_r; exact Hw|]. left. reflexivity.
  - cbn [app].
    pose proof (doPoll_keeps_waits w F client st) as Hkeep.
    destruct (doPoll w F client st) as [[e|] st1] eqn:Hpoll; cbn [snd] in Hkeep.
    + pose proof (BackoffFacts.NextBackOff_policy b (now_backoff w)
                    (rand_Float64 w)) as Hpol.
      destruct (Backoff.NextBackOff b (now_backoff w) (rand_Float64 w))
        as [next b1] eqn:Hnext.
      cbn [snd] in Hpol. subst b1.
      destruct (next =? Backoff.Stop_)%Z eqn:Hstop.
      * exists (Returned (Some e)), (Backoff.incrementCurrentInterval b),
          (history ++ w_ok :: rest)%list, st1, [].
        split; [cbn [retry_loop]; unfold bind;
                rewrite Hpoll, Hnext, Hstop; reflexivity|].
        split; [apply same_settings_increment|].
        split; [rewrite app_nil_r; exact Hkeep|].
        right. exists history. split; [reflexivity|]. cbn [length]. lia.
      * rewrite (retry_loop_turn F client w _ b _ st st1 e next
                                 Hpoll Hnext Hstop).
        match goal with
        | |- context [retry_loop F client ?b2 _ ?s2] =>
            destruct (IH b2 s2)
              as (status & b' & worlds' & st' & ws & E1 & E2 & E3 & E4)
        end.
        exists status, b', worlds', st', (next :: ws).
        split; [exact E1|].
        split; [exact (same_settings_trans _ _ _
                         (same_settings_increment b) E2)|].
        split.
        { rewrite E3. cbn [waits]. rewrite Hkeep, <- app_assoc. reflexivity. }
        destruct E4 as [E4|(shorter & E4 & Hlen)]; [left; exact E4|].
        right. exists shorter. split; [exact E4|]. cbn [length]. lia.
    + exists (Returned None), b, (history ++ w_ok :: rest)%list, st1, [].
      split; [cbn [retry_loop]; unfold bind; rewrite Hpoll; reflexivity|].
      split; [apply same_settings_refl|].
      split; [rewrite app_nil_r; exact Hkeep|].
      right. exists history. split; [reflexivity|]. cbn [length]. lia.
Qed.

(** The driver loop on worlds that hold one in which the poll
    succeeds: it gets past that world, whatever the polls before it
    did, with the settings of the policy as they were. *)
Lemma loop_turns_reaches (F : Flags) (client : Http.Client)
      (w_ok : World) (rest : list World) :
  (forall st', fst (doPoll w_ok F client st') = None) ->
  forall n history,
    (length history <= n)%nat ->
    forall fuel bo st,
      (length (history ++ w_ok :: rest) <= fuel)%nat ->
      exists bo' st' ws,
        loop_turns fuel F client bo (history ++ w_ok :: rest) st
        = loop_turns (length rest) F client bo' rest st' /\
        same_settings bo bo' /\
        waits st' = (waits st ++ ws)%list.
Proof.
  intros Hok. induction n as [|n IH]; intros history Hn fuel bo st Hfuel.
  - destruct history as [|w history]; [|cbn in Hn; lia].
    cbn [app] in *. destruct fuel as [|fuel]; [cbn in Hfuel; lia|].
    cbn [loop_turns]. unfold bind at 1. unfold RetryNotify.
    destruct (retry_loop_reaches F client w_ok rest [] Hok
                (Backoff.Reset bo (now_backoff w_ok)) st)
      as (status & b' & worlds' & st' & ws & E1 & E2 & E3 & E4).
    cbn [app] in E1. rewrite E1.
    destruct E4 as [->|(shorter & _ & Hlen)]; [|cbn in Hlen; lia].
    exists b', st', ws. split; [|split].
    + apply loop_turns_enough; [cbn [length] in Hfuel; lia|apply Nat.le_refl].
    + exact (same_settings_trans _ _ _ (same_settings_Reset bo _) E2).
    + exact E3.
  - destruct fuel as [|fuel];
      [rewrite length_app in Hfuel; cbn in Hfuel; lia|].
    assert (Hhead : exists w ws0, (history ++ w_ok :: rest)%list = w :: ws0).
    { destruct history as [|w0 h0]; cbn [app]; eauto. }
    destruct Hhead as (w & ws0 & Hw).
    cbn [loop_turns]. rewrite Hw. unfold bind at 1. unfold RetryNotify.
    rewrite <- Hw.
    destruct (retry_loop_reaches F client w_ok rest history Hok
                (Backoff.Reset bo (now_backoff w)) st)
      as (status & b' & worlds' & st' & ws & E1 & E2 & E3 & E4).
    rewrite E1.
    pose proof (same_settings_trans _ _ _ (same_settings_Reset bo _) E2) as Hb.
    rewrite length_app in Hfuel. cbn [length] in Hfuel.
    destruct E4 as [->|(shorter & -> & Hlen)].
    + exists b', st', ws. split; [|split; assumption].
      apply loop_turns_enough; [lia|apply Nat.le_refl].
    + destruct (IH shorter ltac:(lia) fuel b' st')
        as (bo2 & st2 & ws2 & G1 & G2 & G3).
      { rewrite length_app. cbn [length]. lia. }
      exists bo2, st2, (ws ++ ws2)%list. split; [exact G1|]. split.
      * exact (same_settings_trans _ _ _ Hb G2).
      * rewrite G3, E3, <- app_assoc. reflexivity.
Qed.

(** X15. The backoff starts again after a poll that succeeds.  Whatever
    the polls before it did, once a poll has succeeded the wait after
    the next poll that fails is the one that the policy draws from the
    initial wait, with the randomization factor 0.5 and the sample of
    that poll, not from the interval that earlier failures had reached;
    there is no wait when that value is [Stop]. *)
Theorem backoff_restarts_after_success (F : Flags) (now : Z)
        (client : Http.Client) (history : list World) (w_ok w_fail : World)
        (st : State) :
  (forall st', fst (doPoll w_ok F client st') = None) ->
  (forall st', fst (doPoll w_fail F client st') <> None) ->
  let next :=
    Backoff.getRandomValueFromInterval (1 # 2) (rand_Float64 w_fail)
                                       (retryInitialWait F) in
  exists ws,
    waits (snd (loop F (newBackOffFromFlags F now) client
                     (history ++ [w_ok; w_fail]) st))
    = (waits st ++ ws
         ++ (if (next =? Backoff.Stop_)%Z then [] else [next]))%list.
Proof.
  intros Hok Hbad next. unfold loop.
  destruct (loop_turns_reaches F client w_ok [w_fail] Hok
              (length history) history (Nat.le_refl _)
              (length (history ++ [w_ok; w_fail]))
              (newBackOffFromFlags F now) st (Nat.le_refl _))
    as (bo' & st' & ws & E & (S1 & S2 & S3 & S4 & S5) & Ews).
  rewrite E. exists ws.
  cbn [length loop_turns]. unfold bind at 1. unfold RetryNotify.
  pose proof (doPoll_keeps_waits w_fail F client st') as Hkeep.
  specialize (Hbad st').
  destruct (doPoll w_fail F client st') as [[e|] st1] eqn:Hpoll;
    [|cbn in Hbad; congruence].
  cbn [snd] in Hkeep.
  pose proof (BackoffFacts.NextBackOff_unlimited
                (Backoff.Reset bo' (now_backoff w_fail))
                (now_backoff w_fail) (rand_Float64 w_fail)) as Hnext.
  cbn [Backoff.MaxElapsedTime Backoff.Reset Backoff.RandomizationFactor
       Backoff.currentInterval] in Hnext.
  rewrite S5, S2, S1 in Hnext. specialize (Hnext eq_refl).
  change (Backoff.RandomizationFactor (newBackOffFromFlags F now))
    with (1 # 2) in Hnext.
  change (Backoff.InitialInterval (newBackOffFromFlags F now))
    with (retryInitialWait F) in Hnext.
  fold next in Hnext.
  destruct (Backoff.NextBackOff (Backoff.Reset bo' (now_backoff w_fail))
              (now_backoff w_fail) (rand_Float64 w_fail)) as [next' b2] eqn:En.
  cbn [fst] in Hnext. subst next'.
  destruct (next =? Backoff.Stop_)%Z eqn:Hstop.
  - assert (Er : retry_loop F client (Backoff.Reset bo' (now_backoff w_fail))
                   [w_fail] st'
                 = (Returned (Some e), b2, [], st1)).
    { cbn [retry_loop]. unfold bind. rewrite Hpoll, En, Hstop. reflexivity. }
    rewrite Er. unfold ret. cbn [snd]. rewrite Hkeep, Ews, app_nil_r. reflexivity.
  - rewrite (retry_loop_turn F client w_fail [] _ b2 st' st1 e next
               Hpoll En Hstop).
    cbn [retry_loop loop_turns]. unfold ret. cbn [snd waits].
    rewrite Hkeep, Ews, <- app_assoc. reflexivity.
Qed.

(** Two polls that fail, one that succeeds and one that fails, with the
    initial wait of one second and the sample 0.5: the last wait is
    drawn from one second, and is a second. *)
Lemma backoff_restarts_after_success_witness :
  Backoff.getRandomValueFromInterval (1 # 2) (1 # 2) (1 * Backoff.Second)
  = 1000000000%Z /\
  exists ws,
    waits (snd (loop (Sample.flags false "9100")
                     (newBackOffFromFlags (Sample.flags false "9100") 0)
                     Sample.client
                     ([Sample.offline 0; Sample.offline 0]
                        ++ [Sample.world (Sample.job "host:9100" "");
                            Sample.offline (1 # 2)])
                     initial_state))
    = ([] ++ ws ++ [1000000000%Z])%list.
Proof.
  split; [vm_compute; reflexivity|].
  apply (backoff_restarts_after_success
           (Sample.flags false "9100") 0 Sample.client
           [Sample.offline 0; Sample.offline 0]
           (Sample.world (Sample.job "host:9100" ""))
           (Sample.offline (1 # 2)) initial_state).
  - intros st'. reflexivity.
  - intros st'. discriminate.
Defined.

End Extra.
